(** * qgis-flood: the point-layer creator and the water-level polygon generator

    A shallow embedding of [src/level.py] and [src/add_point.py].  Python
    floats are binary64 numbers (Rocq's primitive [float]); Python exceptions
    are values of [exn] carried by the [result] monad; the host application
    (layer registry, file system, processing toolbox) is explicit state.
    Strings are sequences of code points below 256. *)

From Stdlib Require Import ZArith Bool Ascii String DecimalString Floats Lia.
From stdpp Require Import base tactics option list gmap strings.

Local Open Scope Z_scope.

(** ** Python: exceptions and results *)

Module Py.

Inductive exn :=
| ValueError (msg : string)
| TypeError (msg : string)
| OverflowError (msg : string)
| KeyError (key : string)
| OSError (path : string)
| AttributeError (msg : string)
| StopIteration
| Exception (msg : string)
| QgsProcessingException (alg : string)
| SystemExit.         (* what [exit()] raises; a [BaseException], no [Exception] *)

Inductive result (A : Type) :=
| Return (a : A)
| Raise (e : exn).
Arguments Return {A} a.
Arguments Raise {A} e.

Definition bind {A B} (m : result A) (k : A -> result B) : result B :=
  match m with
  | Return a => k a
  | Raise e => Raise e
  end.

(** [next(it)] on a fresh iterator over [l] *)
Definition next {A} (l : list A) : result A :=
  match l with
  | a :: _ => Return a
  | [] => Raise StopIteration
  end.

(** [isinstance(e, ValueError)]: the test of the first [except] clause of both
    scripts. *)
Definition is_ValueError (e : exn) : bool :=
  match e with ValueError _ => true | _ => false end.

(** [isinstance(e, Exception)]: the test of an [except Exception] clause,
    which lets [SystemExit] pass. *)
Definition is_Exception (e : exn) : bool :=
  match e with SystemExit => false | _ => true end.

(** *** Characters and strings *)

Definition code (c : ascii) : Z := Z.of_nat (nat_of_ascii c).

Definition is_digit (c : ascii) : bool := (48 <=? code c) && (code c <=? 57).

(** [c.isspace()], which decides what [str.strip()] removes: TAB, LF, VT, FF,
    CR, FS, GS, RS, US, the blank, NEL and the no-break space. *)
Definition is_space (c : ascii) : bool :=
  ((9 <=? code c) && (code c <=? 13)) || ((28 <=? code c) && (code c <=? 32))
  || (code c =? 133) || (code c =? 160).

Definition lower (c : ascii) : ascii :=
  if (65 <=? code c) && (code c <=? 90)
  then ascii_of_nat (nat_of_ascii c + 32) else c.

Fixpoint lstrip (s : string) : string :=
  match s with
  | String c s' => if is_space c then lstrip s' else s
  | EmptyString => EmptyString
  end.

(** [rstrip] keeps a character when it is not a blank or something not blank
    follows it. *)
Fixpoint rstrip (s : string) : string :=
  match s with
  | String c s' =>
      match rstrip s' with
      | EmptyString => if is_space c then EmptyString else String c EmptyString
      | r => String c r
      end
  | EmptyString => EmptyString
  end.

(** [s.strip()] *)
Definition strip (s : string) : string := rstrip (lstrip s).

(** [s.startswith(p)], returning what follows the prefix. *)
Fixpoint strip_prefix (p s : string) : option string :=
  match p, s with
  | EmptyString, _ => Some s
  | String a p', String b s' => if Ascii.eqb a b then strip_prefix p' s' else None
  | String _ _, EmptyString => None
  end.

Definition startswith (s p : string) : bool := bool_decide (is_Some (strip_prefix p s)).

(** [s.endswith(p)] *)
Fixpoint endswith (s p : string) : bool :=
  String.eqb s p ||
  match s with
  | String _ s' => endswith s' p
  | EmptyString => false
  end.

(** [s.replace(old, new)] for a non-empty [old]: every occurrence, scanning
    from the left, occurrences not overlapping.  [skip] counts the characters
    of an occurrence just replaced that are still to be dropped. *)
Fixpoint replace_from (skip : nat) (old new s : string) : string :=
  match skip with
  | S k =>
      match s with
      | String _ s' => replace_from k old new s'
      | EmptyString => EmptyString
      end
  | O =>
      match s with
      | EmptyString => EmptyString
      | String c s' =>
          if startswith s old
          then new +:+ replace_from (String.length old - 1) old new s'
          else String c (replace_from 0 old new s')
      end
  end.

Definition replace (s old new : string) : string := replace_from 0 old new s.

End Py.

(** ** [os.path] (the POSIX flavour) and [pathlib] *)

Module OsPath.
Import Py.

Fixpoint take (n : nat) (s : string) : string :=
  match n, s with
  | S k, String c s' => String c (take k s')
  | _, _ => EmptyString
  end.

Fixpoint drop (n : nat) (s : string) : string :=
  match n, s with
  | S k, String _ s' => drop k s'
  | _, _ => s
  end.

(** [s.rfind(c)] for a character: the last index of [c], [-1] without one. *)
Fixpoint rfind (c : ascii) (s : string) : Z :=
  match s with
  | EmptyString => -1
  | String a s' =>
      let r := rfind c s' in
      if 0 <=? r then r + 1 else if Ascii.eqb a c then 0 else -1
  end.

(** [s.find(t)]: the first index at which [t] occurs. *)
Fixpoint find (t s : string) : option nat :=
  if startswith s t then Some 0%nat
  else match s with
       | String _ s' => S <$> find t s'
       | EmptyString => None
       end.

(** [os.path.basename(p)]: [p[p.rfind('/') + 1:]] *)
Definition basename (p : string) : string := drop (Z.to_nat (rfind "/" p + 1)) p.

Definition all_dots (s : string) : bool :=
  forallb (fun c => Ascii.eqb c ".") (list_ascii_of_string s).

(** [os.path.splitext(p)]: the extension starts at the last dot, when that dot
    comes after the last slash and after a character of the file name that is
    not a dot. *)
Definition splitext (p : string) : string * string :=
  let sepIndex := rfind "/" p in
  let dotIndex := rfind "." p in
  if (sepIndex <? dotIndex) &&
     negb (all_dots (take (Z.to_nat (dotIndex - (sepIndex + 1)))
                          (drop (Z.to_nat (sepIndex + 1)) p)))
  then (take (Z.to_nat dotIndex) p, drop (Z.to_nat dotIndex) p)
  else (p, EmptyString).

(** [os.path.join(a, b)] *)
Definition join (a b : string) : string :=
  if startswith b "/" then b
  else if String.eqb a EmptyString || endswith a "/" then a +:+ b
  else a +:+ "/" +:+ b.

(** [s.split('/')] *)
Fixpoint split_slash (s : string) : list string :=
  match s with
  | EmptyString => [EmptyString]
  | String c s' =>
      if Ascii.eqb c "/" then EmptyString :: split_slash s'
      else match split_slash s' with
           | part :: parts => String c part :: parts
           | [] => [String c EmptyString]
           end
  end.

(** [str(Path(p) / child)] for a one-component [child]: [Path] keeps one or
    two leading slashes and drops empty and [.] components. *)
Definition path_div (p child : string) : string :=
  let root :=
    if startswith p "//" && negb (startswith p "///") then "//"
    else if startswith p "/" then "/" else EmptyString in
  let parts :=
    filter (fun part => part <> EmptyString /\ part <> ".") (split_slash p) in
  root +:+ foldr (fun part rest => part +:+ "/" +:+ rest) child parts.

End OsPath.

(** ** Python floats: conversions from and to text *)

Module PyFloat.
Import Py.

(** [float(n)] for an [int]: rounded to nearest, ties to even; an [int] beyond
    the largest float raises [OverflowError]. *)
Definition float_of_int (n : Z) : result float :=
  let x := SF2Prim (binary_normalize prec emax n 0 false) in
  if is_infinity x
  then Raise (OverflowError "int too large to convert to float")
  else Return x.

(** *** [float(s)] for a [str]

    The grammar of CPython's [float_from_string]: blanks stripped, underscores
    only between two digits, then a sign and either [inf], [infinity], [nan]
    (any case) or digits with an optional point and an optional exponent. *)

(** What [float()] strips from both ends.  Of the code points above 127 the
    white space is first read as a blank; then the blanks of the C locale go:
    TAB, LF, VT, FF, CR and the blank.  FS, GS, RS and US stay, and make the
    text unreadable. *)
Definition float_space (c : ascii) : bool :=
  ((9 <=? code c) && (code c <=? 13)) || (code c =? 32)
  || (code c =? 133) || (code c =? 160).

Fixpoint float_lstrip (s : string) : string :=
  match s with
  | String c s' => if float_space c then float_lstrip s' else s
  | EmptyString => EmptyString
  end.

Fixpoint float_rstrip (s : string) : string :=
  match s with
  | String c s' =>
      match float_rstrip s' with
      | EmptyString => if float_space c then EmptyString else String c EmptyString
      | r => String c r
      end
  | EmptyString => EmptyString
  end.

Definition float_strip (s : string) : string := float_rstrip (float_lstrip s).

Fixpoint drop_underscores (prev : ascii) (s : string) : option string :=
  match s with
  | EmptyString => if Ascii.eqb prev "_" then None else Some EmptyString
  | String c s' =>
      if Ascii.eqb c "_"
      then if is_digit prev then drop_underscores c s' else None
      else if Ascii.eqb prev "_" && negb (is_digit c) then None
      else String c <$> drop_underscores c s'
  end.

Fixpoint read_digits (acc : Z) (n : nat) (s : string) : Z * nat * string :=
  match s with
  | String c s' =>
      if is_digit c then read_digits (10 * acc + (code c - 48)) (S n) s' else (acc, n, s)
  | EmptyString => (acc, n, s)
  end.

Definition read_sign (s : string) : bool * string :=
  match s with
  | String "-" s' => (true, s')
  | String "+" s' => (false, s')
  | _ => (false, s)
  end.

(** A decimal numeral as [(D, E)], standing for [D * 10^E]. *)
Definition read_number (s : string) : option (Z * Z) :=
  let '(ip, n1, r1) := read_digits 0 0 s in
  let '(D, n2, r2) :=
    match r1 with
    | String "." r => read_digits ip 0 r
    | _ => (ip, 0%nat, r1)
    end in
  if bool_decide (n1 + n2 = 0)%nat then None else
  match r2 with
  | EmptyString => Some (D, - Z.of_nat n2)
  | String c r =>
      if Ascii.eqb (lower c) "e" then
        let '(neg, r3) := read_sign r in
        let '(ev, n3, r4) := read_digits 0 0 r3 in
        if bool_decide (n3 = 0)%nat then None else
        match r4 with
        | EmptyString => Some (D, (if neg then - ev else ev) - Z.of_nat n2)
        | _ => None
        end
      else None
  end.

(** The float nearest to [(-1)^neg * D * 10^E] (ties to even; too large a
    value gives an infinity, too small a zero). *)
Definition decimal_to_float (neg : bool) (D E : Z) : float :=
  SF2Prim
    (if D =? 0 then S754_zero neg
     else if 0 <=? E
     then binary_normalize prec emax ((if neg then -1 else 1) * (D * 10 ^ E)) 0 false
     else let '(q, e, l) := SFdiv_core_binary prec emax D 0 (10 ^ (- E)) 0 in
          binary_round_aux prec emax neg q e l).

Definition string_lower (s : string) : string :=
  string_of_list_ascii (lower <$> list_ascii_of_string s).

Definition parse_float (s : string) : option float :=
  s1 ← drop_underscores "000" (float_strip s);
  let '(neg, body) := read_sign s1 in
  let low := string_lower body in
  if String.eqb low "inf" || String.eqb low "infinity"
  then Some (if neg then neg_infinity else infinity)
  else if String.eqb low "nan" then Some nan
  else '(D, E) ← read_number body; Some (decimal_to_float neg D E).

(** [repr(s)] for a [str], as the error message of [float] quotes the text:
    in single quotes, or in double quotes when the text holds a single quote
    and no double quote; the quote and the backslash escaped, TAB, LF and CR
    written [\t], [\n], [\r], and any other code point that is not printable
    written [\xhh]. *)
Definition printable (c : ascii) : bool :=
  ((32 <=? code c) && (code c <=? 126)) || ((161 <=? code c) && negb (code c =? 173)).

Definition hex_digit (n : Z) : ascii :=
  ascii_of_nat (Z.to_nat (if n <? 10 then 48 + n else 87 + n)).

Definition escape (quote c : ascii) : string :=
  if Ascii.eqb c quote || Ascii.eqb c "\" then String "\" (String c EmptyString)
  else if code c =? 9 then "\t"
  else if code c =? 10 then "\n"
  else if code c =? 13 then "\r"
  else if printable c then String c EmptyString
  else String "\" (String "x" (String (hex_digit (code c / 16))
                                  (String (hex_digit (code c mod 16)) EmptyString))).

Definition contains (c : ascii) (s : string) : bool :=
  existsb (Ascii.eqb c) (list_ascii_of_string s).

Definition str_repr (s : string) : string :=
  let quote := if contains "'" s && negb (contains "034" s) then "034"%char else "'"%char in
  String quote
    (foldr (fun c rest => escape quote c +:+ rest) (String quote EmptyString)
       (list_ascii_of_string s)).

Definition float_of_str (s : string) : result float :=
  match parse_float s with
  | Some x => Return x
  | None => Raise (ValueError ("could not convert string to float: " +:+ str_repr s))
  end.

(** *** [repr(x)] and [format(x, ".1f")]

    Exact arithmetic on fractions [(num, den)] of integers. *)

Definition pow_frac (b k : Z) : Z * Z :=
  if 0 <=? k then (b ^ k, 1) else (1, b ^ (- k)).

Definition digits_of_Z (n : Z) : string :=
  DecimalString.NilZero.string_of_uint (N.to_uint (Z.to_N n)).

Fixpoint zeros (n : nat) : string :=
  match n with
  | O => EmptyString
  | S k => String "0" (zeros k)
  end.

Definition sign_text (neg : bool) : string := if neg then "-" else EmptyString.

(** The decimal exponent [p] of [x = m * 2^e > 0]: [10^(p-1) <= x < 10^p]. *)
Definition decimal_point (m e : Z) : Z :=
  let '(pn, pd) := pow_frac 2 e in
  let below p := let '(tn, td) := pow_frac 10 p in m * pn * td <? tn * pd in
  let p0 := ((Z.log2 m + e) * 30103) / 100000 in
  if below p0 then p0 else if below (p0 + 1) then p0 + 1 else p0 + 2.

(** Whether the decimal [d * 10^k] reads back as the float [m * 2^e]: it lies
    between the midpoints to the neighbouring floats (bounds included when [m]
    is even).  Quantities are in units of [2^(e-2)]. *)
Definition reads_back (m e d k : Z) : bool :=
  let '(un, ud) := pow_frac 2 (e - 2) in
  let '(tn, td) := pow_frac 10 k in
  let gap_below := if (m =? 2 ^ 52) && (emin <? e) then 1 else 2 in
  let lo := (4 * m - gap_below) * un * td in
  let hi := (4 * m + 2) * un * td in
  let v := d * tn * ud in
  if Z.even m then (lo <=? v) && (v <=? hi) else (lo <? v) && (v <? hi).

(** The best decimal with [n] significant digits, when one reads back: of the
    two decimals around [x] the nearer one, the even one on a tie. *)
Definition candidate (m e p : Z) (n : Z) : option (Z * Z) :=
  let k := p - n in
  let '(pn, pd) := pow_frac 2 e in
  let '(tn, td) := pow_frac 10 k in
  let num := m * pn * td in
  let den := pd * tn in
  let lo := num / den in
  let hi := if num mod den =? 0 then lo else lo + 1 in
  let lo_ok := reads_back m e lo k in
  let hi_ok := reads_back m e hi k in
  let hi_nearer :=
    ((lo + hi) * den <? 2 * num) || (((lo + hi) * den =? 2 * num) && Z.odd lo) in
  if hi_ok && (negb lo_ok || hi_nearer) then Some (hi, k)
  else if lo_ok then Some (lo, k)
  else None.

Fixpoint shortest (m e p : Z) (n : Z) (fuel : nat) : Z * Z :=
  match fuel with
  | O => (m * 2 ^ (e + 1074) * 5 ^ 1074, -1074)
  | S fuel' =>
      match candidate m e p n with
      | Some dk => dk
      | None => shortest m e p (n + 1) fuel'
      end
  end.

Fixpoint strip_zeros (d k : Z) (fuel : nat) : Z * Z :=
  match fuel with
  | O => (d, k)
  | S fuel' => if (d mod 10 =? 0) && negb (d =? 0) then strip_zeros (d / 10) (k + 1) fuel' else (d, k)
  end.

(** Layout of [repr]: positional when the decimal point sits within
    [-4 < decpt <= 16], otherwise with an exponent of at least two digits. *)
Definition layout (digits : string) (decpt : Z) : string :=
  let n := Z.of_nat (String.length digits) in
  if (decpt <=? -4) || (16 <? decpt) then
    let ex := decpt - 1 in
    let mant :=
      match digits with
      | String c EmptyString => digits
      | String c rest => String c ("." +:+ rest)
      | EmptyString => digits
      end in
    let et := digits_of_Z (Z.abs ex) in
    mant +:+ "e" +:+ (if ex <? 0 then "-" else "+")
         +:+ (if Z.abs ex <? 10 then "0" else EmptyString) +:+ et
  else if decpt <=? 0 then "0." +:+ zeros (Z.to_nat (- decpt)) +:+ digits
  else if decpt <? n then
    String.substring 0 (Z.to_nat decpt) digits +:+ "." +:+
    String.substring (Z.to_nat decpt) (Z.to_nat (n - decpt)) digits
  else digits +:+ zeros (Z.to_nat (decpt - n)) +:+ ".0".

(** [repr(x)], also what an f-string writes for [{x}]: the shortest decimal
    that reads back as [x]. *)
Definition repr (x : float) : string :=
  match Prim2SF x with
  | S754_nan => "nan"
  | S754_infinity neg => sign_text neg +:+ "inf"
  | S754_zero neg => sign_text neg +:+ "0.0"
  | S754_finite neg m e =>
      let m := Z.pos m in
      let '(d, k) := shortest m e (decimal_point m e) 1 17 in
      let '(d, k) := strip_zeros d k 400 in
      let digits := digits_of_Z d in
      sign_text neg +:+ layout digits (Z.of_nat (String.length digits) + k)
  end.

(** [format(x, ".1f")]: one digit after the point, the exact value rounded to
    nearest, ties to even. *)
Definition format_1f (x : float) : string :=
  match Prim2SF x with
  | S754_nan => "nan"
  | S754_infinity neg => sign_text neg +:+ "inf"
  | S754_zero neg => sign_text neg +:+ "0.0"
  | S754_finite neg m e =>
      let '(pn, pd) := pow_frac 2 e in
      let num := Z.pos m * pn * 10 in
      let q := num / pd in
      let r2 := 2 * (num mod pd) in
      let r := if r2 <? pd then q else if pd <? r2 then q + 1
               else if Z.even q then q else q + 1 in
      sign_text neg +:+ digits_of_Z (r / 10) +:+ "." +:+ digits_of_Z (r mod 10)
  end.

End PyFloat.

(** ** Python objects held by attributes *)

Module PyObject.
Import Py PyFloat.

Inductive pyobject :=
| PyNone
| PyBool (b : bool)
| PyInt (n : Z)
| PyFloat (x : float)
| PyStr (s : string)
| PyOther (type_name : string).   (* a date, a list, ...: no conversion to float *)

(** [type(o).__name__] *)
Definition type_name_of (o : pyobject) : string :=
  match o with
  | PyNone => "NoneType"
  | PyBool _ => "bool"
  | PyInt _ => "int"
  | PyFloat _ => "float"
  | PyStr _ => "str"
  | PyOther type_name => type_name
  end.

(** [float(o)] *)
Definition py_float (o : pyobject) : result float :=
  match o with
  | PyFloat x => Return x
  | PyInt n => float_of_int n
  | PyBool b => Return (if b then 1%float else 0%float)
  | PyStr s => float_of_str s
  | PyNone | PyOther _ =>
      Raise (TypeError ("float() argument must be a string or a real number, not '"
                        +:+ type_name_of o +:+ "'"))
  end.

(** [o is None] *)
Definition is_None (o : pyobject) : bool :=
  match o with PyNone => true | _ => false end.

End PyObject.

(** ** The host's data: geometries, features, layers *)

Module Qgis.
Import Py PyObject.

(** The WKB types of the geometries of a point layer: the single points,
    which [asPoint()] reads, and the multi-points. *)
Inductive WkbType :=
| Point | PointZ | PointM | PointZM | Point25D
| MultiPoint | MultiPointZ | MultiPointM | MultiPointZM | MultiPoint25D.

#[export] Instance WkbType_eq_dec : EqDecision WkbType.
Proof. solve_decision. Defined.

(** A vertex; a coordinate the geometry does not carry is NaN. *)
Record QgsPoint := { x : float; y : float; z : float }.

(** A point geometry: its type and its vertex, [None] when it is empty. *)
Record QgsGeometry := { wkbType : WkbType; vertex : option QgsPoint }.

Definition isEmpty (g : QgsGeometry) : bool := bool_decide (vertex g = None).

(** [g.vertexAt(0)]: the empty point off the end. *)
Definition vertexAt0 (g : QgsGeometry) : QgsPoint :=
  default {| x := nan; y := nan; z := nan |} (vertex g).

(** [QgsWkbTypes.flatType(t) == QgsWkbTypes.Point] *)
Definition is_single_point (t : WkbType) : bool :=
  match t with
  | Point | PointZ | PointM | PointZM | Point25D => true
  | MultiPoint | MultiPointZ | MultiPointM | MultiPointZM | MultiPoint25D => false
  end.

(** [QgsWkbTypes.hasZ(t)] *)
Definition hasZ (t : WkbType) : bool :=
  match t with
  | PointZ | PointZM | Point25D | MultiPointZ | MultiPointZM | MultiPoint25D => true
  | Point | PointM | MultiPoint | MultiPointM => false
  end.

(** [QgsWkbTypes.displayString(t)] *)
Definition displayString (t : WkbType) : string :=
  match t with
  | Point => "Point" | PointZ => "PointZ" | PointM => "PointM" | PointZM => "PointZM"
  | Point25D => "Point25D"
  | MultiPoint => "MultiPoint" | MultiPointZ => "MultiPointZ" | MultiPointM => "MultiPointM"
  | MultiPointZM => "MultiPointZM" | MultiPoint25D => "MultiPoint25D"
  end.

(** [g.asPoint()] on a geometry that is not null: only a single point is
    read, any other geometry raises [TypeError]. *)
Definition asPoint (g : QgsGeometry) : result QgsPoint :=
  if is_single_point (wkbType g) then Return (vertexAt0 g)
  else Raise (TypeError (displayString (wkbType g) +:+
                " geometry cannot be converted to a point. Only Point types are permitted.")).

Inductive FieldType := IntField | DoubleField | StringField.

Record QgsField := { name : string; type : FieldType }.

(** A feature: its geometry and, field by field, its attributes. *)
Record QgsFeature := {
  geometry : QgsGeometry;
  attributes : list (QgsField * pyobject)
}.

(** [feature.fields()] *)
Definition fields (f : QgsFeature) : list QgsField := fst <$> attributes f.

(** [[field.name() for field in feature.fields()]] *)
Definition field_names (f : QgsFeature) : list string := name <$> fields f.

(** [feature.attributes()] *)
Definition attribute_values (f : QgsFeature) : list pyobject := snd <$> attributes f.

(** The attribute of the first field of that name. *)
Fixpoint lookup_attribute (key : string) (attrs : list (QgsField * pyobject)) : option pyobject :=
  match attrs with
  | [] => None
  | (fld, v) :: rest => if String.eqb (name fld) key then Some v else lookup_attribute key rest
  end.

(** [feature[key]] *)
Definition getitem (f : QgsFeature) (key : string) : result pyobject :=
  match lookup_attribute key (attributes f) with
  | Some v => Return v
  | None => Raise (KeyError key)
  end.

Inductive Provider := memory | ogr.

(** A vector layer of points. *)
Record QgsVectorLayer := {
  vid : string;              (* layer.id() *)
  vname : string;            (* layer.name() *)
  vsource : string;          (* layer.source() *)
  vprovider : Provider;
  vvalid : bool;             (* layer.isValid() *)
  vfields : list QgsField;
  features : list QgsFeature (* layer.getFeatures(), in the provider's order *)
}.

(** [layer.featureCount()], for a provider whose count is the number of
    features it iterates. *)
Definition featureCount (l : QgsVectorLayer) : nat := length (features l).

Record QgsRasterLayer := {
  rid : string;
  rname : string;
  rsource : string
}.

(** A polygon of a vectorized mask: the mask value it covers and its outline. *)
Record Polygon := { DN : Z; outline : string }.

#[export] Instance Polygon_eq_dec : EqDecision Polygon.
Proof. solve_decision. Defined.

(** The three settings of [QgsFillSymbol.createSimple]. *)
Record QgsFillSymbol := { color : string; outline_color : string; outline_width : string }.

(** A vector layer of polygons, with its selection and its fill symbol. *)
Record QgsPolygonLayer := {
  pid : string;
  pname : string;
  psource : string;
  polygons : list Polygon;
  selected : list Polygon;
  symbol : option QgsFillSymbol
}.

Definition set_selected (sel : list Polygon) (l : QgsPolygonLayer) : QgsPolygonLayer :=
  {| pid := pid l; pname := pname l; psource := psource l; polygons := polygons l;
     selected := sel; symbol := symbol l |}.

Definition setSymbol (sym : QgsFillSymbol) (l : QgsPolygonLayer) : QgsPolygonLayer :=
  {| pid := pid l; pname := pname l; psource := psource l; polygons := polygons l;
     selected := selected l; symbol := Some sym |}.

Inductive QgsMapLayer :=
| VectorLayer (l : QgsVectorLayer)
| PolygonLayer (l : QgsPolygonLayer)
| RasterLayer (l : QgsRasterLayer).

Definition layer_id (l : QgsMapLayer) : string :=
  match l with
  | VectorLayer v => vid v
  | PolygonLayer p => pid p
  | RasterLayer r => rid r
  end.

End Qgis.

(** ** The raster calculator's expressions *)

Module RasterCalc.
Import Py OsPath PyFloat.

Inductive calc_expr :=
| Ref (layer : string) (band : Z)     (* "layer@band" *)
| Num (x : float)
| Add (a b : calc_expr)               (* (a+b) *)
| Less (a b : calc_expr).             (* a < b *)

Definition dquote : string := String "034" EmptyString.

(** The text of an expression, numbers written as an f-string writes them. *)
Fixpoint render (e : calc_expr) : string :=
  match e with
  | Ref layer band => dquote +:+ layer +:+ "@" +:+ digits_of_Z band +:+ dquote
  | Num x => repr x
  | Add a b => "(" +:+ render a +:+ "+" +:+ render b +:+ ")"
  | Less a b => render a +:+ " < " +:+ render b
  end.

(** The value of an expression at one cell; [cell layer band] is the value of
    that cell in a referenced band, [None] for a reference that names no
    layer.  A comparison yields 1 or 0. *)
Fixpoint eval (cell : string -> Z -> option float) (e : calc_expr) : option float :=
  match e with
  | Ref layer band => cell layer band
  | Num x => Some x
  | Add a b => x ← eval cell a; y ← eval cell b; Some (x + y)%float
  | Less a b => x ← eval cell a; y ← eval cell b;
                Some (if (x <? y)%float then 1%float else 0%float)
  end.

(** A cell of the mask is set when the expression is 1 there. *)
Definition is_set (r : option float) : bool :=
  match r with
  | Some v => (v =? 1)%float
  | None => false
  end.

(** *** The calculator's reading of a text

    The part of the calculator's grammar that the texts of this program need:
    a quoted reference, [<], and a parenthesised sum of two numbers, with
    blanks allowed between them.  A number is digits with an optional point
    and an optional exponent, read to the nearest float; a minus sign before
    it negates it.  A text of any other shape is outside this model and has
    no reading. *)

Definition is_blank (c : ascii) : bool :=
  (code c =? 32) || (code c =? 9) || (code c =? 10) || (code c =? 13).

Fixpoint skip_blanks (s : string) : string :=
  match s with
  | String c s' => if is_blank c then skip_blanks s' else s
  | EmptyString => EmptyString
  end.

(** What follows an opening double quote, up to the closing one; a backslash
    starts an escape, which this model does not read. *)
Fixpoint read_quoted (s : string) : option (string * string) :=
  match s with
  | EmptyString => None
  | String c s' =>
      if Ascii.eqb c "034" then Some (EmptyString, s')
      else if Ascii.eqb c "092" then None
      else '(content, rest) ← read_quoted s'; Some (String c content, rest)
  end.

(** A name that a quoted reference holds as it is. *)
Definition plain_name (name : string) : bool :=
  forallb (fun c => negb (Ascii.eqb c "034") && negb (Ascii.eqb c "092"))
          (list_ascii_of_string name).

(** A reference [name@band]: the band is the digits after the last [@]. *)
Definition read_reference (content : string) : option calc_expr :=
  let i := rfind "@" content in
  if 0 <=? i then
    match read_digits 0 0 (drop (Z.to_nat (i + 1)) content) with
    | (band, S _, EmptyString) => Some (Ref (take (Z.to_nat i) content) band)
    | _ => None
    end
  else None.

(** A number without a sign, and what follows it. *)
Definition read_unsigned (s : string) : option (float * string) :=
  let '(ip, n1, r1) := read_digits 0 0 s in
  let '(D, n2, r2) :=
    match r1 with
    | String "." r => read_digits ip 0 r
    | _ => (ip, 0%nat, r1)
    end in
  if bool_decide (n1 + n2 = 0)%nat then None else
  let without_exponent := Some (decimal_to_float false D (- Z.of_nat n2), r2) in
  match r2 with
  | String c r =>
      if Ascii.eqb (lower c) "e" then
        let '(neg, r3) := read_sign r in
        let '(ev, n3, r4) := read_digits 0 0 r3 in
        if bool_decide (n3 = 0)%nat then without_exponent
        else Some (decimal_to_float false D ((if neg then - ev else ev) - Z.of_nat n2), r4)
      else without_exponent
  | EmptyString => without_exponent
  end.

(** A number, or a minus sign and a number. *)
Definition read_atom (s : string) : option (float * string) :=
  match s with
  | String "-" s' => '(x, r) ← read_unsigned (skip_blanks s'); Some ((- x)%float, r)
  | _ => read_unsigned s
  end.

Definition read_expression (text : string) : option calc_expr :=
  s1 ← strip_prefix dquote (skip_blanks text);
  '(content, s2) ← read_quoted s1;
  reference ← read_reference content;
  s3 ← strip_prefix "<" (skip_blanks s2);
  s4 ← strip_prefix "(" (skip_blanks s3);
  '(a, s5) ← read_atom (skip_blanks s4);
  s6 ← strip_prefix "+" (skip_blanks s5);
  '(b, s7) ← read_atom (skip_blanks s6);
  s8 ← strip_prefix ")" (skip_blanks s7);
  if String.eqb (skip_blanks s8) EmptyString
  then Some (Less reference (Add (Num a) (Num b)))
  else None.

(** A number that the calculator reads back from the text an f-string writes
    for it, when a [+] or a [)] follows. *)
Definition reads_back (x : float) : Prop :=
  forall rest, (exists r, rest = String "+" r \/ rest = String ")" r) ->
    read_atom (skip_blanks (repr x +:+ rest)) = Some (x, rest).

End RasterCalc.

(** ** The host: project registry, file system, processing toolbox *)

Module Host.
Import Py PyFloat PyObject Qgis OsPath.

Inductive Content :=
| RasterData
| PolygonData (ps : list Polygon)
| PointData (fs : list QgsFeature)
| Sidecar.

Inductive Severity := information | warning | critical.

(** The external calls that can fail. *)
Inductive Step :=
| makedirs_step
| rastercalc_step
| polygonize_step
| selectbylocation_step
| saveselectedfeatures_step
| renderer_step
| remove_step (path : string)
| writer_step
| memory_step
| ogr_step.

#[export] Instance Step_eq_dec : EqDecision Step.
Proof. solve_decision. Defined.

Inductive Call :=
| rastercalc (LAYERS : list string) (EXPRESSION EXTENT : string)
             (CELL_SIZE : option float) (CRS : option string) (OUTPUT : string)
| polygonize (INPUT : string) (BAND : Z) (FIELD : string)
             (EIGHT_CONNECTEDNESS : bool) (EXTRA OUTPUT : string)
| selectbylocation (INPUT : QgsPolygonLayer) (PREDICATE : list Z)
                   (INTERSECT : QgsVectorLayer) (METHOD : Z)
| saveselectedfeatures (INPUT : QgsPolygonLayer) (OUTPUT : string).

(** What the scripts do not decide: which external calls fail, what the
    vectorization of a mask holds, which polygons meet which points, what the
    providers make of what they are given, and the settings of the running
    application. *)
Record Host := {
  fails : Step -> bool;
  vectorized : list Polygon;
  intersects : Polygon -> QgsGeometry -> bool;
  homePath : string;
  crs_authid : string;
  canvas_extent : float * float * float * float;   (* xmin, xmax, ymin, ymax *)
  canvas_crs : string;
  writer_error : string;                (* writer.errorMessage() of a writer that failed *)
  memory_keeps_z : bool;                (* a memory layer declared without Z keeps the Z of
                                           a geometry added to it, or drops it *)
  reloaded : QgsFeature -> QgsFeature   (* a feature written to a shapefile, as the ogr
                                           provider reads it back *)
}.

Record World := {
  files : gmap string Content;
  directories : gset string;
  layers : gmap string QgsMapLayer;     (* QgsProject.instance().mapLayers() *)
  calls : list Call;                    (* processing.run calls, oldest first *)
  dialogs : list (Severity * string * string);
  uid : Z                               (* the next layer id's suffix *)
}.

Definition set_files (f : gmap string Content -> gmap string Content) (w : World) : World :=
  {| files := f (files w); directories := directories w; layers := layers w;
     calls := calls w; dialogs := dialogs w; uid := uid w |}.

Definition set_directories (f : gset string -> gset string) (w : World) : World :=
  {| files := files w; directories := f (directories w); layers := layers w;
     calls := calls w; dialogs := dialogs w; uid := uid w |}.

Definition set_layers (f : gmap string QgsMapLayer -> gmap string QgsMapLayer) (w : World) : World :=
  {| files := files w; directories := directories w; layers := f (layers w);
     calls := calls w; dialogs := dialogs w; uid := uid w |}.

Definition set_calls (f : list Call -> list Call) (w : World) : World :=
  {| files := files w; directories := directories w; layers := layers w;
     calls := f (calls w); dialogs := dialogs w; uid := uid w |}.

Definition set_dialogs (f : list (Severity * string * string) -> list (Severity * string * string))
  (w : World) : World :=
  {| files := files w; directories := directories w; layers := layers w;
     calls := calls w; dialogs := f (dialogs w); uid := uid w |}.

Definition set_uid (f : Z -> Z) (w : World) : World :=
  {| files := files w; directories := directories w; layers := layers w;
     calls := calls w; dialogs := dialogs w; uid := f (uid w) |}.

(** *** Statements: a state that survives a raised exception *)

Definition M (A : Type) : Type := World -> result A * World.

Definition ret {A} (a : A) : M A := fun w => (Return a, w).

Definition raise {A} (e : exn) : M A := fun w => (Raise e, w).

Definition mbind {A B} (m : M A) (k : A -> M B) : M B := fun w =>
  match m w with
  | (Return a, w') => k a w'
  | (Raise e, w') => (Raise e, w')
  end.

Definition lift {A} (r : result A) : M A := fun w => (r, w).

Definition modify (f : World -> World) : M unit := fun w => (Return tt, f w).

Definition gets {A} (f : World -> A) : M A := fun w => (Return (f w), w).

(** [try: body except Exception as e: handler(e)] *)
Definition try_except {A} (body : M A) (handler : exn -> M A) : M A := fun w =>
  match body w with
  | (Return a, w') => (Return a, w')
  | (Raise e, w') => if is_Exception e then handler e w' else (Raise e, w')
  end.

(** An external call that raises [e] when the host makes it fail. *)
Definition external (h : Host) (s : Step) (e : exn) : M unit :=
  if fails h s then raise e else ret tt.

(** *** The file system *)

(** [os.makedirs(path, exist_ok=True)] *)
Definition makedirs (h : Host) (path : string) : M unit :=
  mbind (external h makedirs_step (OSError path)) (fun _ =>
  modify (set_directories (fun d => {[ path ]} ∪ d))).

(** [os.path.exists(path)] *)
Definition exists_ (path : string) : M bool :=
  gets (fun w => bool_decide (is_Some (files w !! path) \/ path ∈ directories w)).

(** [os.remove(path)] *)
Definition remove (h : Host) (path : string) : M unit :=
  mbind (external h (remove_step path) (OSError path)) (fun _ =>
  mbind (gets (fun w => files w !! path)) (fun c =>
  match c with
  | Some _ => modify (set_files (delete path))
  | None => raise (OSError path)
  end)).

(** The file that goes with a shapefile under another extension. *)
Definition sidecar (path ext : string) : string := (splitext path).1 +:+ ext.

(** The files there once a shapefile and the files that go with it are
    written. *)
Definition shapefile_files (path : string) (c : Content) (exts : list string)
  (fs : gmap string Content) : gmap string Content :=
  <[ path := c ]> (foldr (fun ext fs' => <[ sidecar path ext := Sidecar ]> fs') fs exts).

Definition write_shapefile (path : string) (c : Content) (exts : list string) : M unit :=
  modify (set_files (shapefile_files path c exts)).

(** *** The project *)

(** The id of a new layer: its name and a suffix not used before. *)
Definition fresh_id (name : string) : M string := fun w =>
  (Return (name +:+ "_" +:+ digits_of_Z (uid w)), set_uid Z.succ w).

(** [QgsProject.instance().addMapLayer(layer)]: the layer, now registered. *)
Definition addMapLayer (l : QgsMapLayer) : M QgsMapLayer :=
  mbind (modify (set_layers (insert (layer_id l) l))) (fun _ => ret l).

(** [QgsProject.instance().removeMapLayer(id)] *)
Definition removeMapLayer (id : string) : M unit :=
  modify (set_layers (delete id)).

(** [QgsVectorLayer(path, name, "ogr")] over a file of polygons. *)
Definition open_polygon_layer (path name : string) : M QgsPolygonLayer :=
  mbind (fresh_id name) (fun id =>
  mbind (gets (fun w => files w !! path)) (fun c =>
  ret {| pid := id; pname := name; psource := path;
         polygons := match c with Some (PolygonData ps) => ps | _ => [] end;
         selected := []; symbol := None |})).

(** [QgsVectorLayer(path, name, "ogr")] over a file of points.  Whether the
    provider finds the file valid, and what it reads back from it, are the
    host's to say. *)
Definition open_point_layer (h : Host) (path name : string) : M QgsVectorLayer :=
  mbind (fresh_id name) (fun id =>
  mbind (gets (fun w => files w !! path)) (fun c =>
  let read := match c with Some (PointData fs) => reloaded h <$> fs | _ => [] end in
  ret {| vid := id; vname := name; vsource := path; vprovider := ogr;
         vvalid := match c with
                   | Some (PointData _) => negb (fails h ogr_step)
                   | _ => false
                   end;
         vfields := match read with f :: _ => fields f | [] => [] end;
         features := read |})).

(** *** The processing toolbox *)

Definition log_call (c : Call) : M unit := modify (set_calls (fun cs => cs ++ [c])).

(** [processing.run("native:rastercalc", ...)]: writes the mask. *)
Definition run_rastercalc (h : Host) (LAYERS : list string) (EXPRESSION EXTENT : string)
  (CELL_SIZE : option float) (CRS : option string) (OUTPUT : string) : M unit :=
  mbind (log_call (rastercalc LAYERS EXPRESSION EXTENT CELL_SIZE CRS OUTPUT)) (fun _ =>
  mbind (external h rastercalc_step (QgsProcessingException "native:rastercalc")) (fun _ =>
  modify (set_files (insert OUTPUT RasterData)))).

(** [processing.run("gdal:polygonize", ...)]: writes the polygons of the mask
    as a shapefile. *)
Definition run_polygonize (h : Host) (INPUT : string) (BAND : Z) (FIELD : string)
  (EIGHT_CONNECTEDNESS : bool) (EXTRA OUTPUT : string) : M unit :=
  mbind (log_call (polygonize INPUT BAND FIELD EIGHT_CONNECTEDNESS EXTRA OUTPUT)) (fun _ =>
  mbind (external h polygonize_step (QgsProcessingException "gdal:polygonize")) (fun _ =>
  write_shapefile OUTPUT (PolygonData (vectorized h)) [".shx"; ".dbf"; ".prj"])).

(** The polygons of [input] that meet a feature of [intersect_layer]. *)
Definition select_intersecting (h : Host) (ps : list Polygon) (intersect_layer : QgsVectorLayer)
  : list Polygon :=
  filter (fun poly => Exists (fun f => intersects h poly (geometry f) = true)
                             (features intersect_layer)) ps.

(** [processing.run("native:selectbylocation", ...)] with the predicate
    "intersects" and a new selection: the layer with its selection set; the
    registered layer of the same id is that same object. *)
Definition run_selectbylocation (h : Host) (INPUT : QgsPolygonLayer) (PREDICATE : list Z)
  (INTERSECT : QgsVectorLayer) (METHOD : Z) : M QgsPolygonLayer :=
  mbind (log_call (selectbylocation INPUT PREDICATE INTERSECT METHOD)) (fun _ =>
  mbind (external h selectbylocation_step (QgsProcessingException "native:selectbylocation")) (fun _ =>
  let l := set_selected (select_intersecting h (polygons INPUT) INTERSECT) INPUT in
  mbind (modify (set_layers (alter (fun _ => PolygonLayer l) (pid l)))) (fun _ =>
  ret l))).

(** [processing.run("native:saveselectedfeatures", ...)] *)
Definition run_saveselectedfeatures (h : Host) (INPUT : QgsPolygonLayer) (OUTPUT : string) : M unit :=
  mbind (log_call (saveselectedfeatures INPUT OUTPUT)) (fun _ =>
  mbind (external h saveselectedfeatures_step (QgsProcessingException "native:saveselectedfeatures")) (fun _ =>
  write_shapefile OUTPUT (PolygonData (selected INPUT)) [".shx"; ".dbf"; ".prj"; ".cpg"])).

End Host.

(** ** The memory provider *)

Module MemoryProvider.
Import Py OsPath PyFloat PyObject Qgis Host.

(** The text before the first [c], and the text after it when there is one. *)
Fixpoint cut (c : ascii) (s : string) : string * option string :=
  match s with
  | EmptyString => (EmptyString, None)
  | String a s' =>
      if Ascii.eqb a c then (EmptyString, Some s')
      else let '(before, after) := cut c s' in (String a before, after)
  end.

(** [s.split(c)] *)
Fixpoint split_on (c : ascii) (s : string) : list string :=
  match s with
  | EmptyString => [EmptyString]
  | String a s' =>
      if Ascii.eqb a c then EmptyString :: split_on c s'
      else match split_on c s' with
           | part :: parts => String a part :: parts
           | [] => [String a EmptyString]
           end
  end.

(** The geometry type a URI declares, read without regard to case.  Only the
    types of points have a place in this model, whose vector layers are layers
    of points: a URI that declares another type counts as one the provider
    makes no valid layer of. *)
Definition declared_type (type_text : string) : option WkbType :=
  snd <$> List.find (fun entry => String.eqb (fst entry) (string_lower type_text))
    [("point", Point); ("pointz", PointZ); ("pointm", PointM); ("pointzm", PointZM);
     ("point25d", Point25D); ("multipoint", MultiPoint); ("multipointz", MultiPointZ);
     ("multipointm", MultiPointM); ("multipointzm", MultiPointZM);
     ("multipoint25d", MultiPoint25D)].

(** The type a field definition names after its last colon; dates, times,
    binaries and booleans are kept as text here. *)
Definition field_type (type_text : string) : option FieldType :=
  let t := string_lower type_text in
  if bool_decide (t ∈ ["int"; "integer"; "long"; "int8"]) then Some IntField
  else if bool_decide (t ∈ ["real"; "double"]) then Some DoubleField
  else if bool_decide (t ∈ ["string"; "date"; "time"; "datetime"; "binary"; "bool"; "boolean"])
  then Some StringField
  else None.

(** [field=name:type]; without a type the field is a text field named by the
    whole definition. *)
Definition field_of (definition : string) : QgsField :=
  let i := rfind ":" definition in
  if 0 <=? i then
    match field_type (drop (Z.to_nat (i + 1)) definition) with
    | Some t => {| name := take (Z.to_nat i) definition; type := t |}
    | None => {| name := definition; type := StringField |}
    end
  else {| name := definition; type := StringField |}.

(** The fields of the [field=] options of a query, in their order. *)
Definition fields_of_query (query : string) : list QgsField :=
  omap (fun option => field_of <$> strip_prefix "field=" option) (split_on "&" query).

(** [QgsVectorLayer(uri, name, "memory")]: the geometry type is the text
    before the question mark, the options follow it, separated by [&]. *)
Definition open_memory_layer (h : Host) (uri name : string) : M QgsVectorLayer :=
  mbind (fresh_id name) (fun id =>
  let '(type_text, query) := cut "?" uri in
  ret {| vid := id; vname := name; vsource := uri; vprovider := memory;
         vvalid := bool_decide (is_Some (declared_type type_text))
                   && negb (fails h memory_step);
         vfields := fields_of_query (default EmptyString query);
         features := [] |}).

(** A value as a field of a type stores it: a value of the field's own type
    and [None] are stored as they are; what the provider makes of any other
    value is not followed here, and counts as refused. *)
Definition stored_value (t : FieldType) (v : pyobject) : option pyobject :=
  match t, v with
  | _, PyNone => Some PyNone
  | IntField, PyInt n => if (- 2 ^ 31 <=? n) && (n <? 2 ^ 31) then Some v else None
  | DoubleField, PyFloat _ => Some v
  | StringField, PyStr _ => Some v
  | _, _ => None
  end.

Fixpoint stored_values (flds : list QgsField) (values : list pyobject)
  : option (list (QgsField * pyobject)) :=
  match flds, values with
  | [], [] => Some []
  | fld :: flds', v :: values' =>
      v' ← stored_value (type fld) v;
      rest ← stored_values flds' values';
      Some ((fld, v') :: rest)
  | _, _ => None      (* not as many values as fields *)
  end.

(** A point geometry as a layer of the declared type stores it. *)
Definition stored_geometry (h : Host) (declared : option WkbType) (g : QgsGeometry)
  : QgsGeometry :=
  if memory_keeps_z h || from_option hasZ false declared then g
  else {| wkbType := if is_single_point (wkbType g) then Point else MultiPoint;
          vertex := (fun p => {| x := x p; y := y p; z := nan |}) <$> vertex g |}.

(** [layer.addFeature(feature)] and [layer.commitChanges()] for a feature with
    the layer's fields, the geometry [g] and the attributes [values]: a
    feature that is refused leaves the layer as it was. *)
Definition add_feature (h : Host) (layer : QgsVectorLayer) (g : QgsGeometry)
  (values : list pyobject) : QgsVectorLayer :=
  match stored_values (vfields layer) values with
  | Some attrs =>
      {| vid := vid layer; vname := vname layer; vsource := vsource layer;
         vprovider := vprovider layer; vvalid := vvalid layer; vfields := vfields layer;
         features := features layer ++
           [{| geometry := stored_geometry h (declared_type (cut "?" (vsource layer)).1) g;
               attributes := attrs |}] |}
  | None => layer
  end.

End MemoryProvider.

(** ** level.py: the base elevation of the reference point *)

Module Level.
Import Py PyFloat PyObject Qgis OsPath RasterCalc Host.

Definition msg_empty_layer : string := "Point layer is empty or invalid".
Definition msg_empty_geometry : string := "Point geometry is empty".
Definition msg_nan : string := "Point Z coordinate is not valid (NaN)".
Definition msg_no_z : string := "Point layer has no Z coordinate in geometry or attributes".

(** The specification's names of the four failures of the extraction. *)
Definition EmptyInputError : exn := ValueError msg_empty_layer.
Definition InvalidGeometryError : exn := ValueError msg_empty_geometry.
Definition InvalidValueError : exn := ValueError msg_nan.
Definition MissingElevationError : exn := ValueError msg_no_z.

Definition z_types : list WkbType := [Point25D; PointZ; PointZM].

Definition elevation_fields : list string := ["z"; "Z"; "elevation"; "elev"; "height"].

(** The [for field_name in [...]] loop of [get_base_elevation_from_point] and
    the [raise] after it. *)
Fixpoint probe_attributes (first_feature : QgsFeature) (names : list string)
  : result float :=
  match names with
  | [] => Raise (ValueError msg_no_z)
  | field_name :: rest =>
      if bool_decide (field_name ∈ field_names first_feature) then
        bind (getitem first_feature field_name) (fun z_value =>
          if negb (is_None z_value) then py_float z_value
          else probe_attributes first_feature rest)
      else probe_attributes first_feature rest
  end.

(** [WaterLevelDialog.get_base_elevation_from_point]; [point_layer] is [None]
    for a layer that is not there. *)
Definition get_base_elevation_from_point (point_layer : option QgsVectorLayer)
  : result float :=
  match point_layer with
  | None => Raise (ValueError msg_empty_layer)
  | Some layer =>
      if bool_decide (featureCount layer = 0%nat) then Raise (ValueError msg_empty_layer)
      else
        bind (next (features layer)) (fun first_feature =>
          let geometry := geometry first_feature in
          if isEmpty geometry then Raise (ValueError msg_empty_geometry)
          else
            bind (asPoint geometry) (fun point =>
            if bool_decide (wkbType geometry ∈ z_types) then
              let vertex := vertexAt0 geometry in
              if negb (z vertex =? z vertex)%float
              then Raise (ValueError msg_nan)
              else Return (z vertex)
            else probe_attributes first_feature elevation_fields))
  end.

(** *** level.py: the polygon pipeline *)

(** [dem_name = os.path.splitext(os.path.basename(dem_path))[0]] *)
Definition dem_name (dem_path : string) : string := (splitext (basename dem_path)).1.

(** The layer the expression refers to: [f"{dem_name}.tif"] *)
Definition referenced_layer (dem_path : string) : string := dem_name dem_path +:+ ".tif".

(** [f'"{dem_name}.tif@1" < ({base_elevation}+{level})'] *)
Definition expression_text (dem_path : string) (base_elevation level : float) : string :=
  dquote +:+ dem_name dem_path +:+ ".tif@1" +:+ dquote +:+ " < ("
         +:+ repr base_elevation +:+ "+" +:+ repr level +:+ ")".

(** The expression that text stands for. *)
Definition expression (dem_path : string) (base_elevation level : float) : calc_expr :=
  Less (Ref (referenced_layer dem_path) 1) (Add (Num base_elevation) (Num level)).

(** The threshold predicate at a cell of value [dem_value], the reference
    read as the DEM. *)
Definition inundated (base_elevation level dem_value : float) (dem_path : string) : bool :=
  is_set (eval (fun _ _ => Some dem_value) (expression dem_path base_elevation level)).

(** The value of the mask at a cell, as the calculator finds it from the text
    the program hands it.  [cell name band] is the value at that cell of a
    band of a raster the calculator knows under [name]; there is no value
    when the text has no reading or names a raster the calculator does not
    know. *)
Definition mask_value (cell : string -> Z -> option float) (dem_path : string)
  (base_elevation level : float) : option float :=
  e ← read_expression (expression_text dem_path base_elevation level); eval cell e.

Definition flagged (cell : string -> Z -> option float) (dem_path : string)
  (base_elevation level : float) : bool :=
  is_set (mask_value cell dem_path base_elevation level).

Definition level_folder (output_dir : string) (level : float) : string :=
  join output_dir ("water_level_" +:+ repr level +:+ "m").

Definition raster_output (output_dir : string) (level : float) : string :=
  join (level_folder output_dir level) (repr level +:+ "_level.tif").

Definition temp_polygon_output (output_dir : string) (level : float) : string :=
  join (level_folder output_dir level) (repr level +:+ "_level_polygon_temp.shp").

Definition filtered_polygon_output (output_dir : string) (level : float) : string :=
  join (level_folder output_dir level) (repr level +:+ "_level_polygon.shp").

Definition sidecar_exts : list string := [".shx"; ".dbf"; ".prj"; ".cpg"].

Definition fill_symbol : QgsFillSymbol :=
  {| color := "0,100,255,100"; outline_color := "0,50,200,200"; outline_width := "0.5" |}.

(** The [for ext in [...]] loop of the clean-up. *)
Fixpoint remove_associated (h : Host) (temp_polygon_output : string) (exts : list string)
  : M unit :=
  match exts with
  | [] => ret tt
  | ext :: rest =>
      let temp_file := replace temp_polygon_output ".shp" ext in
      mbind (exists_ temp_file) (fun there =>
      mbind (if there then remove h temp_file else ret tt) (fun _ =>
      remove_associated h temp_polygon_output rest))
  end.

(** [create_water_level_polygon]; the [print]s are left out. *)
Definition create_water_level_polygon (h : Host) (dem_layer : QgsRasterLayer)
  (point_layer : QgsVectorLayer) (level base_elevation : float)
  (extent output_dir : string) : M string :=
  let level_folder := level_folder output_dir level in
  mbind (makedirs h level_folder) (fun _ =>
  let dem_path := rsource dem_layer in
  (* Step 1 *)
  let raster_output := raster_output output_dir level in
  mbind (run_rastercalc h [dem_path] (expression_text dem_path base_elevation level)
                        extent None None raster_output) (fun _ =>
  (* Step 2 *)
  let temp_polygon_output := temp_polygon_output output_dir level in
  mbind (run_polygonize h raster_output 1 "DN" true EmptyString temp_polygon_output) (fun _ =>
  (* Step 3 *)
  let filtered_polygon_output := filtered_polygon_output output_dir level in
  mbind (open_polygon_layer temp_polygon_output "temp_polygons") (fun temp_polygon_layer =>
  mbind (addMapLayer (PolygonLayer temp_polygon_layer)) (fun _ =>
  mbind (run_selectbylocation h temp_polygon_layer [0] point_layer 0) (fun temp_polygon_layer =>
  mbind (run_saveselectedfeatures h temp_polygon_layer filtered_polygon_output) (fun _ =>
  mbind (removeMapLayer (pid temp_polygon_layer)) (fun _ =>
  (* Step 4 *)
  mbind (open_polygon_layer filtered_polygon_output
           ("Water Level " +:+ repr level +:+ "m (Base: " +:+ format_1f base_elevation +:+ "m)"))
        (fun layer =>
  mbind (addMapLayer (PolygonLayer layer)) (fun _ =>
  mbind (external h renderer_step (AttributeError "renderer")) (fun _ =>
  mbind (modify (set_layers (alter (fun _ => PolygonLayer (setSymbol fill_symbol layer)) (pid layer))))
        (fun _ =>
  (* Clean up temporary file *)
  mbind (exists_ temp_polygon_output) (fun there =>
  mbind (if there
         then mbind (remove h temp_polygon_output) (fun _ =>
              remove_associated h temp_polygon_output sidecar_exts)
         else ret tt) (fun _ =>
  ret filtered_polygon_output)))))))))))))).

(** *** level.py: the form and the script *)

Record Form := {
  accepted : bool;                         (* dialog.exec_() == QDialog.Accepted *)
  dem_combo : option QgsRasterLayer;       (* dem_combo.currentData() *)
  point_combo : option QgsVectorLayer;     (* point_combo.currentData() *)
  level_spinbox : float;
  canvas_radio : bool;
  extent_input : string
}.

(** [WaterLevelDialog.get_values] *)
Definition get_values (h : Host) (form : Form)
  : result (QgsRasterLayer * QgsVectorLayer * float * float * string) :=
  match dem_combo form with
  | None => Raise (ValueError "No DEM layer selected")
  | Some dem_layer =>
      match point_combo form with
      | None => Raise (ValueError "No point layer selected")
      | Some point_layer =>
          bind (get_base_elevation_from_point (Some point_layer)) (fun base_elevation =>
          let level := level_spinbox form in
          bind (if canvas_radio form then
                  let '(xmin, xmax, ymin, ymax) := canvas_extent h in
                  Return (repr xmin +:+ "," +:+ repr xmax +:+ "," +:+ repr ymin +:+ ","
                           +:+ repr ymax +:+ " [" +:+ canvas_crs h +:+ "]")
                else
                  let extent_string := strip (extent_input form) in
                  if String.eqb extent_string EmptyString
                  then Raise (ValueError "Custom extent cannot be empty")
                  else Return extent_string) (fun extent_string =>
          Return (dem_layer, point_layer, base_elevation, level, extent_string)))
      end
  end.

(** [get_user_inputs]; [None] stands for the tuple of five [None]s. *)
Definition get_user_inputs (h : Host) (form : Form)
  : result (option (QgsRasterLayer * QgsVectorLayer * float * float * string)) :=
  if accepted form then bind (get_values h form) (fun v => Return (Some v))
  else Return None.

(** [str(e)].  The text of an error that a file operation or an algorithm of
    the toolbox raises is the host's; it stands here as the path and as the
    id of the algorithm. *)
Definition exn_text (e : exn) : string :=
  match e with
  | ValueError m | TypeError m | OverflowError m | AttributeError m | Exception m => m
  | KeyError k => k
  | OSError path => path
  | StopIteration | SystemExit => EmptyString
  | QgsProcessingException alg => alg
  end.

(** The two [except] clauses both scripts end with. *)
Definition report (e : exn) : M unit :=
  if is_ValueError e
  then modify (set_dialogs (fun ds => ds ++ [(warning, "Input Error", exn_text e)]))
  else modify (set_dialogs (fun ds => ds ++ [(critical, "Unexpected Error",
                                             "An error occurred: " +:+ exn_text e)])).

(** The script: the [try] block and its handlers. *)
Definition script (h : Host) (form : Form) : M unit :=
  try_except
    (mbind (lift (get_user_inputs h form)) (fun inputs =>
     match inputs with
     | None => raise SystemExit     (* "Operation cancelled by user"; exit() *)
     | Some (dem_layer, point_layer, base_elevation, level, extent) =>
         let project_home := homePath h in
         mbind (create_water_level_polygon h dem_layer point_layer level base_elevation
                  extent (path_div project_home "output")) (fun polygon_path =>
         ret tt)
     end))
    report.

End Level.

(** ** add_point.py *)

Module AddPoint.
Import Py PyFloat PyObject Qgis OsPath Host MemoryProvider.

#[local] Set Warnings "-inexact-float".

Record Form := {
  accepted : bool;
  name_input : string;
  x_spinbox : float;
  y_spinbox : float;
  z_spinbox : float;
  output_file_path : option string
}.

(** The form as it opens. *)
Definition default_form : Form :=
  {| accepted := true;
     name_input := "measurement_point";
     x_spinbox := 641056.0;
     y_spinbox := 162787.0;
     z_spinbox := 88.86;
     output_file_path := None |}.

(** [choose_output_file], from what the file dialog returned (the empty string
    when it was dismissed) to [self.output_file_path]. *)
Definition choose_output_file (file_path : string) : option string :=
  if negb (String.eqb file_path EmptyString)
  then Some (if negb (endswith file_path ".shp") then file_path +:+ ".shp" else file_path)
  else None.

(** [CreatePointLayerDialog.get_values] *)
Definition get_values (form : Form) : result (string * float * float * float * option string) :=
  let layer_name := strip (name_input form) in
  if String.eqb layer_name EmptyString then Raise (ValueError "Layer name cannot be empty")
  else Return (layer_name, x_spinbox form, y_spinbox form, z_spinbox form, output_file_path form).

Definition layer_fields : list QgsField :=
  [ {| name := "id"; type := IntField |};
    {| name := "x"; type := DoubleField |};
    {| name := "y"; type := DoubleField |};
    {| name := "z"; type := DoubleField |};
    {| name := "name"; type := StringField |} ].

(** [QgsGeometry.fromPoint(QgsPoint(x, y, z))] *)
Definition point_geometry (x y z : float) : QgsGeometry :=
  {| wkbType := PointZ; vertex := Some {| Qgis.x := x; Qgis.y := y; Qgis.z := z |} |}.

(** [[1, x, y, z, layer_name]] *)
Definition point_attributes (layer_name : string) (x y z : float) : list pyobject :=
  [PyInt 1; PyFloat x; PyFloat y; PyFloat z; PyStr layer_name].

(** The feature handed to the file writer: [QgsFeature(fields)] with that
    geometry and those attributes. *)
Definition point_feature (flds : list QgsField) (layer_name : string) (x y z : float) : QgsFeature :=
  {| geometry := point_geometry x y z;
     attributes := zip flds (point_attributes layer_name x y z) |}.

Definition layer_uri (h : Host) : string :=
  "Point?crs=" +:+ crs_authid h
    +:+ "&field=id:integer&field=x:double&field=y:double&field=z:double&field=name:string".

(** Python's truth of [output_file_path]. *)
Definition chosen (output_file_path : option string) : option string :=
  match output_file_path with
  | Some path => if String.eqb path EmptyString then None else Some path
  | None => None
  end.

(** [create_point_layer]; the [print]s are left out.  The results of the two
    [addFeature] calls are not looked at. *)
Definition create_point_layer (h : Host) (layer_name : string) (x y z : float)
  (output_file_path : option string) : M QgsVectorLayer :=
  let fields := layer_fields in
  mbind
    (match chosen output_file_path with
     | Some path =>
         mbind (external h writer_step
                  (Exception ("Error creating shapefile: " +:+ writer_error h))) (fun _ =>
         let feature := point_feature fields layer_name x y z in
         mbind (write_shapefile path (PointData [feature]) [".shx"; ".dbf"; ".prj"; ".cpg"]) (fun _ =>
         open_point_layer h path layer_name))
     | None =>
         let layer_uri := layer_uri h in
         mbind (open_memory_layer h layer_uri layer_name) (fun layer =>
         if negb (vvalid layer) then raise (Exception "Failed to create memory layer")
         else
           ret (add_feature h layer (point_geometry x y z)
                  (point_attributes layer_name x y z)))
     end) (fun layer =>
  if negb (vvalid layer) then raise (Exception "Created layer is not valid")
  else
    mbind (addMapLayer (VectorLayer layer)) (fun _ =>
    ret layer)).

Definition get_user_inputs (form : Form)
  : result (option (string * float * float * float * option string)) :=
  if accepted form then bind (get_values form) (fun v => Return (Some v))
  else Return None.

Definition newline : string := String "010" EmptyString.

(** The script: the [try] block and its handlers; [None] when no layer was
    made. *)
Definition script (h : Host) (form : Form) : M (option QgsVectorLayer) :=
  try_except
    (mbind (lift (get_user_inputs form)) (fun inputs =>
     match inputs with
     | None => ret None     (* "Operation cancelled by user" *)
     | Some (layer_name, x, y, z, output_file) =>
         mbind (create_point_layer h layer_name x y z output_file) (fun layer =>
         mbind (modify (set_dialogs (fun ds => ds ++
                  [(information, "Success",
                    "Point layer '" +:+ layer_name +:+ "' created successfully!" +:+ newline
                      +:+ "Point coordinates: (" +:+ repr x +:+ ", " +:+ repr y +:+ ", "
                      +:+ repr z +:+ ")")]))) (fun _ =>
         ret (Some layer)))
     end))
    (fun e => mbind (Level.report e) (fun _ => ret None)).

End AddPoint.

(** ** What the specification says, in its own words *)

Module Spec.
Import Py PyFloat PyObject Qgis OsPath RasterCalc Host Level.

(** An attribute that is present and not null. *)
Definition present (f : QgsFeature) (field_name : string) : option pyobject :=
  v ← lookup_attribute field_name (attributes f);
  if is_None v then None else Some v.

(** The first attribute, in the order of [names], that is present and not
    null. *)
Definition first_present (f : QgsFeature) (names : list string) : option pyobject :=
  head (omap (present f) names).

(** A geometry without a Z coordinate. *)
Definition two_dimensional (g : QgsGeometry) : Prop :=
  wkbType g = Point \/ wkbType g = PointM.

(** The same layer over other features. *)
Definition with_features (l : QgsVectorLayer) (feats : list QgsFeature) : QgsVectorLayer :=
  {| vid := vid l; vname := vname l; vsource := vsource l; vprovider := vprovider l;
     vvalid := vvalid l; vfields := vfields l; features := feats |}.

(** The reference geometries a spatial filter against [point_layer] uses. *)
Definition filter_references (point_layer : QgsVectorLayer) : list QgsGeometry :=
  geometry <$> features point_layer.

(** [ext] occurs in [path] once, as its last characters. *)
Definition only_as_extension (ext path : string) : Prop :=
  find ext path = Some (String.length path - String.length ext)%nat.

(** The files the three tools of a successful run have written, over the
    files [fs] there before. *)
Definition written (h : Host) (point_layer : QgsVectorLayer) (output_dir : string)
  (level : float) (fs : gmap string Content) : gmap string Content :=
  shapefile_files (filtered_polygon_output output_dir level)
    (PolygonData (select_intersecting h (vectorized h) point_layer))
    [".shx"; ".dbf"; ".prj"; ".cpg"]
    (shapefile_files (temp_polygon_output output_dir level)
       (PolygonData (vectorized h)) [".shx"; ".dbf"; ".prj"]
       (<[ raster_output output_dir level := RasterData ]> fs)).

(** The layer a successful run registers. *)
Definition result_layer (h : Host) (point_layer : QgsVectorLayer) (output_dir : string)
  (level base_elevation : float) (w : World) : QgsPolygonLayer :=
  let layer_name :=
    "Water Level " +:+ repr level +:+ "m (Base: " +:+ format_1f base_elevation +:+ "m)" in
  {| pid := layer_name +:+ "_" +:+ digits_of_Z (Z.succ (uid w));
     pname := layer_name;
     psource := filtered_polygon_output output_dir level;
     polygons := select_intersecting h (vectorized h) point_layer;
     selected := [];
     symbol := Some fill_symbol |}.

End Spec.

(** ** Sample data *)

Module Examples.
Import Py PyFloat PyObject Qgis OsPath RasterCalc Host Level.

#[local] Set Warnings "-inexact-float".

Definition double (n : string) : QgsField := {| name := n; type := DoubleField |}.
Definition text (n : string) : QgsField := {| name := n; type := StringField |}.

Definition point_layer (feats : list QgsFeature) : QgsVectorLayer :=
  {| vid := "points_0"; vname := "points"; vsource := "/data/points.shp"; vprovider := ogr;
     vvalid := true;
     vfields := match feats with f :: _ => fields f | [] => [] end;
     features := feats |}.

Definition at_xy (t : WkbType) (zz : float) : QgsGeometry :=
  {| wkbType := t; vertex := Some {| x := 641056.0; y := 162787.0; z := zz |} |}.

(** A 3D point whose attributes disagree with its Z. *)
Definition survey_mark : QgsFeature :=
  {| geometry := at_xy PointZ 88.86;
     attributes := [(double "z", PyFloat 1.0); (text "elevation", PyStr "n/a");
                    (double "height", PyFloat 9.0)] |}.

(** The 2D point of the specification: [elevation=12.5] and [height=9.0]. *)
Definition flat_mark : QgsFeature :=
  {| geometry := at_xy Point nan;
     attributes := [(text "name", PyStr "gauge"); (double "elevation", PyFloat 12.5);
                    (double "height", PyFloat 9.0)] |}.

(** A 2D point read from a table of texts: no elevation was entered. *)
Definition text_mark : QgsFeature :=
  {| geometry := at_xy Point nan;
     attributes := [(text "name", PyStr "gauge"); (text "elevation", PyStr "n/a");
                    (double "height", PyFloat 9.0)] |}.

(** A 2D point with a null [z] and a field whose name differs in case only. *)
Definition bare_mark : QgsFeature :=
  {| geometry := at_xy Point nan;
     attributes := [(double "z", PyNone); (double "Elevation", PyFloat 12.5)] |}.

(** Two marks of one survey, west and east of a ridge. *)
Definition west_mark : QgsFeature :=
  {| geometry := at_xy PointZ 88.86;
     attributes := [(text "name", PyStr "west")] |}.

Definition east_mark : QgsFeature :=
  {| geometry := {| wkbType := PointZ;
                    vertex := Some {| x := 641900.0; y := 162787.0; z := 70.0 |} |};
     attributes := [(text "name", PyStr "east")] |}.

Definition west_basin : Polygon := {| DN := 1; outline := "west basin" |}.
Definition ridge : Polygon := {| DN := 0; outline := "ridge" |}.
Definition east_basin : Polygon := {| DN := 1; outline := "east basin" |}.

(** A cell of a calculator that knows one raster, under the name [name], with
    the value [dem_value] there in band 1. *)
Definition known_as (name : string) (dem_value : float) (layer : string) (band : Z)
  : option float :=
  if String.eqb layer name && (band =? 1) then Some dem_value else None.

(** A host where every call works; the mask has two basins and a ridge, and a
    point lies in the basin on its side of x = 641500. *)
Definition working_host : Host :=
  {| fails := fun _ => false;
     vectorized := [west_basin; ridge; east_basin];
     intersects := fun poly g =>
       match vertex g with
       | Some p => String.eqb (outline poly)
                     (if (x p <? 641500.0)%float then "west basin" else "east basin")
       | None => false
       end;
     homePath := "/home/user/flood";
     crs_authid := "EPSG:23700";
     canvas_extent := (640000.0, 643000.0, 161000.0, 164000.0)%float;
     canvas_crs := "EPSG:23700";
     writer_error := "Opening of data source failed";
     memory_keeps_z := true;
     reloaded := fun f => f |}.

(** The same host, but one external call fails. *)
Definition failing_host (s : Step) : Host :=
  {| fails := fun s' => bool_decide (s' = s);
     vectorized := vectorized working_host;
     intersects := intersects working_host;
     homePath := homePath working_host;
     crs_authid := crs_authid working_host;
     canvas_extent := canvas_extent working_host;
     canvas_crs := canvas_crs working_host;
     writer_error := writer_error working_host;
     memory_keeps_z := memory_keeps_z working_host;
     reloaded := reloaded working_host |}.

Definition srtm : QgsRasterLayer :=
  {| rid := "srtm_0"; rname := "srtm"; rsource := "/data/dem/srtm.tif" |}.

(** A project with nothing loaded and no file written, and one that shows the
    DEM and the points. *)
(** A host whose memory provider drops the Z of a point added to a layer
    declared without Z. *)
Definition flattening_host : Host :=
  {| fails := fails working_host;
     vectorized := vectorized working_host;
     intersects := intersects working_host;
     homePath := homePath working_host;
     crs_authid := crs_authid working_host;
     canvas_extent := canvas_extent working_host;
     canvas_crs := canvas_crs working_host;
     writer_error := writer_error working_host;
     memory_keeps_z := false;
     reloaded := reloaded working_host |}.

Definition empty_world : World :=
  {| files := ∅; directories := ∅; layers := ∅; calls := []; dialogs := []; uid := 0 |}.

Definition project (points : QgsVectorLayer) : World :=
  {| files := ∅; directories := ∅;
     layers := {[ rid srtm := RasterLayer srtm; vid points := VectorLayer points ]};
     calls := []; dialogs := []; uid := 0 |}.

(** The form as it opens, the DEM and the points chosen. *)
Definition flood_form (points : QgsVectorLayer) : Level.Form :=
  {| Level.accepted := true; dem_combo := Some srtm; point_combo := Some points;
     level_spinbox := 10.0; canvas_radio := true; extent_input := EmptyString |}.

End Examples.

(** ** Binary64 numbers as integers

    The model of the processor's arithmetic that the floats are specified
    by, read through an integer scale. *)

Module Binary64.

(** The value of a binary64 number in units of [2^-1074], the infinities at
    [2^2098] and [-2^2098], just beyond the largest finite number. *)
Definition huge : Z := 2 ^ 2098.

Definition scaled (x : spec_float) : Z :=
  match x with
  | S754_zero _ => 0
  | S754_nan => 0
  | S754_infinity s => if s then - huge else huge
  | S754_finite s m e => if s then - (Z.pos m * 2 ^ (e + 1074)) else Z.pos m * 2 ^ (e + 1074)
  end.

(** Rounding at bit [k]: the quotient by [2^k], moved up when the remainder
    is above the half, or at the half with an odd quotient. *)
Definition round_at (k N : Z) : Z :=
  (if (2 ^ k <? 2 * (N mod 2 ^ k)) || ((2 ^ k =? 2 * (N mod 2 ^ k)) && Z.odd (N / 2 ^ k))
   then N / 2 ^ k + 1 else N / 2 ^ k).

(** Rounding of a natural number of units to 53 significant bits, to nearest,
    ties to even. *)
Definition round_pos (N : Z) : Z :=
  let k := Z.max (Z.log2 N + 1 - 53) 0 in
  round_at k N * 2 ^ k.

(** Rounding of an integer number of units, overflowing to the infinities. *)
Definition round (N : Z) : Z := Z.sgn N * Z.min (round_pos (Z.abs N)) huge.

(** Not a number. *)
Definition not_a_number (x : spec_float) : bool :=
  match x with S754_nan => true | _ => false end.

(** A zero or a finite number. *)
Definition is_number (x : spec_float) : bool :=
  match x with S754_zero _ | S754_finite _ _ _ => true | _ => false end.

Definition signed (s : bool) (v : Z) : Z := if s then - v else v.

(** After [j] steps the record holds the quotient of [M] by [2^j]; the round
    bit is the half of the remainder and the sticky bit tells whether anything
    is left below it. *)
Definition shifted (M j : Z) (rec : shr_record) : Prop :=
  0 <= shr_m rec /\
  exists t, 0 <= t /\
    M = shr_m rec * 2 ^ j + (if shr_r rec then 2 ^ (j - 1) else 0) + t /\
    (j = 0 -> t = 0 /\ shr_r rec = false) /\
    (0 < j -> t < 2 ^ (j - 1)) /\
    shr_s rec = negb (t =? 0).

End Binary64.

(** ** The runs of the pipeline, named *)

Module Run.
Import Py PyFloat PyObject Qgis OsPath RasterCalc Host Level.

Definition temp_id (w : World) : string := "temp_polygons_" +:+ digits_of_Z (uid w).

(** The layer of unfiltered polygons, as it is opened. *)
Definition temp_layer (h : Host) (output_dir : string) (level : float) (w : World)
  : QgsPolygonLayer :=
  {| pid := temp_id w; pname := "temp_polygons";
     psource := temp_polygon_output output_dir level;
     polygons := vectorized h; selected := []; symbol := None |}.

(** The same layer once the selection by location has run. *)
Definition selected_layer (h : Host) (point_layer : QgsVectorLayer) (output_dir : string)
  (level : float) (w : World) : QgsPolygonLayer :=
  set_selected (select_intersecting h (vectorized h) point_layer)
    (temp_layer h output_dir level w).

(** The four calls of a run, in order. *)
Definition toolbox_calls (h : Host) (dem_layer : QgsRasterLayer) (point_layer : QgsVectorLayer)
  (level base_elevation : float) (extent output_dir : string) (w : World) : list Call :=
  [ rastercalc [rsource dem_layer] (expression_text (rsource dem_layer) base_elevation level)
      extent None None (raster_output output_dir level);
    polygonize (raster_output output_dir level) 1 "DN" true EmptyString
      (temp_polygon_output output_dir level);
    selectbylocation (temp_layer h output_dir level w) [0] point_layer 0;
    saveselectedfeatures (selected_layer h point_layer output_dir level w)
      (filtered_polygon_output output_dir level) ].

(** The paths a run writes or removes. *)
Definition touched_paths (output_dir : string) (level : float) : list string :=
  [raster_output output_dir level; temp_polygon_output output_dir level;
   filtered_polygon_output output_dir level]
  ++ (sidecar (temp_polygon_output output_dir level) <$> [".shx"; ".dbf"; ".prj"])
  ++ (sidecar (filtered_polygon_output output_dir level) <$> sidecar_exts)
  ++ (replace (temp_polygon_output output_dir level) ".shp" <$> sidecar_exts).

End Run.

(** ** The flood form over a project *)

Module Dialog.
Import Py PyObject Qgis Host Level.

(** [QgsProject.instance().mapLayers().values()]; no property below depends on
    the order of the layers. *)
Definition mapLayers_values (w : World) : list QgsMapLayer := (map_to_list (layers w)).*2.

(** [populate_raster_layers]: the items of [dem_combo], each with its text and
    its data. *)
Definition populate_raster_layers (w : World) : list (string * QgsRasterLayer) :=
  omap (fun layer => match layer with
                     | RasterLayer r => Some (rname r, r)
                     | _ => None
                     end) (mapLayers_values w).

(** [populate_point_layers]: the items of [point_combo]; of the vector layers
    only those of points are added. *)
Definition populate_point_layers (w : World) : list (string * QgsVectorLayer) :=
  omap (fun layer => match layer with
                     | VectorLayer v => Some (vname v, v)
                     | _ => None
                     end) (mapLayers_values w).

(** [combo.currentData()]: the data of the current item, [None] when there is
    none. *)
Definition currentData {A} (items : list (string * A)) (currentIndex : nat) : option A :=
  snd <$> items !! currentIndex.

(** What the user does with the form. *)
Record Choices := {
  ok : bool;
  dem_index : nat;
  point_index : nat;
  level_value : float;
  use_canvas : bool;
  extent_text : string
}.

(** The form of [WaterLevelDialog], opened over the project [w], as the user
    leaves it. *)
Definition dialog (w : World) (c : Choices) : Level.Form :=
  {| accepted := ok c;
     dem_combo := currentData (populate_raster_layers w) (dem_index c);
     point_combo := currentData (populate_point_layers w) (point_index c);
     level_spinbox := level_value c;
     canvas_radio := use_canvas c;
     extent_input := extent_text c |}.

End Dialog.

(** * Properties *)

Import Py PyFloat PyObject Qgis OsPath RasterCalc Host MemoryProvider Level Spec.

#[local] Set Warnings "-inexact-float".

(** ** The base elevation *)

Lemma lookup_attribute_elem (key : string) (attrs : list (QgsField * pyobject)) :
  key ∈ (name <$> (fst <$> attrs)) <-> is_Some (lookup_attribute key attrs).
Proof.
  induction attrs as [|[fld v] attrs IH]; simpl.
  - split; [intros H; inversion H | intros [? ?]; discriminate].
  - destruct (String.eqb_spec (name fld) key) as [->|Hne].
    + split; [eauto | intros _; left].
    + rewrite <- IH. split.
      * intros H. inversion H; subst; [congruence | assumption].
      * intros H. now right.
Qed.

Lemma probe_attributes_spec (f : QgsFeature) (names : list string) :
  probe_attributes f names =
  match first_present f names with
  | Some v => py_float v
  | None => Raise MissingElevationError
  end.
Proof.
  unfold first_present.
  induction names as [|field_name rest IH]; simpl; [reflexivity|].
  unfold present at 1, getitem, field_names, fields.
  case_bool_decide as Hin.
  - apply lookup_attribute_elem in Hin. destruct Hin as [v Hv].
    rewrite Hv. simpl. destruct (is_None v) eqn:Hnone; simpl; [exact IH | reflexivity].
  - destruct (lookup_attribute field_name (attributes f)) as [v|] eqn:Hv; simpl.
    + exfalso. apply Hin, lookup_attribute_elem. eauto.
    + exact IH.
Qed.

Lemma extraction_first_feature (layer : QgsVectorLayer) (f : QgsFeature)
  (rest : list QgsFeature) (p : QgsPoint) :
  features layer = f :: rest ->
  vertex (geometry f) = Some p ->
  get_base_elevation_from_point (Some layer) =
  bind (asPoint (geometry f)) (fun _ =>
    if bool_decide (wkbType (geometry f) ∈ z_types)
    then if negb (z p =? z p)%float then Raise InvalidValueError else Return (z p)
    else probe_attributes f elevation_fields).
Proof.
  intros Hf Hv. unfold get_base_elevation_from_point, featureCount.
  rewrite Hf. cbn [length]. rewrite bool_decide_eq_false_2 by discriminate.
  cbn [next bind]. unfold isEmpty. rewrite Hv.
  rewrite bool_decide_eq_false_2 by discriminate.
  unfold vertexAt0. rewrite Hv. reflexivity.
Qed.

Lemma asPoint_z_types (g : QgsGeometry) :
  wkbType g ∈ z_types -> asPoint g = Return (vertexAt0 g).
Proof.
  unfold asPoint, z_types. intros H.
  repeat (apply elem_of_cons in H as [->|H]; [reflexivity|]). inversion H.
Qed.

Lemma asPoint_two_dimensional (g : QgsGeometry) :
  two_dimensional g -> asPoint g = Return (vertexAt0 g).
Proof. unfold asPoint. intros [-> | ->]; reflexivity. Qed.

(** C1: a first feature whose geometry is not empty and carries a Z that is
    not NaN gives that Z as the base elevation, whatever attributes the feature
    has. *)
Theorem geometry_z_is_returned (layer : QgsVectorLayer) (f : QgsFeature)
  (rest : list QgsFeature) (p : QgsPoint) :
  features layer = f :: rest ->
  vertex (geometry f) = Some p ->
  wkbType (geometry f) ∈ z_types ->
  is_nan (z p) = false ->
  get_base_elevation_from_point (Some layer) = Return (z p).
Proof.
  intros Hf Hv Hz Hnan.
  rewrite (extraction_first_feature layer f rest p Hf Hv).
  rewrite (asPoint_z_types _ Hz). cbn [bind].
  rewrite bool_decide_eq_true_2 by exact Hz.
  unfold is_nan in Hnan. rewrite Hnan. reflexivity.
Qed.

Lemma geometry_z_is_returned_witness :
  get_base_elevation_from_point (Some (Examples.point_layer [Examples.survey_mark]))
  = Return 88.86%float.
Proof.
  apply (geometry_z_is_returned (Examples.point_layer [Examples.survey_mark])
           Examples.survey_mark [] {| x := 641056.0; y := 162787.0; z := 88.86 |}).
  - reflexivity.
  - reflexivity.
  - right; left.
  - reflexivity.
Defined.

(** C2, as the code has it: with a first feature whose geometry has no Z, the
    base elevation is [float(v)] for the first attribute [v], in the order z,
    Z, elevation, elev, height, that is present and not null; a float is
    returned as it is, and a value [float] rejects makes the extraction fail
    there. *)
Theorem first_present_attribute_is_converted (layer : QgsVectorLayer) (f : QgsFeature)
  (rest : list QgsFeature) (p : QgsPoint) (v : pyobject) :
  features layer = f :: rest ->
  vertex (geometry f) = Some p ->
  two_dimensional (geometry f) ->
  first_present f elevation_fields = Some v ->
  get_base_elevation_from_point (Some layer) = py_float v /\
  (forall x, v = PyFloat x -> get_base_elevation_from_point (Some layer) = Return x).
Proof.
  intros Hf Hv H2d Hfirst.
  assert (Hget : get_base_elevation_from_point (Some layer) = py_float v).
  { rewrite (extraction_first_feature layer f rest p Hf Hv).
    rewrite (asPoint_two_dimensional _ H2d). cbn [bind].
    rewrite bool_decide_eq_false_2.
    - rewrite probe_attributes_spec, Hfirst. reflexivity.
    - unfold z_types. destruct H2d as [-> | ->]; intros H;
        repeat (apply elem_of_cons in H as [H|H]; [discriminate|]);
        inversion H. }
  split; [exact Hget|]. intros x ->. exact Hget.
Qed.

Lemma first_present_attribute_is_converted_witness :
  first_present Examples.flat_mark elevation_fields = Some (PyFloat 12.5) /\
  get_base_elevation_from_point (Some (Examples.point_layer [Examples.flat_mark]))
  = Return 12.5%float.
Proof.
  split; [reflexivity|].
  apply (first_present_attribute_is_converted (Examples.point_layer [Examples.flat_mark])
           Examples.flat_mark [] {| x := 641056.0; y := 162787.0; z := nan |}
           (PyFloat 12.5)).
  - reflexivity.
  - reflexivity.
  - left; reflexivity.
  - reflexivity.
  - reflexivity.
Defined.

(** C2 as stated fails: the first present, non-null attribute of this 2D point
    is the text [n/a]; the extraction raises instead of returning a value, and
    the later [height=9.0] is not tried. *)
Lemma text_attribute_is_not_returned :
  first_present Examples.text_mark elevation_fields = Some (PyStr "n/a") /\
  get_base_elevation_from_point (Some (Examples.point_layer [Examples.text_mark]))
  = Raise (ValueError "could not convert string to float: 'n/a'").
Proof. split; vm_compute; reflexivity. Qed.

(** Field names are matched with their case: [Elevation] is not [elevation]. *)
Lemma field_names_are_case_sensitive :
  first_present Examples.bare_mark elevation_fields = None.
Proof. reflexivity. Qed.

(** C6: no feature at all raises the empty-input error; a first feature with a
    geometry without Z, each of the five names either absent or null, raises
    the missing-elevation error. *)
Theorem extraction_failures :
  (forall layer, features layer = [] ->
     get_base_elevation_from_point (Some layer) = Raise EmptyInputError) /\
  (forall layer f rest p,
     features layer = f :: rest ->
     vertex (geometry f) = Some p ->
     two_dimensional (geometry f) ->
     (forall field_name, field_name ∈ elevation_fields ->
        field_name ∉ field_names f \/
        lookup_attribute field_name (attributes f) = Some PyNone) ->
     get_base_elevation_from_point (Some layer) = Raise MissingElevationError).
Proof.
  split.
  - intros layer Hf. unfold get_base_elevation_from_point, featureCount.
    rewrite Hf. reflexivity.
  - intros layer f rest p Hf Hv H2d Hnone.
    rewrite (extraction_first_feature layer f rest p Hf Hv).
    rewrite (asPoint_two_dimensional _ H2d). cbn [bind].
    rewrite bool_decide_eq_false_2.
    + rewrite probe_attributes_spec.
      assert (Hall : forall names, (forall n, n ∈ names -> n ∈ elevation_fields) ->
                first_present f names = None).
      { unfold first_present.
        induction names as [|n names IH]; intros Hsub; [reflexivity|].
        simpl. assert (Hp : present f n = None).
        { unfold present. destruct (Hnone n (Hsub n (list_elem_of_here _ _))) as [Habs|Hnull].
          - destruct (lookup_attribute n (attributes f)) eqn:Hl; [|reflexivity].
            exfalso. apply Habs. unfold field_names, fields.
            apply lookup_attribute_elem. eauto.
          - rewrite Hnull. reflexivity. }
        rewrite Hp. apply IH. intros m Hm. apply Hsub. now right. }
      rewrite Hall by auto. reflexivity.
    + unfold z_types. destruct H2d as [-> | ->]; intros H;
        repeat (apply elem_of_cons in H as [H|H]; [discriminate|]);
        inversion H.
Qed.

Lemma extraction_failures_witness :
  get_base_elevation_from_point (Some (Examples.point_layer [])) = Raise EmptyInputError /\
  get_base_elevation_from_point (Some (Examples.point_layer [Examples.bare_mark]))
  = Raise MissingElevationError.
Proof.
  split.
  - apply (proj1 extraction_failures). reflexivity.
  - apply (proj2 extraction_failures (Examples.point_layer [Examples.bare_mark])
             Examples.bare_mark [] {| x := 641056.0; y := 162787.0; z := nan |}).
    + reflexivity.
    + reflexivity.
    + left; reflexivity.
    + intros field_name Hin. unfold elevation_fields in Hin.
      repeat (apply elem_of_cons in Hin as [->|Hin];
              [first [ right; reflexivity
                     | left; unfold field_names, fields; simpl; intros H;
                       repeat (apply elem_of_cons in H as [H|H]; [discriminate|]);
                       inversion H ] |]).
      inversion Hin.
Defined.

(** ** Strings and paths *)

Lemma append_nil_l (s : string) : EmptyString +:+ s = s.
Proof. reflexivity. Qed.

Lemma append_cons (c : ascii) (s t : string) : String c s +:+ t = String c (s +:+ t).
Proof. reflexivity. Qed.

Lemma append_nil_r (s : string) : s +:+ EmptyString = s.
Proof.
  induction s as [|c s IH]; [reflexivity|].
  now rewrite append_cons, IH.
Qed.

Lemma append_assoc (a b c : string) : (a +:+ b) +:+ c = a +:+ (b +:+ c).
Proof.
  induction a as [|x a IH]; [reflexivity|].
  now rewrite !append_cons, IH.
Qed.

Lemma append_cancel_l (s a b : string) : s +:+ a = s +:+ b -> a = b.
Proof.
  induction s as [|c s IH]; intros H; [exact H|].
  rewrite !append_cons in H. apply IH. now inversion H.
Qed.

Lemma take_drop (n : nat) (s : string) : take n s +:+ drop n s = s.
Proof.
  revert s. induction n as [|n IH]; intros [|c s]; simpl; try reflexivity.
  now rewrite append_cons, IH.
Qed.

Lemma splitext_app (p : string) : (splitext p).1 +:+ (splitext p).2 = p.
Proof.
  unfold splitext.
  destruct (_ && _); simpl; [apply take_drop | apply append_nil_r].
Qed.

(** ** The threshold predicate *)

Lemma expression_text_render (dem_path : string) (base_elevation level : float) :
  expression_text dem_path base_elevation level
  = render (expression dem_path base_elevation level).
Proof.
  unfold expression_text, expression, referenced_layer. simpl.
  change (digits_of_Z 1) with "1".
  now rewrite !append_assoc.
Qed.

Lemma inundated_unfold (base_elevation level dem_value : float) (dem_path : string) :
  inundated base_elevation level dem_value dem_path
  = (dem_value <? base_elevation + level)%float.
Proof.
  unfold inundated, expression. simpl.
  destruct (dem_value <? base_elevation + level)%float; reflexivity.
Qed.

(** ** Runs of the polygon pipeline *)

Lemma mbind_inv {A B} (m : M A) (k : A -> M B) (w w' : World) (b : B) :
  mbind m k w = (Return b, w') ->
  exists a w1, m w = (Return a, w1) /\ k a w1 = (Return b, w').
Proof.
  unfold mbind. destruct (m w) as [[a|e] w1]; intros H; [eauto | discriminate].
Qed.

Lemma external_inv (h : Host) (s : Step) (e : exn) (w w' : World) (u : unit) :
  external h s e w = (Return u, w') -> fails h s = false /\ w' = w.
Proof.
  unfold external. destruct (fails h s); intros H; [discriminate|].
  inversion H. auto.
Qed.

Lemma remove_inv (h : Host) (path : string) (w w' : World) (u : unit) :
  remove h path w = (Return u, w') ->
  fails h (remove_step path) = false /\
  is_Some (files w !! path) /\ w' = set_files (delete path) w.
Proof.
  unfold remove. intros H.
  apply mbind_inv in H as (? & w1 & H1 & H).
  apply external_inv in H1 as [Hstep ->].
  apply mbind_inv in H as (c & w2 & H2 & H).
  unfold gets in H2. injection H2 as <- <-.
  destruct (files w !! path) eqn:Hl; [|discriminate].
  injection H as _ <-. eauto.
Qed.

Lemma remove_if_exists_inv (h : Host) (path : string) (w w' : World) (u : unit) :
  mbind (exists_ path) (fun there => if there then remove h path else ret tt) w = (Return u, w') ->
  w' = set_files (delete path) w.
Proof.
  intros H. apply mbind_inv in H as (there & w1 & H1 & H).
  unfold exists_, gets in H1. injection H1 as <- <-.
  case_bool_decide as Hex.
  - apply remove_inv in H as (_ & _ & ->). reflexivity.
  - injection H as _ <-. destruct w as [fs ds ls cs dl u0]; unfold set_files; simpl in *.
    f_equal. symmetry. apply delete_id.
    destruct (fs !! path) eqn:Hl; [|reflexivity].
    exfalso. apply Hex. left. eauto.
Qed.

Lemma remove_associated_inv (h : Host) (temp : string) (exts : list string)
  (w w' : World) (u : unit) :
  remove_associated h temp exts w = (Return u, w') ->
  w' = set_files (fun fs => foldl (fun fs' ext => delete (replace temp ".shp" ext) fs') fs exts) w.
Proof.
  revert w. induction exts as [|ext exts IH]; intros w H; simpl in *.
  - injection H as _ <-. now destruct w.
  - change (mbind (exists_ (replace temp ".shp" ext))
              (fun there => mbind (if there then remove h (replace temp ".shp" ext) else ret tt)
                 (fun _ => remove_associated h temp exts)) w = (Return u, w')) in H.
    apply mbind_inv in H as (there & w1 & H1 & H).
    apply mbind_inv in H as (u1 & w2 & H2 & H).
    assert (Hw2 : w2 = set_files (delete (replace temp ".shp" ext)) w).
    { apply (remove_if_exists_inv h _ w w2 u1).
      unfold mbind. rewrite H1. exact H2. }
    subst w2. apply IH in H. subst w'. reflexivity.
Qed.

Lemma shapefile_files_lookup (path : string) (c : Content) (exts : list string)
  (fs : gmap string Content) :
  shapefile_files path c exts fs !! path = Some c.
Proof. unfold shapefile_files. apply lookup_insert_eq. Qed.

Lemma pipeline_success (h : Host) (dem_layer : QgsRasterLayer) (point_layer : QgsVectorLayer)
  (level base_elevation : float) (extent output_dir : string) (w w' : World) (r : string) :
  create_water_level_polygon h dem_layer point_layer level base_elevation extent output_dir w
    = (Return r, w') ->
  r = filtered_polygon_output output_dir level /\
  files w' = foldl (fun fs ext => delete (replace (temp_polygon_output output_dir level) ".shp" ext) fs)
               (delete (temp_polygon_output output_dir level)
                  (written h point_layer output_dir level (files w)))
               sidecar_exts /\
  layers w' = <[ pid (result_layer h point_layer output_dir level base_elevation w)
                 := PolygonLayer (result_layer h point_layer output_dir level base_elevation w) ]>
                (delete ("temp_polygons_" +:+ digits_of_Z (uid w)) (layers w)) /\
  fails h (remove_step (temp_polygon_output output_dir level)) = false.
Proof.
  intros H. unfold create_water_level_polygon in H.
  apply mbind_inv in H as (? & w1 & H1 & H).
  unfold makedirs in H1. apply mbind_inv in H1 as (? & ? & H0 & H1).
  apply external_inv in H0 as [_ ->]. injection H1 as _ <-.
  apply mbind_inv in H as (? & w2 & H2 & H).
  unfold run_rastercalc in H2.
  apply mbind_inv in H2 as (? & ? & H0 & H2). injection H0 as _ <-.
  apply mbind_inv in H2 as (? & ? & H0 & H2). apply external_inv in H0 as [_ ->].
  injection H2 as _ <-.
  apply mbind_inv in H as (? & w3 & H3 & H).
  unfold run_polygonize in H3.
  apply mbind_inv in H3 as (? & ? & H0 & H3). injection H0 as _ <-.
  apply mbind_inv in H3 as (? & ? & H0 & H3). apply external_inv in H0 as [_ ->].
  injection H3 as _ <-.
  apply mbind_inv in H as (temp_layer & w4 & H4 & H).
  injection H4 as <- <-.
  apply mbind_inv in H as (? & w5 & H5 & H).
  injection H5 as _ <-.
  apply mbind_inv in H as (temp_layer' & w6 & H6 & H).
  unfold run_selectbylocation in H6.
  apply mbind_inv in H6 as (? & ? & H0 & H6). injection H0 as _ <-.
  apply mbind_inv in H6 as (? & ? & H0 & H6). apply external_inv in H0 as [_ ->].
  injection H6 as <- <-.
  apply mbind_inv in H as (? & w7 & H7 & H).
  unfold run_saveselectedfeatures in H7.
  apply mbind_inv in H7 as (? & ? & H0 & H7). injection H0 as _ <-.
  apply mbind_inv in H7 as (? & ? & H0 & H7). apply external_inv in H0 as [_ ->].
  injection H7 as _ <-.
  apply mbind_inv in H as (? & w8 & H8 & H). injection H8 as _ <-.
  apply mbind_inv in H as (layer & w9 & H9 & H). injection H9 as <- <-.
  apply mbind_inv in H as (? & w10 & H10 & H). injection H10 as _ <-.
  apply mbind_inv in H as (? & w11 & H11 & H). apply external_inv in H11 as [_ ->].
  apply mbind_inv in H as (? & w12 & H12 & H). injection H12 as _ <-.
  apply mbind_inv in H as (there & w13 & H13 & H). injection H13 as <- <-.
  apply mbind_inv in H as (? & w14 & H14 & H). injection H as <- <-.
  remember (remove_associated h (temp_polygon_output output_dir level) sidecar_exts) as RA eqn:HRA.
  simpl in H14. rewrite !shapefile_files_lookup in H14. simpl in H14.
  rewrite bool_decide_eq_true_2 in H14.
  2:{ left. unfold shapefile_files at 1. simpl.
      rewrite !lookup_insert_is_Some'. do 5 right.
      rewrite shapefile_files_lookup. eauto. }
  apply mbind_inv in H14 as (? & w15 & H15 & H14).
  apply remove_inv in H15 as (Hremoved & _ & ->). subst RA.
  apply remove_associated_inv in H14. subst w14.
  split; [reflexivity|]. split; [reflexivity|]. split; [|exact Hremoved].
  simpl. unfold result_layer, setSymbol. simpl.
  now rewrite alter_insert_eq, delete_alter_eq, delete_insert_eq.
Qed.

Lemma length_append (a b : string) :
  String.length (a +:+ b) = (String.length a + String.length b)%nat.
Proof.
  induction a as [|c a IH]; [reflexivity|].
  rewrite append_cons. simpl. now rewrite IH.
Qed.

Lemma take_app_length (a b : string) : take (String.length a) (a +:+ b) = a.
Proof.
  induction a as [|c a IH]; [now destruct b|].
  rewrite append_cons. simpl. now rewrite IH.
Qed.

Lemma join_names (folder stem : string) :
  exists prefix, forall suffix,
    join folder (stem +:+ String "_" suffix) = prefix +:+ String "_" suffix.
Proof.
  unfold join.
  destruct stem as [|c stem].
  - exists (if String.eqb folder EmptyString || endswith folder "/" then folder
            else folder +:+ "/").
    intros suffix. rewrite append_nil_l.
    change (startswith (String "_" suffix) "/") with false. cbv iota.
    destruct (_ || _); [reflexivity | now rewrite append_assoc].
  - destruct (Ascii.eqb "/" c) eqn:Hc.
    + exists (String c stem). intros suffix. rewrite append_cons.
      unfold startswith. cbn -[Ascii.eqb]. rewrite Hc. reflexivity.
    + exists ((if String.eqb folder EmptyString || endswith folder "/" then folder
               else folder +:+ "/") +:+ String c stem).
      intros suffix. rewrite append_cons.
      unfold startswith. cbn -[Ascii.eqb]. rewrite Hc.
      rewrite bool_decide_eq_false_2 by (intros [? ?]; discriminate).
      rewrite <- !append_cons.
      destruct (_ || _); now rewrite ?append_assoc.
Qed.

Lemma output_paths (output_dir : string) (level : float) :
  exists prefix,
    raster_output output_dir level = prefix +:+ "_level.tif" /\
    temp_polygon_output output_dir level = prefix +:+ "_level_polygon_temp.shp" /\
    filtered_polygon_output output_dir level = prefix +:+ "_level_polygon.shp".
Proof.
  destruct (join_names (level_folder output_dir level) (repr level)) as [prefix H].
  exists prefix. unfold raster_output, temp_polygon_output, filtered_polygon_output.
  repeat split; apply H.
Qed.

Lemma replace_from_skip (old new s : string) :
  replace_from (String.length s) old new s = EmptyString.
Proof. induction s as [|c s IH]; simpl; [reflexivity | exact IH]. Qed.

Lemma replace_last (old new s : string) (n : nat) :
  old <> EmptyString ->
  find old s = Some n ->
  (n + String.length old = String.length s)%nat ->
  replace s old new = take n s +:+ new.
Proof.
  intros Hold. unfold replace. revert n.
  induction s as [|c s IH]; intros n Hfind Hlen.
  - destruct old; [congruence|]. simpl in Hlen. lia.
  - simpl in Hfind. simpl.
    destruct (startswith (String c s) old) eqn:Hst.
    + injection Hfind as <-. simpl in Hlen.
      destruct old as [|o old]; [congruence|]. simpl in *.
      replace (String.length old - 0)%nat with (String.length s) by lia.
      rewrite replace_from_skip. now rewrite append_nil_r.
    + destruct (find old s) as [n'|] eqn:Hf; [|discriminate].
      injection Hfind as <-. simpl in Hlen.
      rewrite (IH n' eq_refl) by lia. reflexivity.
Qed.

(** *** Which file is which *)

Lemma rfind_app_found (c : ascii) (a b : string) :
  0 <= rfind c b -> rfind c (a +:+ b) = Z.of_nat (String.length a) + rfind c b.
Proof.
  intros Hb. induction a as [|x a IH]; [rewrite append_nil_l; simpl; lia|].
  rewrite append_cons. cbn [rfind String.length]. rewrite IH.
  destruct (Z.leb_spec 0 (Z.of_nat (String.length a) + rfind c b)); lia.
Qed.

Lemma rfind_app_absent (c : ascii) (a b : string) :
  rfind c b = -1 -> rfind c (a +:+ b) = rfind c a.
Proof.
  intros Hb. induction a as [|x a IH]; [exact Hb|].
  rewrite append_cons. cbn [rfind]. now rewrite IH.
Qed.

Lemma rfind_bounds (c : ascii) (s : string) :
  -1 <= rfind c s < Z.of_nat (String.length s).
Proof.
  induction s as [|x s IH]; cbn [rfind String.length]; [lia|].
  destruct (Z.leb_spec 0 (rfind c s)); [lia|].
  destruct (Ascii.eqb x c); lia.
Qed.

Lemma drop_app_le (n : nat) (a b : string) :
  (n <= String.length a)%nat -> drop n (a +:+ b) = drop n a +:+ b.
Proof.
  revert a. induction n as [|n IH]; intros a Hn.
  - now destruct a, b.
  - destruct a as [|x a]; simpl in Hn; [lia|].
    rewrite append_cons. simpl. apply IH. lia.
Qed.

Lemma drop_length (n : nat) (a : string) :
  (n <= String.length a)%nat -> String.length (drop n a) = (String.length a - n)%nat.
Proof.
  revert a. induction n as [|n IH]; intros a Hn.
  - destruct a; simpl; lia.
  - destruct a as [|x a]; simpl in *; [lia|]. apply IH. lia.
Qed.

Lemma take_app_plus (n : nat) (a b : string) :
  take (String.length a + n) (a +:+ b) = a +:+ take n b.
Proof.
  induction a as [|x a IH]; [reflexivity|].
  rewrite !append_cons. simpl. now rewrite IH.
Qed.

Lemma drop_app_plus (n : nat) (a b : string) :
  drop (String.length a + n) (a +:+ b) = drop n b.
Proof.
  induction a as [|x a IH]; [reflexivity|].
  rewrite !append_cons. simpl. exact IH.
Qed.

Lemma all_dots_app (a b : string) : all_dots (a +:+ b) = all_dots a && all_dots b.
Proof.
  unfold all_dots. induction a as [|x a IH]; [reflexivity|].
  rewrite append_cons. simpl. rewrite IH. now rewrite andb_assoc.
Qed.

Lemma splitext_temp (prefix : string) :
  splitext (prefix +:+ "_level_polygon_temp.shp")
  = (prefix +:+ "_level_polygon_temp", ".shp").
Proof.
  unfold splitext.
  pose proof (rfind_bounds "/" prefix) as Hsep.
  rewrite (rfind_app_absent "/" prefix) by reflexivity.
  rewrite (rfind_app_found "." prefix) by (vm_compute; discriminate).
  change (rfind "." "_level_polygon_temp.shp") with 19.
  set (sep := rfind "/" prefix) in *.
  replace (Z.to_nat (Z.of_nat (String.length prefix) + 19))
    with (String.length prefix + 19)%nat by lia.
  rewrite take_app_plus, drop_app_plus.
  rewrite drop_app_le by lia.
  replace (Z.to_nat (Z.of_nat (String.length prefix) + 19 - (sep + 1)))
    with (String.length (drop (Z.to_nat (sep + 1)) prefix) + 19)%nat
    by (rewrite drop_length; lia).
  rewrite take_app_plus, all_dots_app.
  change (all_dots (take 19 "_level_polygon_temp.shp")) with false.
  rewrite andb_false_r.
  destruct (Z.ltb_spec sep (Z.of_nat (String.length prefix) + 19)); [|lia].
  reflexivity.
Qed.

Lemma temp_sidecar (output_dir : string) (level : float) (ext : string) :
  only_as_extension ".shp" (temp_polygon_output output_dir level) ->
  replace (temp_polygon_output output_dir level) ".shp" ext
  = sidecar (temp_polygon_output output_dir level) ext.
Proof.
  unfold only_as_extension. intros Honly.
  destruct (output_paths output_dir level) as (prefix & _ & Htemp & _).
  rewrite Htemp in *. unfold sidecar. rewrite splitext_temp. cbn [fst].
  rewrite (replace_last ".shp" ext _ _ ltac:(discriminate) Honly).
  - rewrite length_append.
    replace (String.length prefix + String.length "_level_polygon_temp.shp"
             - String.length ".shp")%nat
      with (String.length prefix + 19)%nat by (simpl; lia).
    now rewrite take_app_plus.
  - rewrite length_append. simpl. lia.
Qed.

Lemma temp_replaced (output_dir : string) (level : float) :
  exists prefix,
    raster_output output_dir level = prefix +:+ "_level.tif" /\
    temp_polygon_output output_dir level = prefix +:+ "_level_polygon_temp.shp" /\
    filtered_polygon_output output_dir level = prefix +:+ "_level_polygon.shp" /\
    (only_as_extension ".shp" (temp_polygon_output output_dir level) ->
     forall ext, replace (temp_polygon_output output_dir level) ".shp" ext
                 = prefix +:+ "_level_polygon_temp" +:+ ext).
Proof.
  destruct (output_paths output_dir level) as (prefix & Hr & Ht & Hf).
  exists prefix. repeat split; try assumption.
  intros Honly ext. rewrite (temp_sidecar _ _ _ Honly).
  unfold sidecar. rewrite Ht, splitext_temp. cbn [fst]. apply append_assoc.
Qed.

Lemma shapefile_files_is_Some (path : string) (c : Content) (exts : list string)
  (fs : gmap string Content) (key : string) :
  is_Some (fs !! key) -> is_Some (shapefile_files path c exts fs !! key).
Proof.
  intros H. unfold shapefile_files. apply lookup_insert_is_Some'. right.
  induction exts as [|e es IH]; simpl; [exact H|].
  apply lookup_insert_is_Some'. now right.
Qed.

(** *** The names the clean-up derives *)

Lemma app_suffix_eq (a b s t : string) :
  a +:+ s = b +:+ t -> String.length s = String.length t -> s = t.
Proof.
  revert b. induction a as [|x a IH]; intros b H Hlen.
  - rewrite append_nil_l in H. destruct b as [|y b]; [exact H|].
    apply (f_equal String.length) in H. rewrite length_append in H. simpl in H. lia.
  - destruct b as [|y b].
    + rewrite append_nil_l in H.
      apply (f_equal String.length) in H. rewrite length_append in H. simpl in H. lia.
    + rewrite !append_cons in H. injection H as _ H. now apply (IH b).
Qed.

Lemma startswith_shp (c : ascii) (a : string) :
  startswith (String c (a +:+ "_level_polygon_temp.shp")) ".shp" = true ->
  (3 <= String.length a)%nat.
Proof.
  unfold startswith. intros H. apply bool_decide_eq_true in H as [r H].
  destruct a as [|x [|y [|z a]]]; [exfalso..|simpl; lia];
    rewrite ?append_cons, ?append_nil_l in H; cbn -[Ascii.eqb] in H;
    repeat match type of H with
           | (if ?b then _ else _) = _ => destruct b; try discriminate
           end.
Qed.

Lemma replace_from_temp (ext a : string) (skip : nat) :
  (skip <= String.length a)%nat ->
  exists stem,
    replace_from skip ".shp" ext (a +:+ "_level_polygon_temp.shp") = stem +:+ ext.
Proof.
  revert skip. induction a as [|c a IH]; intros skip Hskip.
  - simpl in Hskip. replace skip with 0%nat by lia.
    exists "_level_polygon_temp". rewrite append_nil_l.
    vm_compute replace_from. rewrite !append_cons, append_nil_l.
    repeat f_equal. 
    induction ext as [|e ext IHe]; [reflexivity|]. cbn. now rewrite IHe.
  - rewrite append_cons. destruct skip as [|skip].
    + cbn [replace_from].
      destruct (startswith (String c (a +:+ "_level_polygon_temp.shp")) ".shp") eqn:Hst.
      * apply startswith_shp in Hst.
        destruct (IH 3%nat Hst) as [stem Hstem].
        exists (ext +:+ stem). change (String.length ".shp" - 1)%nat with 3%nat.
        rewrite Hstem. now rewrite append_assoc.
      * destruct (IH 0%nat ltac:(lia)) as [stem Hstem].
        exists (String c stem). now rewrite Hstem, append_cons.
    + cbn [replace_from]. simpl in Hskip. apply IH. lia.
Qed.

Lemma replaced_ends_in (output_dir : string) (level : float) (ext : string) :
  exists stem, replace (temp_polygon_output output_dir level) ".shp" ext = stem +:+ ext.
Proof.
  destruct (output_paths output_dir level) as (prefix & _ & -> & _).
  apply replace_from_temp. lia.
Qed.

Lemma replaced_is_not_kept (output_dir : string) (level : float) (ext : string) :
  ext ∈ sidecar_exts ->
  replace (temp_polygon_output output_dir level) ".shp" ext
    <> filtered_polygon_output output_dir level /\
  replace (temp_polygon_output output_dir level) ".shp" ext
    <> raster_output output_dir level.
Proof.
  intros Hext.
  destruct (replaced_ends_in output_dir level ext) as [stem ->].
  destruct (output_paths output_dir level) as (prefix & -> & _ & ->).
  change "_level_polygon.shp" with ("_level_polygon" +:+ ".shp").
  change "_level.tif" with ("_level" +:+ ".tif").
  rewrite <- !append_assoc.
  unfold sidecar_exts in Hext.
  repeat (apply elem_of_cons in Hext as [->|Hext];
          [split; intros H; apply app_suffix_eq in H; (reflexivity || discriminate)|]).
  inversion Hext.
Qed.

(** C8, as the code has it: after a successful run the unfiltered polygon file
    is gone, and so is every file named like it with .shx, .dbf, .prj or .cpg
    in place of .shp; the final polygon file and the threshold raster are
    still there, whatever the output folder is called: the raster is not
    deleted.  When .shp occurs in the unfiltered file's path as its extension
    only, the files removed are the ones that go with it.  The run has
    returned only because the removal of the unfiltered file did not fail. *)
Theorem cleanup_after_success (h : Host) (dem_layer : QgsRasterLayer)
  (point_layer : QgsVectorLayer) (level base_elevation : float)
  (extent output_dir : string) (w w' : World) (r : string) :
  create_water_level_polygon h dem_layer point_layer level base_elevation extent output_dir w
    = (Return r, w') ->
  r = filtered_polygon_output output_dir level /\
  files w' !! temp_polygon_output output_dir level = None /\
  (forall ext, ext ∈ sidecar_exts ->
     files w' !! replace (temp_polygon_output output_dir level) ".shp" ext = None) /\
  files w' !! filtered_polygon_output output_dir level
    = Some (PolygonData (select_intersecting h (vectorized h) point_layer)) /\
  is_Some (files w' !! raster_output output_dir level) /\
  (only_as_extension ".shp" (temp_polygon_output output_dir level) ->
     forall ext, ext ∈ sidecar_exts ->
       files w' !! sidecar (temp_polygon_output output_dir level) ext = None) /\
  fails h (remove_step (temp_polygon_output output_dir level)) = false.
Proof.
  intros Hrun.
  destruct (pipeline_success _ _ _ _ _ _ _ _ _ _ Hrun) as (Hr & Hfiles & _ & Hremoved).
  unfold sidecar_exts in Hfiles. cbn [foldl] in Hfiles.
  assert (Hgone : forall ext, ext ∈ sidecar_exts ->
            files w' !! replace (temp_polygon_output output_dir level) ".shp" ext = None).
  { intros ext Hext. rewrite Hfiles. unfold sidecar_exts in Hext.
    repeat (apply elem_of_cons in Hext as [->|Hext];
            [rewrite !lookup_delete_None; tauto|]).
    inversion Hext. }
  assert (Hkept : forall ext, ext ∈ sidecar_exts ->
            replace (temp_polygon_output output_dir level) ".shp" ext
              <> filtered_polygon_output output_dir level /\
            replace (temp_polygon_output output_dir level) ".shp" ext
              <> raster_output output_dir level)
    by apply replaced_is_not_kept.
  assert (Hshx := Hkept ".shx" ltac:(repeat constructor)).
  assert (Hdbf := Hkept ".dbf" ltac:(repeat constructor)).
  assert (Hprj := Hkept ".prj" ltac:(repeat constructor)).
  assert (Hcpg := Hkept ".cpg" ltac:(repeat constructor)).
  assert (Htemp : temp_polygon_output output_dir level
                    <> filtered_polygon_output output_dir level /\
                  temp_polygon_output output_dir level <> raster_output output_dir level).
  { destruct (output_paths output_dir level) as (prefix & -> & -> & ->).
    split; intros H; apply append_cancel_l in H; discriminate. }
  split; [exact Hr|]. split; [|split; [exact Hgone|split; [|split; [|split]]]].
  - rewrite Hfiles, !lookup_delete_None. tauto.
  - rewrite Hfiles, !lookup_delete_ne by tauto.
    unfold written. apply shapefile_files_lookup.
  - rewrite Hfiles, !lookup_delete_ne by tauto.
    unfold written. do 2 apply shapefile_files_is_Some.
    rewrite lookup_insert_eq. eauto.
  - intros Honly ext Hext. rewrite <- (temp_sidecar _ _ _ Honly). now apply Hgone.
  - exact Hremoved.
Qed.

Lemma cleanup_after_success_witness :
  files (create_water_level_polygon Examples.working_host Examples.srtm
           (Examples.point_layer [Examples.west_mark]) 10.0 88.86
           "640000.0,643000.0,161000.0,164000.0 [EPSG:23700]" "/home/user/flood.shp/output"
           (Examples.project (Examples.point_layer [Examples.west_mark]))).2
    !! "/home/user/flood.shp/output/water_level_10.0m/10.0_level_polygon_temp.shp" = None /\
  is_Some (files (create_water_level_polygon Examples.working_host Examples.srtm
           (Examples.point_layer [Examples.west_mark]) 10.0 88.86
           "640000.0,643000.0,161000.0,164000.0 [EPSG:23700]" "/home/user/flood.shp/output"
           (Examples.project (Examples.point_layer [Examples.west_mark]))).2
    !! "/home/user/flood.shp/output/water_level_10.0m/10.0_level.tif").
Proof.
  pose proof (cleanup_after_success Examples.working_host Examples.srtm
                (Examples.point_layer [Examples.west_mark]) 10.0 88.86
                "640000.0,643000.0,161000.0,164000.0 [EPSG:23700]"
                "/home/user/flood.shp/output"
                (Examples.project (Examples.point_layer [Examples.west_mark]))
                (create_water_level_polygon Examples.working_host Examples.srtm
                   (Examples.point_layer [Examples.west_mark]) 10.0 88.86
                   "640000.0,643000.0,161000.0,164000.0 [EPSG:23700]"
                   "/home/user/flood.shp/output"
                   (Examples.project (Examples.point_layer [Examples.west_mark]))).2
                "/home/user/flood.shp/output/water_level_10.0m/10.0_level_polygon.shp"
                ltac:(vm_compute; reflexivity)) as (_ & Htemp & _ & _ & Hraster & _).
  split; [exact Htemp | exact Hraster].
Defined.

(** C8 as stated fails: after this successful run the threshold raster is
    still there. *)
Lemma threshold_raster_is_kept :
  (create_water_level_polygon Examples.working_host Examples.srtm
     (Examples.point_layer [Examples.west_mark]) 10.0 88.86
     "640000.0,643000.0,161000.0,164000.0 [EPSG:23700]" "/home/user/flood/output"
     (Examples.project (Examples.point_layer [Examples.west_mark]))).1
  = Return "/home/user/flood/output/water_level_10.0m/10.0_level_polygon.shp" /\
  files (create_water_level_polygon Examples.working_host Examples.srtm
           (Examples.point_layer [Examples.west_mark]) 10.0 88.86
           "640000.0,643000.0,161000.0,164000.0 [EPSG:23700]" "/home/user/flood/output"
           (Examples.project (Examples.point_layer [Examples.west_mark]))).2
    !! "/home/user/flood/output/water_level_10.0m/10.0_level.tif" = Some RasterData.
Proof. split; vm_compute; reflexivity. Qed.

(** ** What the form hands on *)

Lemma get_values_inv (h : Host) (form : Level.Form) (dem_layer : QgsRasterLayer)
  (point_layer : QgsVectorLayer) (base_elevation level : float) (extent : string) :
  get_values h form = Return (dem_layer, point_layer, base_elevation, level, extent) ->
  dem_combo form = Some dem_layer /\
  point_combo form = Some point_layer /\
  get_base_elevation_from_point (Some point_layer) = Return base_elevation /\
  level = level_spinbox form.
Proof.
  unfold get_values. intros H.
  destruct (dem_combo form) as [d|]; [|discriminate].
  destruct (point_combo form) as [p|]; [|discriminate].
  destruct (get_base_elevation_from_point (Some p)) as [b|e] eqn:Hb; [|discriminate].
  simpl in H.
  destruct (if canvas_radio form then _ else _) as [ex|e]; [|discriminate].
  simpl in H. injection H as <- <- <- <- <-. auto.
Qed.

(** ** Failures of the pipeline *)

(** C7 at a failing input: when the selection by location fails, the script
    reports the error and makes no further call, but the layer of unfiltered
    polygons, registered just before, stays registered. *)
Lemma failed_selection_leaves_temp_layer :
  dialogs (Level.script (Examples.failing_host selectbylocation_step)
             (Examples.flood_form (Examples.point_layer [Examples.west_mark]))
             (Examples.project (Examples.point_layer [Examples.west_mark]))).2
  = [(critical, "Unexpected Error", "An error occurred: native:selectbylocation")] /\
  length (calls (Level.script (Examples.failing_host selectbylocation_step)
             (Examples.flood_form (Examples.point_layer [Examples.west_mark]))
             (Examples.project (Examples.point_layer [Examples.west_mark]))).2) = 3%nat /\
  layers (Examples.project (Examples.point_layer [Examples.west_mark])) !! "temp_polygons_0"
  = None /\
  layers (Level.script (Examples.failing_host selectbylocation_step)
            (Examples.flood_form (Examples.point_layer [Examples.west_mark]))
            (Examples.project (Examples.point_layer [Examples.west_mark]))).2
    !! "temp_polygons_0"
  = Some (PolygonLayer
            {| pid := "temp_polygons_0"; pname := "temp_polygons";
               psource := "/home/user/flood/output/water_level_10.0m/10.0_level_polygon_temp.shp";
               polygons := [Examples.west_basin; Examples.ridge; Examples.east_basin];
               selected := []; symbol := None |}).
Proof. repeat split; vm_compute; reflexivity. Qed.

(** A failure of the first two stages leaves the registry as it was. *)
Lemma early_failure_registers_nothing :
  layers (Level.script (Examples.failing_host rastercalc_step)
            (Examples.flood_form (Examples.point_layer [Examples.west_mark]))
            (Examples.project (Examples.point_layer [Examples.west_mark]))).2
  = layers (Examples.project (Examples.point_layer [Examples.west_mark])) /\
  layers (Level.script (Examples.failing_host polygonize_step)
            (Examples.flood_form (Examples.point_layer [Examples.west_mark]))
            (Examples.project (Examples.point_layer [Examples.west_mark]))).2
  = layers (Examples.project (Examples.point_layer [Examples.west_mark])).
Proof. split; vm_compute; reflexivity. Qed.

(** ** The calculator's reading of the expression *)

Lemma read_quoted_app (content rest : string) :
  plain_name content = true ->
  read_quoted (content +:+ String "034" rest) = Some (content, rest).
Proof.
  unfold plain_name. induction content as [|c content IH]; intros Hplain.
  - reflexivity.
  - cbn [list_ascii_of_string forallb] in Hplain.
    apply andb_true_iff in Hplain as [Hc Hplain].
    apply andb_true_iff in Hc as [Hq Hb].
    apply negb_true_iff in Hq. apply negb_true_iff in Hb.
    rewrite append_cons. cbn [read_quoted]. rewrite Hq, Hb, (IH Hplain). reflexivity.
Qed.

Lemma read_reference_tif (name : string) :
  read_reference (name +:+ ".tif@1") = Some (Ref (name +:+ ".tif") 1).
Proof.
  unfold read_reference.
  rewrite (rfind_app_found "@" name ".tif@1") by (vm_compute; discriminate).
  change (rfind "@" ".tif@1") with 4.
  destruct (Z.leb_spec 0 (Z.of_nat (String.length name) + 4)); [|lia].
  replace (Z.to_nat (Z.of_nat (String.length name) + 4 + 1))
    with (String.length name + 5)%nat by lia.
  replace (Z.to_nat (Z.of_nat (String.length name) + 4))
    with (String.length name + 4)%nat by lia.
  rewrite drop_app_plus, take_app_plus. reflexivity.
Qed.

Lemma plain_name_app (a b : string) :
  plain_name (a +:+ b) = plain_name a && plain_name b.
Proof.
  unfold plain_name. induction a as [|c a IH]; [reflexivity|].
  rewrite append_cons. cbn [list_ascii_of_string forallb]. rewrite IH.
  now rewrite andb_assoc.
Qed.

Lemma skip_blanks_blank (s : string) : skip_blanks (String " " s) = skip_blanks s.
Proof. reflexivity. Qed.

Lemma skip_blanks_stop (c : ascii) (s : string) :
  is_blank c = false -> skip_blanks (String c s) = String c s.
Proof. intros H. cbn [skip_blanks]. now rewrite H. Qed.

Lemma bind_Some {A B : Type} (x : A) (f : A -> option B) : Some x ≫= f = f x.
Proof. reflexivity. Qed.

Lemma strip_prefix_char (c : ascii) (s : string) :
  strip_prefix (String c "") (String c s) = Some s.
Proof. cbn [strip_prefix]. now rewrite Ascii.eqb_refl. Qed.

Lemma read_expression_text (dem_path : string) (base_elevation level : float) :
  plain_name (dem_name dem_path) = true ->
  reads_back base_elevation -> reads_back level ->
  read_expression (expression_text dem_path base_elevation level)
  = Some (expression dem_path base_elevation level).
Proof.
  intros Hplain Hbase Hlevel.
  unfold expression_text, read_expression, expression, referenced_layer, dquote.
  rewrite (append_cons "034" "" _), append_nil_l.
  rewrite (skip_blanks_stop "034") by reflexivity.
  rewrite strip_prefix_char, bind_Some.
  rewrite (append_cons "034" "" _), append_nil_l.
  rewrite <- (append_assoc (dem_name dem_path) ".tif@1").
  rewrite read_quoted_app by (rewrite plain_name_app, Hplain; reflexivity).
  rewrite bind_Some. cbv beta iota.
  rewrite read_reference_tif, bind_Some.
  rewrite (append_cons " " "< (" _), skip_blanks_blank.
  rewrite (append_cons "<" " (" _), (skip_blanks_stop "<") by reflexivity.
  rewrite strip_prefix_char, bind_Some.
  rewrite (append_cons " " "(" _), skip_blanks_blank.
  rewrite (append_cons "(" "" _), append_nil_l, (skip_blanks_stop "(") by reflexivity.
  rewrite strip_prefix_char, bind_Some.
  rewrite (append_cons "+" "" _), append_nil_l.
  rewrite (Hbase (String "+" (repr level +:+ ")"))) by eauto.
  rewrite bind_Some. cbv beta iota.
  rewrite (skip_blanks_stop "+") by reflexivity.
  rewrite strip_prefix_char, bind_Some.
  rewrite (Hlevel ")") by eauto.
  rewrite bind_Some. cbv beta iota.
  rewrite (skip_blanks_stop ")") by reflexivity.
  rewrite strip_prefix_char, bind_Some.
  reflexivity.
Qed.

Lemma is_set_flag (c : bool) : is_set (Some (if c then 1%float else 0%float)) = c.
Proof. now destruct c. Qed.

Lemma mask_value_text (cell : string -> Z -> option float) (dem_path : string)
  (base_elevation level : float) :
  plain_name (dem_name dem_path) = true ->
  reads_back base_elevation -> reads_back level ->
  mask_value cell dem_path base_elevation level
  = (dem_value ← cell (dem_name dem_path +:+ ".tif") 1;
     Some (if (dem_value <? base_elevation + level)%float then 1%float else 0%float)).
Proof.
  intros Hplain Hbase Hlevel. unfold mask_value.
  rewrite read_expression_text by assumption.
  rewrite bind_Some. unfold expression, referenced_layer. cbn [eval].
  destruct (cell (dem_name dem_path +:+ ".tif") 1); reflexivity.
Qed.

(** Where the calculator knows the raster the text names, the flag is the
    threshold predicate at the cell's value. *)
Lemma flagged_is_inundated (cell : string -> Z -> option float) (dem_path : string)
  (base_elevation level dem_value : float) :
  plain_name (dem_name dem_path) = true ->
  reads_back base_elevation -> reads_back level ->
  cell (dem_name dem_path +:+ ".tif") 1 = Some dem_value ->
  flagged cell dem_path base_elevation level
  = inundated base_elevation level dem_value dem_path.
Proof.
  intros Hplain Hbase Hlevel Hcell. unfold flagged.
  rewrite mask_value_text by assumption.
  rewrite Hcell, bind_Some, is_set_flag. now rewrite inundated_unfold.
Qed.





(** ** The layer the expression names *)

Lemma drop_0 (s : string) : drop 0 s = s.
Proof. now destruct s. Qed.

Lemma take_0 (s : string) : take 0 s = EmptyString.
Proof. now destruct s. Qed.

Lemma basename_join (folder name : string) :
  rfind "/" name = -1 -> basename (folder +:+ String "/" name) = name.
Proof.
  intros Hname. unfold basename.
  rewrite rfind_app_found; cbn [rfind]; rewrite Hname; cbn; [|lia].
  replace (Z.to_nat (Z.of_nat (String.length folder) + 0 + 1))
    with (String.length folder + 1)%nat by lia.
  rewrite drop_app_plus. cbn [drop]. apply drop_0.
Qed.

Lemma rfind_extension (c : ascii) (stem ext : string) :
  c <> "."%char -> rfind c stem = -1 -> rfind c ext = -1 ->
  rfind c (stem +:+ String "." ext) = -1.
Proof.
  intros Hc Hstem Hext. rewrite rfind_app_absent; [exact Hstem|].
  cbn [rfind]. rewrite Hext. change (0 <=? -1) with false. cbv iota.
  destruct (Ascii.eqb_spec "." c); congruence.
Qed.

Lemma splitext_name (stem ext : string) :
  rfind "/" stem = -1 -> all_dots stem = false ->
  rfind "/" ext = -1 -> rfind "." ext = -1 ->
  splitext (stem +:+ String "." ext) = (stem, String "." ext).
Proof.
  intros Hs Hdots He Hd. unfold splitext.
  rewrite (rfind_extension "/") by (assumption || discriminate).
  rewrite (rfind_app_found "."); cbn [rfind]; rewrite Hd; cbn; [|lia].
  replace (Z.to_nat (Z.of_nat (String.length stem) + 0 - (-1 + 1)))
    with (String.length stem + 0)%nat by lia.
  change (Z.to_nat (-1 + 1)) with 0%nat.
  replace (Z.to_nat (Z.of_nat (String.length stem) + 0))
    with (String.length stem + 0)%nat by lia.
  rewrite drop_0, !take_app_plus, drop_app_plus, take_0, drop_0, append_nil_r, Hdots.
  destruct (Z.ltb_spec (-1) (Z.of_nat (String.length stem) + 0)); [reflexivity | lia].
Qed.

(** C10: for a DEM source [<folder>/<stem>.<ext>] the expression names the
    layer [<stem>.tif], band 1: the file name without its folder, its
    extension replaced by the literal [.tif].  That is the name of the DEM's
    own file exactly when its extension is [tif]; for every other extension
    the expression names a file other than the DEM's. *)
Theorem expression_names_tif_layer (folder stem ext : string) (base_elevation level : float) :
  rfind "/" stem = -1 -> all_dots stem = false ->
  rfind "/" ext = -1 -> rfind "." ext = -1 ->
  basename (folder +:+ "/" +:+ stem +:+ "." +:+ ext) = stem +:+ "." +:+ ext /\
  dem_name (folder +:+ "/" +:+ stem +:+ "." +:+ ext) = stem /\
  expression_text (folder +:+ "/" +:+ stem +:+ "." +:+ ext) base_elevation level
    = dquote +:+ stem +:+ ".tif@1" +:+ dquote +:+ " < ("
        +:+ repr base_elevation +:+ "+" +:+ repr level +:+ ")" /\
  (referenced_layer (folder +:+ "/" +:+ stem +:+ "." +:+ ext)
     = basename (folder +:+ "/" +:+ stem +:+ "." +:+ ext) <-> ext = "tif").
Proof.
  intros Hs Hdots He Hd.
  rewrite !(append_cons "/" "" _), !(append_cons "." "" _), !append_nil_l.
  assert (Hbase : basename (folder +:+ String "/" (stem +:+ String "." ext))
                  = stem +:+ String "." ext).
  { apply basename_join, rfind_extension; assumption || discriminate. }
  assert (Hname : dem_name (folder +:+ String "/" (stem +:+ String "." ext)) = stem).
  { unfold dem_name. rewrite Hbase, splitext_name by assumption. reflexivity. }
  split; [exact Hbase|]. split; [exact Hname|]. split.
  - unfold expression_text. now rewrite Hname.
  - unfold referenced_layer. rewrite Hname, Hbase. split.
    + intros H. apply append_cancel_l in H. now injection H as <-.
    + now intros ->.
Qed.

Lemma expression_names_tif_layer_witness :
  dem_name ("/data/dem" +:+ "/" +:+ "srtm" +:+ "." +:+ "tif") = "srtm".
Proof.
  apply (expression_names_tif_layer "/data/dem" "srtm" "tif" 88.86 10.0); reflexivity.
Defined.

Lemma tif_source_is_referenced :
  referenced_layer "/data/dem/srtm.tif" = "srtm.tif" /\
  referenced_layer "/data/dem/srtm.TIF" = "srtm.tif" /\
  referenced_layer "/data/dem/srtm.asc" = "srtm.tif" /\
  referenced_layer "/data/dem/srtm" = "srtm.tif".
Proof. repeat split. Qed.

(** ** Binary64 addition and comparison *)

Import Binary64.

Lemma digits2_pos_bounds (m : positive) :
  2 ^ (Z.pos (digits2_pos m) - 1) <= Z.pos m < 2 ^ Z.pos (digits2_pos m).
Proof.
  induction m as [m IH|m IH|]; cbn [digits2_pos].
  - rewrite Pos2Z.inj_succ.
    replace (Z.succ (Z.pos (digits2_pos m)) - 1) with (Z.succ (Z.pos (digits2_pos m) - 1)) by lia.
    rewrite !Z.pow_succ_r by lia. lia.
  - rewrite Pos2Z.inj_succ.
    replace (Z.succ (Z.pos (digits2_pos m)) - 1) with (Z.succ (Z.pos (digits2_pos m) - 1)) by lia.
    rewrite !Z.pow_succ_r by lia. lia.
  - simpl. lia.
Qed.

Lemma valid_finite (s : bool) (m : positive) (e : Z) :
  valid_binary (S754_finite s m e) = true ->
  -1074 <= e <= 971 /\ Z.pos (digits2_pos m) <= 53 /\
  (-1074 < e -> Z.pos (digits2_pos m) = 53).
Proof.
  unfold SpecFloat.valid_binary, bounded, canonical_mantissa, fexp, SpecFloat.emin.
  change (3 - emax - prec) with (-1074). change (emax - prec) with 971. change prec with 53.
  intros H. apply andb_prop in H as [H1 H2].
  apply Z.eqb_eq in H1. apply Z.leb_le in H2. lia.
Qed.

Lemma pow2_le (a b : Z) : 0 <= a <= b -> 2 ^ a <= 2 ^ b.
Proof. intros. apply Z.pow_le_mono_r; lia. Qed.

Lemma pow2_pos (a : Z) : 0 <= a -> 0 < 2 ^ a.
Proof. intros. apply Z.pow_pos_nonneg; lia. Qed.

(** Bounds of a valid finite number. *)
Lemma valid_scaled_bounds (s : bool) (m : positive) (e : Z) :
  valid_binary (S754_finite s m e) = true ->
  0 < Z.pos m * 2 ^ (e + 1074) < huge.
Proof.
  intros H. apply valid_finite in H as (He & Hd & _).
  pose proof (digits2_pos_bounds m) as [_ Hm].
  pose proof (pow2_pos (e + 1074) ltac:(lia)).
  split; [apply Z.mul_pos_pos; lia|].
  assert (2 ^ Z.pos (digits2_pos m) <= 2 ^ 53) by (apply pow2_le; lia).
  assert (2 ^ (e + 1074) <= 2 ^ 2045) by (apply pow2_le; lia).
  unfold huge. change 2098 with (53 + 2045). rewrite (Z.pow_add_r 2 53 2045) by lia.
  assert (0 < 2 ^ 53) by (apply pow2_pos; lia).
  nia.
Qed.

Lemma scaled_bounds (x : spec_float) :
  valid_binary x = true -> - huge <= scaled x <= huge.
Proof.
  assert (0 < huge) by (apply pow2_pos; lia).
  destruct x as [s|s| |s m e]; intros Hv; cbn [scaled]; try destruct s; try lia;
    pose proof (valid_scaled_bounds _ m e Hv); lia.
Qed.

(** Canonical numbers compare like their values. *)
Lemma finite_compare (m1 m2 : positive) (e1 e2 : Z) (s1 s2 : bool) :
  valid_binary (S754_finite s1 m1 e1) = true ->
  valid_binary (S754_finite s2 m2 e2) = true ->
  match e1 ?= e2 with
  | Lt => Lt
  | Gt => Gt
  | Eq => Pos.compare_cont Eq m1 m2
  end = (Z.pos m1 * 2 ^ (e1 + 1074) ?= Z.pos m2 * 2 ^ (e2 + 1074)).
Proof.
  intros H1 H2.
  apply valid_finite in H1 as (He1 & Hd1 & Hn1).
  apply valid_finite in H2 as (He2 & Hd2 & Hn2).
  pose proof (digits2_pos_bounds m1) as [Hl1 Hu1].
  pose proof (digits2_pos_bounds m2) as [Hl2 Hu2].
  assert (Hlt : forall ma mb ea eb, -1074 <= ea < eb -> Z.pos (digits2_pos ma) <= 53 ->
            Z.pos (digits2_pos mb) = 53 ->
            Z.pos ma * 2 ^ (ea + 1074) < Z.pos mb * 2 ^ (eb + 1074)).
  { intros ma mb ea eb Hab Ha Hb.
    pose proof (digits2_pos_bounds ma) as [_ Hua].
    pose proof (digits2_pos_bounds mb) as [Hlb _].
    rewrite Hb in Hlb. change (53 - 1) with 52 in Hlb.
    assert (2 ^ Z.pos (digits2_pos ma) <= 2 ^ 53) by (apply pow2_le; lia).
    replace (eb + 1074) with ((ea + 1074) + (eb - ea)) by lia.
    rewrite (Z.pow_add_r 2 (ea + 1074) (eb - ea)) by lia.
    assert (2 ^ 1 <= 2 ^ (eb - ea)) by (apply pow2_le; lia).
    pose proof (pow2_pos (ea + 1074) ltac:(lia)).
    change (2 ^ 1) with 2 in *.
    assert (Z.pos ma < 2 * Z.pos mb) by lia.
    assert (Z.pos ma < Z.pos mb * 2 ^ (eb - ea)) by nia.
    generalize dependent (2 ^ (ea + 1074)). generalize dependent (2 ^ (eb - ea)).
    intros T ? ? P ?. nia. }
  destruct (Z.compare_spec e1 e2) as [->|Hc|Hc].
  - change (Pos.compare_cont Eq m1 m2) with (Z.pos m1 ?= Z.pos m2).
    pose proof (pow2_pos (e2 + 1074) ltac:(lia)).
    symmetry. destruct (Z.compare_spec (Z.pos m1) (Z.pos m2)) as [Heq|Hl|Hg].
    + rewrite Heq. apply Z.compare_refl.
    + apply Z.compare_lt_iff. nia.
    + apply Z.compare_gt_iff. nia.
  - symmetry. apply Z.compare_lt_iff. apply Hlt; lia.
  - symmetry. apply Z.compare_gt_iff. apply Hlt; lia.
Qed.

Ltac by_compare :=
  f_equal; symmetry;
  first [ apply Z.compare_eq_iff; lia | apply Z.compare_lt_iff; lia
        | apply Z.compare_gt_iff; lia ].

Lemma SFcompare_scaled (x y : spec_float) :
  valid_binary x = true -> valid_binary y = true ->
  not_a_number x = false -> not_a_number y = false ->
  SFcompare x y = Some (scaled x ?= scaled y).
Proof.
  intros Hx Hy Nx Ny.
  assert (Hh : 0 < huge) by (apply pow2_pos; lia).
  destruct x as [sx|sx| |sx mx ex]; try discriminate;
  destruct y as [sy|sy| |sy my ey]; try discriminate; cbn [SFcompare scaled];
    try (pose proof (valid_scaled_bounds _ mx ex Hx));
    try (pose proof (valid_scaled_bounds _ my ey Hy)).
  - reflexivity.
  - destruct sy; by_compare.
  - destruct sy; by_compare.
  - destruct sx; by_compare.
  - destruct sx, sy; by_compare.
  - destruct sx, sy; by_compare.
  - destruct sx; by_compare.
  - destruct sx, sy; by_compare.
  - destruct sx, sy; [| by_compare | by_compare |].
    + f_equal. rewrite Z.compare_opp.
      rewrite (Z.compare_antisym (Z.pos mx * 2 ^ (ex + 1074)) (Z.pos my * 2 ^ (ey + 1074))).
      rewrite <- (finite_compare mx my ex ey true true Hx Hy).
      destruct (ex ?= ey); reflexivity.
    + f_equal. apply (finite_compare mx my ex ey false false Hx Hy).
Qed.

(** ** Shifting right with a round and a sticky bit *)

Lemma pow2_succ (j : Z) : 0 <= j -> 2 ^ (j + 1) = 2 * 2 ^ j.
Proof. intros. rewrite Z.pow_add_r by lia. change (2 ^ 1) with 2. lia. Qed.

Lemma pow2_half (j : Z) : 0 < j -> 2 ^ j = 2 * 2 ^ (j - 1).
Proof. intros. rewrite <- pow2_succ by lia. f_equal. lia. Qed.

Lemma iter_pos_nat {A : Type} (f : A -> A) (p : positive) (x : A) :
  SpecFloat.iter_pos f p x = Nat.iter (Pos.to_nat p) f x.
Proof.
  revert x. induction p as [p IH|p IH|]; intros x; cbn [SpecFloat.iter_pos].
  - rewrite !IH. rewrite Pos2Nat.inj_xI.
    replace (S (2 * Pos.to_nat p)) with (Pos.to_nat p + S (Pos.to_nat p))%nat by lia.
    rewrite Nat.iter_add, Nat.iter_succ_r. reflexivity.
  - rewrite !IH. rewrite Pos2Nat.inj_xO.
    replace (2 * Pos.to_nat p)%nat with (Pos.to_nat p + Pos.to_nat p)%nat by lia.
    now rewrite Nat.iter_add.
  - reflexivity.
Qed.

Lemma shr_1_shifted (M j : Z) (rec : shr_record) :
  0 <= j -> shifted M j rec -> shifted M (j + 1) (shr_1 rec).
Proof.
  intros Hj (Hm & t & Ht & HM & H0 & Hlt & Hs).
  destruct rec as [m r s]. cbn [shr_m shr_r shr_s] in *.
  assert (Hpow : 2 ^ (j + 1) = 2 * 2 ^ j) by (apply pow2_succ; lia).
  assert (Hhalf : 0 < j -> 2 ^ j = 2 * 2 ^ (j - 1)) by apply pow2_half.
  assert (Hp : 0 < 2 ^ j) by (apply pow2_pos; lia).
  assert (Hnew : 0 <= (if r then 2 ^ (j - 1) else 0) + t < 2 ^ j /\
                 (r || s = negb ((if r then 2 ^ (j - 1) else 0) + t =? 0))).
  { destruct (Z.eq_dec j 0) as [->|Hne].
    - destruct H0 as [-> ->]; [reflexivity|]. subst s. simpl. lia.
    - specialize (Hlt ltac:(lia)). specialize (Hhalf ltac:(lia)).
      assert (0 < 2 ^ (j - 1)) by (apply pow2_pos; lia).
      destruct r.
      + split; [lia|]. simpl. symmetry. apply negb_true_iff, Z.eqb_neq. lia.
      + split; [lia|]. simpl. rewrite Z.add_0_l. exact Hs. }
  destruct Hnew as [Hrange Hsticky].
  set (t' := (if r then 2 ^ (j - 1) else 0) + t) in *.
  assert (HM' : M = m * 2 ^ j + t') by (unfold t'; lia).
  clearbody t'. clear HM H0 Hlt Hs Hhalf.
  unfold shifted.
  assert (Hgoal : forall m' (b : bool), 0 <= m' ->
            m = 2 * m' + (if b then 1 else 0) ->
            (0 <= m' /\
             exists u, 0 <= u /\
               M = m' * 2 ^ (j + 1) + (if b then 2 ^ j else 0) + u /\
               (j + 1 = 0 -> u = 0 /\ b = false) /\
               (0 < j + 1 -> u < 2 ^ j) /\ r || s = negb (u =? 0))).
  { intros m' b Hm' Hb. split; [exact Hm'|]. exists t'.
    split; [lia|]. split.
    - rewrite HM', Hpow, Hb. destruct b; ring.
    - split; [lia|]. split; [lia|]. exact Hsticky. }
  replace (j + 1 - 1) with j by lia.
  destruct m as [|[p|p|]|p]; [| | | |lia]; cbn [shr_1 shr_m shr_r shr_s].
  - apply (Hgoal 0 false); lia.
  - apply (Hgoal (Z.pos p) true); lia.
  - apply (Hgoal (Z.pos p) false); lia.
  - apply (Hgoal 0 true); lia.
Qed.

Lemma iter_shifted (M : Z) (n : nat) (rec : shr_record) :
  shifted M 0 rec -> shifted M (Z.of_nat n) (Nat.iter n shr_1 rec).
Proof.
  intros H. induction n as [|n IH]; [exact H|].
  rewrite Nat2Z.inj_succ. cbn [Nat.iter]. unfold Z.succ.
  apply shr_1_shifted; [lia | exact IH].
Qed.

Lemma shifted_round (M j : Z) (rec : shr_record) :
  0 <= j -> shifted M j rec ->
  shr_m rec = M / 2 ^ j /\
  round_nearest_even (shr_m rec) (loc_of_shr_record rec) = round_at j M.
Proof.
  intros Hj (Hm & t & Ht & HM & H0 & Hlt & Hs).
  destruct rec as [m r s]. cbn [shr_m shr_r shr_s] in *.
  assert (Hp : 0 < 2 ^ j) by (apply pow2_pos; lia).
  assert (Hrem : 0 <= (if r then 2 ^ (j - 1) else 0) + t < 2 ^ j).
  { destruct (Z.eq_dec j 0) as [->|Hne].
    - destruct H0 as [-> ->]; [reflexivity|]. simpl. lia.
    - specialize (Hlt ltac:(lia)).
      assert (2 ^ j = 2 * 2 ^ (j - 1)) by (apply pow2_half; lia).
      assert (0 < 2 ^ (j - 1)) by (apply pow2_pos; lia).
      destruct r; lia. }
  assert (Hdiv : M / 2 ^ j = m /\ M mod 2 ^ j = (if r then 2 ^ (j - 1) else 0) + t).
  { symmetry in HM. rewrite <- Z.add_assoc in HM. rewrite (Z.mul_comm m) in HM.
    symmetry in HM.
    pose proof (Z.div_mod_unique (2 ^ j) (M / 2 ^ j) m (M mod 2 ^ j)
                  ((if r then 2 ^ (j - 1) else 0) + t)) as Hu.
    destruct Hu as [Hq Hr].
    - left. apply Z.mod_pos_bound. lia.
    - left. exact Hrem.
    - rewrite <- HM. symmetry. apply Z.div_mod. lia.
    - auto. }
  destruct Hdiv as [Hq Hr]. split; [now symmetry|].
  unfold round_at. rewrite Hq, Hr.
  destruct (Z.eq_dec j 0) as [->|Hne].
  - destruct H0 as [-> ->]; [reflexivity|]. rewrite Hs. reflexivity.
  - specialize (Hlt ltac:(lia)).
    assert (Hh : 2 ^ j = 2 * 2 ^ (j - 1)) by (apply pow2_half; lia).
    assert (0 < 2 ^ (j - 1)) by (apply pow2_pos; lia).
    destruct r; rewrite Hs; destruct (Z.eqb_spec t 0) as [->|Hnz]; cbn [negb loc_of_shr_record round_nearest_even].
    + rewrite Z.add_0_r, <- Hh, Z.ltb_irrefl, Z.eqb_refl. cbn [orb andb].
      rewrite <- Z.negb_odd. destruct (Z.odd m); reflexivity.
    + destruct (Z.ltb_spec (2 ^ j) (2 * (2 ^ (j - 1) + t))); [reflexivity | lia].
    + rewrite Z.add_0_r. change (2 * 0) with 0.
      destruct (Z.ltb_spec (2 ^ j) 0); [lia|].
      destruct (Z.eqb_spec (2 ^ j) 0); [lia|]. reflexivity.
    + rewrite Z.add_0_l.
      destruct (Z.ltb_spec (2 ^ j) (2 * t)); [lia|].
      destruct (Z.eqb_spec (2 ^ j) (2 * t)); [lia|]. reflexivity.
Qed.

(** [shr] from an exact position, by [n >= 0] bits. *)
Lemma shr_exact (M e n : Z) :
  0 <= M -> 0 <= n ->
  let '(rec, e') := shr (shr_record_of_loc M loc_Exact) e n in
  e' = e + n /\ shr_m rec = M / 2 ^ n /\
  round_nearest_even (shr_m rec) (loc_of_shr_record rec) = round_at n M.
Proof.
  intros HM Hn.
  assert (H0 : shifted M 0 (shr_record_of_loc M loc_Exact)).
  { split; [exact HM|]. exists 0. cbn. repeat split; lia. }
  destruct n as [|p|p]; [| |lia]; cbn [shr].
  - split; [lia|]. apply (shifted_round M 0); [lia | exact H0].
  - split; [reflexivity|]. rewrite iter_pos_nat.
    replace (Z.pos p) with (Z.of_nat (Pos.to_nat p)) by apply positive_nat_Z.
    apply shifted_round; [lia|]. apply iter_shifted. exact H0.
Qed.

(** ** Powers of two *)

Lemma pow2_add (a b : Z) : 0 <= a -> 0 <= b -> 2 ^ (a + b) = 2 ^ a * 2 ^ b.
Proof. intros. apply Z.pow_add_r; lia. Qed.

Lemma mul_pow2_lt (a p E : Z) :
  0 <= p -> 0 <= E -> a < 2 ^ p -> a * 2 ^ E < 2 ^ (p + E).
Proof.
  intros Hp HE Ha. rewrite pow2_add by lia.
  apply Z.mul_lt_mono_pos_r; [apply pow2_pos; lia | exact Ha].
Qed.

Lemma mul_pow2_le (a p E : Z) :
  0 <= p -> 0 <= E -> a <= 2 ^ p -> a * 2 ^ E <= 2 ^ (p + E).
Proof.
  intros Hp HE Ha. rewrite pow2_add by lia.
  apply Z.mul_le_mono_nonneg_r; [apply Z.lt_le_incl, pow2_pos; lia | exact Ha].
Qed.

Lemma mul_pow2_ge (a p E : Z) :
  0 <= p -> 0 <= E -> 2 ^ p <= a -> 2 ^ (p + E) <= a * 2 ^ E.
Proof.
  intros Hp HE Ha. rewrite pow2_add by lia.
  apply Z.mul_le_mono_nonneg_r; [apply Z.lt_le_incl, pow2_pos; lia | exact Ha].
Qed.

Lemma Zdigits2_log2 (m : Z) : 0 < m -> Zdigits2 m = Z.log2 m + 1.
Proof.
  intros Hm. destruct m as [|p|p]; try lia. cbn [Zdigits2].
  pose proof (digits2_pos_bounds p) as [Hl Hu].
  assert (Z.log2 (Z.pos p) = Z.pos (digits2_pos p) - 1); [|lia].
  apply Z.log2_unique; [lia|].
  replace (Z.succ (Z.pos (digits2_pos p) - 1)) with (Z.pos (digits2_pos p)) by lia.
  lia.
Qed.

Lemma log2_bounds (m : Z) : 0 < m -> 2 ^ Z.log2 m <= m < 2 ^ (Z.log2 m + 1).
Proof. intros. apply Z.log2_spec. lia. Qed.

(** The quotient of a number of [d] bits by [2^n] has [d - n] bits. *)
Lemma div_pow2_lt (m n p : Z) :
  0 <= n -> 0 <= p -> m < 2 ^ (p + n) -> m / 2 ^ n < 2 ^ p.
Proof.
  intros Hn Hp Hm. apply Z.div_lt_upper_bound; [apply pow2_pos; lia|].
  rewrite <- pow2_add by lia. now rewrite Z.add_comm.
Qed.

Lemma div_pow2_ge (m n p : Z) :
  0 <= n -> 0 <= p -> 2 ^ (p + n) <= m -> 2 ^ p <= m / 2 ^ n.
Proof.
  intros Hn Hp Hm. apply Z.div_le_lower_bound; [apply pow2_pos; lia|].
  rewrite <- pow2_add by lia. now rewrite Z.add_comm.
Qed.

Lemma round_at_bounds (k N : Z) : N / 2 ^ k <= round_at k N <= N / 2 ^ k + 1.
Proof. unfold round_at. destruct (_ || _); lia. Qed.

Lemma shr_nonpos (rec : shr_record) (e n : Z) : n <= 0 -> shr rec e n = (rec, e).
Proof. intros Hn. destruct n as [|p|p]; try reflexivity. lia. Qed.

Lemma fexp_unfold (e : Z) : fexp prec emax e = Z.max (e - 53) (-1074).
Proof. reflexivity. Qed.

(** ** Rounding a positioned mantissa *)

Lemma assemble_scaled (s : bool) (m3 e'' v : Z) :
  0 <= m3 -> v = m3 * 2 ^ (e'' + 1074) ->
  (e'' <= 971 -> v <= huge) ->
  (971 < e'' -> 0 < m3 -> huge <= v) ->
  not_a_number match m3 with
         | 0 => S754_zero s
         | Z.pos m => if e'' <=? 971 then S754_finite s m e'' else S754_infinity s
         | Z.neg _ => S754_nan
         end = false /\
  scaled match m3 with
         | 0 => S754_zero s
         | Z.pos m => if e'' <=? 971 then S754_finite s m e'' else S754_infinity s
         | Z.neg _ => S754_nan
         end = signed s (Z.min v huge).
Proof.
  intros Hm3 Hv Hfin Hinf.
  assert (Hh : 0 < huge) by (apply pow2_pos; lia).
  destruct m3 as [|p|p]; [| |lia].
  - split; [reflexivity|]. cbn [scaled]. rewrite Z.mul_0_l in Hv. subst v.
    rewrite Z.min_l by lia. now destruct s.
  - destruct (Z.leb_spec e'' 971) as [H|H].
    + split; [reflexivity|]. cbn [scaled]. unfold signed.
      rewrite Z.min_l by auto. now rewrite Hv.
    + split; [reflexivity|]. cbn [scaled]. unfold signed.
      rewrite Z.min_r; [reflexivity|]. apply Hinf; lia.
Qed.

Lemma binary_round_aux_scaled (s : bool) (mz ez : Z) :
  0 < mz -> -1074 <= ez ->
  0 <= fexp prec emax (Zdigits2 mz + ez) - ez ->
  not_a_number (binary_round_aux prec emax s mz ez loc_Exact) = false /\
  scaled (binary_round_aux prec emax s mz ez loc_Exact)
  = signed s (Z.min (round_at (fexp prec emax (Zdigits2 mz + ez) - ez) mz
                      * 2 ^ (fexp prec emax (Zdigits2 mz + ez) + 1074)) huge).
Proof.
  intros Hmz Hez Hn.
  rewrite fexp_unfold in *. rewrite Zdigits2_log2 in * by exact Hmz.
  set (d := Z.log2 mz + 1) in *.
  set (n := Z.max (d + ez - 53) (-1074) - ez) in *.
  replace (Z.max (d + ez - 53) (-1074) + 1074) with (n + ez + 1074) by (unfold n; lia).
  pose proof (log2_bounds mz Hmz) as [Hlo Hhi]. fold d in Hhi.
  replace (Z.log2 mz) with (d - 1) in Hlo by (unfold d; lia).
  assert (Hd : 1 <= d) by (unfold d; pose proof (Z.log2_nonneg mz); lia).
  unfold binary_round_aux, shr_fexp.
  rewrite fexp_unfold. rewrite (Zdigits2_log2 mz Hmz). fold d. fold n.
  pose proof (shr_exact mz ez n ltac:(lia) Hn) as Hshr.
  destruct (shr (shr_record_of_loc mz loc_Exact) ez n) as [rec e'].
  destruct Hshr as (He' & Hq & Hround).
  rewrite Hround. set (m2 := round_at n mz) in *.
  pose proof (round_at_bounds n mz) as Hm2. fold m2 in Hm2.
  assert (Hqlt : mz / 2 ^ n < 2 ^ 53).
  { apply div_pow2_lt; [lia | lia |].
    eapply Z.lt_le_trans; [exact Hhi|]. apply pow2_le. unfold n. lia. }
  assert (Hq0 : 0 <= mz / 2 ^ n).
  { apply Z.div_pos; [lia | apply pow2_pos; lia]. }
  assert (Hqge : n = d - 53 -> 2 ^ 52 <= mz / 2 ^ n).
  { intros Hnd. apply div_pow2_ge; [lia | lia |].
    eapply Z.le_trans; [|exact Hlo]. apply pow2_le. lia. }
  subst e'.
  change (emax - prec) with 971.
  assert (HP : 0 < 2 ^ (n + ez + 1074)) by (apply pow2_pos; lia).
  destruct (Z.eq_dec m2 (2 ^ 53)) as [Htop|Hnot].
  - (* the mantissa overflowed to 2^53: one more exact shift *)
    rewrite Htop. change (Zdigits2 (2 ^ 53)) with 54. rewrite fexp_unfold.
    replace (Z.max (54 + (ez + n) - 53) (-1074) - (ez + n)) with 1 by lia.
    change (shr (shr_record_of_loc (2 ^ 53) loc_Exact) (ez + n) 1)
      with ({| shr_m := 2 ^ 52; shr_r := false; shr_s := false |}, ez + n + 1).
    cbn [shr_m].
    assert (Hval : 2 ^ 53 * 2 ^ (n + ez + 1074) = 2 ^ 52 * 2 ^ (ez + n + 1 + 1074)).
    { replace (ez + n + 1 + 1074) with (n + ez + 1074 + 1) by lia.
      rewrite pow2_succ by lia. change (2 ^ 53) with (2 * 2 ^ 52). ring. }
    apply assemble_scaled.
    + apply Z.lt_le_incl, pow2_pos. lia.
    + exact Hval.
    + intros Hfin. rewrite <- pow2_add by lia. unfold huge. apply pow2_le. lia.
    + intros Hinf _. rewrite <- pow2_add by lia. unfold huge. apply pow2_le. lia.
  - (* no overflow of the mantissa: the second shift does nothing *)
    assert (Hm2lt : m2 < 2 ^ 53) by lia.
    assert (Hm2nn : 0 <= m2) by lia.
    assert (Hdig : Zdigits2 m2 <= 53).
    { destruct (Z.eq_dec m2 0) as [->|Hnz]; [cbn; lia|].
      rewrite Zdigits2_log2 by lia.
      assert (Z.log2 m2 < 53); [|lia].
      apply Z.log2_lt_pow2; lia. }
    rewrite fexp_unfold.
    rewrite shr_nonpos by lia.
    cbn [shr_m shr_record_of_loc].
    apply assemble_scaled.
    + exact Hm2nn.
    + f_equal. f_equal. lia.
    + intros Hfin. apply Z.lt_le_incl. eapply Z.lt_le_trans.
      * apply (mul_pow2_lt _ 53); [lia | lia | exact Hm2lt].
      * unfold huge. apply pow2_le. lia.
    + intros Hinf Hpos.
      assert (Hnd : n = d - 53) by (unfold n in *; lia).
      specialize (Hqge Hnd).
      eapply Z.le_trans; [|apply (mul_pow2_ge _ 52); [lia | lia | lia]].
      unfold huge. apply pow2_le. lia.
Qed.

(** ** Rounding a number of units *)

Lemma round_at_scale (a n E : Z) :
  0 <= n -> 0 <= E -> round_at (n + E) (a * 2 ^ E) = round_at n a.
Proof.
  intros Hn HE. unfold round_at.
  assert (HP : 0 < 2 ^ E) by (apply pow2_pos; lia).
  assert (HQ : 0 < 2 ^ n) by (apply pow2_pos; lia).
  rewrite pow2_add by lia.
  rewrite Z.div_mul_cancel_r by lia.
  rewrite Z.mul_mod_distr_r by lia.
  set (r := a mod 2 ^ n). set (q := a / 2 ^ n).
  replace (2 * (r * 2 ^ E)) with ((2 * r) * 2 ^ E) by ring.
  assert (Hlt : (2 ^ n * 2 ^ E <? 2 * r * 2 ^ E) = (2 ^ n <? 2 * r)).
  { destruct (Z.ltb_spec (2 ^ n) (2 * r)) as [H|H].
    - apply Z.ltb_lt. apply Z.mul_lt_mono_pos_r; assumption.
    - apply Z.ltb_ge. apply Z.mul_le_mono_nonneg_r; [lia | assumption]. }
  assert (Heq : (2 ^ n * 2 ^ E =? 2 * r * 2 ^ E) = (2 ^ n =? 2 * r)).
  { destruct (Z.eqb_spec (2 ^ n) (2 * r)) as [H|H].
    - apply Z.eqb_eq. now rewrite H.
    - apply Z.eqb_neq. intros H'. apply H. apply (Z.mul_reg_r _ _ (2 ^ E)); [lia | exact H']. }
  now rewrite Hlt, Heq.
Qed.

Lemma pos_iter_xO (m d : positive) : Z.pos (Pos.iter xO m d) = Z.pos m * 2 ^ Z.pos d.
Proof.
  rewrite Pos2Nat.inj_iter.
  rewrite <- (positive_nat_Z d).
  induction (Pos.to_nat d) as [|k IH]; [simpl; lia|].
  rewrite Nat2Z.inj_succ, Z.pow_succ_r by lia.
  cbn [nat_rect]. rewrite Pos2Z.inj_xO, IH. ring.
Qed.

(** [binary_round] rounds the value [m * 2^e] of a positive mantissa. *)
Lemma binary_round_scaled (s : bool) (m : positive) (e : Z) :
  -1074 <= e ->
  not_a_number (binary_round prec emax s m e) = false /\
  scaled (binary_round prec emax s m e)
  = signed s (Z.min (round_pos (Z.pos m * 2 ^ (e + 1074))) huge).
Proof.
  intros He. unfold binary_round, shl_align.
  rewrite fexp_unfold.
  pose proof (Zdigits2_log2 (Z.pos m) ltac:(lia)) as Hdig. cbn [Zdigits2] in Hdig.
  rewrite Hdig. set (d := Z.log2 (Z.pos m) + 1).
  assert (Hd : 1 <= d) by (unfold d; pose proof (Z.log2_nonneg (Z.pos m)); lia).
  assert (Hround : forall mz ez, 0 < mz -> -1074 <= ez -> ez <= e ->
            mz * 2 ^ (ez + 1074) = Z.pos m * 2 ^ (e + 1074) ->
            Z.log2 mz + 1 + ez = d + e ->
            0 <= Z.max (d + e - 53) (-1074) - ez ->
            not_a_number (binary_round_aux prec emax s mz ez loc_Exact) = false /\
            scaled (binary_round_aux prec emax s mz ez loc_Exact)
            = signed s (Z.min (round_pos (Z.pos m * 2 ^ (e + 1074))) huge)).
  { intros mz ez Hmz Hez Hle Hval Hdz Hn.
    pose proof (binary_round_aux_scaled s mz ez Hmz Hez) as Haux.
    rewrite fexp_unfold, (Zdigits2_log2 mz Hmz), Hdz in Haux.
    specialize (Haux Hn). destruct Haux as [Hnan Hsc].
    split; [exact Hnan|]. rewrite Hsc. f_equal. f_equal.
    unfold round_pos. rewrite <- Hval.
    rewrite Z.log2_mul_pow2 by lia.
    set (n := Z.max (d + e - 53) (-1074) - ez) in *.
    replace (Z.max (ez + 1074 + Z.log2 mz + 1 - 53) 0) with (n + (ez + 1074))
      by (unfold n; lia).
    rewrite round_at_scale by lia.
    f_equal. f_equal. unfold n. lia. }
  destruct (Z.max (d + e - 53) (-1074) - e) as [|p|p] eqn:Hshift.
  - apply Hround; lia.
  - apply Hround; lia.
  - assert (Hf : Z.max (d + e - 53) (-1074) = e - Z.pos p) by lia.
    rewrite Hf. apply Hround.
    + lia.
    + lia.
    + lia.
    + rewrite pos_iter_xO. rewrite <- Z.mul_assoc, <- pow2_add by lia.
      f_equal. f_equal. lia.
    + rewrite pos_iter_xO. rewrite Z.log2_mul_pow2 by lia. unfold d. lia.
    + lia.
Qed.

(** [binary_normalize] rounds the value [S * 2^e] of an integer. *)
Lemma binary_normalize_scaled (S e : Z) (sz : bool) :
  -1074 <= e ->
  not_a_number (binary_normalize prec emax S e sz) = false /\
  scaled (binary_normalize prec emax S e sz) = round (S * 2 ^ (e + 1074)).
Proof.
  intros He. unfold round.
  assert (HP : 0 < 2 ^ (e + 1074)) by (apply pow2_pos; lia).
  destruct S as [|p|p]; cbn [binary_normalize].
  - split; reflexivity.
  - destruct (binary_round_scaled false p e He) as [Hn Hs]. split; [exact Hn|].
    rewrite Hs. unfold signed.
    assert (0 < Z.pos p * 2 ^ (e + 1074)) by (apply Z.mul_pos_pos; lia).
    rewrite Z.sgn_pos, Z.abs_eq by lia. lia.
  - destruct (binary_round_scaled true p e He) as [Hn Hs]. split; [exact Hn|].
    rewrite Hs. unfold signed.
    assert (0 < Z.pos p * 2 ^ (e + 1074)) by (apply Z.mul_pos_pos; lia).
    assert (Hneg : Z.neg p * 2 ^ (e + 1074) = - (Z.pos p * 2 ^ (e + 1074))).
    { change (Z.neg p) with (- Z.pos p). ring. }
    rewrite Hneg, Z.sgn_neg, Z.abs_neq by lia.
    rewrite Z.opp_involutive. lia.
Qed.

(** ** Rounding is monotone *)

Lemma round_pos_0 : round_pos 0 = 0.
Proof. reflexivity. Qed.

Lemma round_pos_facts (N : Z) :
  0 < N ->
  let k := Z.max (Z.log2 N + 1 - 53) 0 in
  N / 2 ^ k * 2 ^ k <= round_pos N <= (N / 2 ^ k + 1) * 2 ^ k /\
  0 <= N / 2 ^ k < 2 ^ 53 /\
  (0 < k -> 2 ^ 52 <= N / 2 ^ k).
Proof.
  intros HN k.
  assert (Hk : 0 <= k) by (unfold k; lia).
  assert (HP : 0 < 2 ^ k) by (apply pow2_pos; lia).
  pose proof (log2_bounds N HN) as [Hlo Hhi].
  pose proof (Z.log2_nonneg N) as Hl.
  pose proof (round_at_bounds k N) as [Hb1 Hb2].
  split; [|split].
  - unfold round_pos. fold k. split; apply Z.mul_le_mono_nonneg_r; lia.
  - split; [apply Z.div_pos; lia|].
    apply div_pow2_lt; [lia | lia |].
    eapply Z.lt_le_trans; [exact Hhi|]. apply pow2_le. unfold k. lia.
  - intros Hpos. apply div_pow2_ge; [lia | lia |].
    eapply Z.le_trans; [|exact Hlo]. apply pow2_le. unfold k in *. lia.
Qed.

Lemma round_pos_nonneg (N : Z) : 0 <= N -> 0 <= round_pos N.
Proof.
  intros HN. destruct (Z.eq_dec N 0) as [->|Hne]; [rewrite round_pos_0; lia|].
  destruct (round_pos_facts N ltac:(lia)) as ([Hlo _] & [Hq _] & _).
  eapply Z.le_trans; [|exact Hlo].
  apply Z.mul_nonneg_nonneg; [lia|]. apply Z.lt_le_incl, pow2_pos. lia.
Qed.

Lemma round_at_mono (k N1 N2 : Z) :
  0 <= k -> N1 <= N2 -> N1 / 2 ^ k = N2 / 2 ^ k -> round_at k N1 <= round_at k N2.
Proof.
  intros Hk HN Hq.
  assert (HP : 0 < 2 ^ k) by (apply pow2_pos; lia).
  pose proof (Z.div_mod N1 (2 ^ k) ltac:(lia)) as H1.
  pose proof (Z.div_mod N2 (2 ^ k) ltac:(lia)) as H2.
  unfold round_at. rewrite Hq in *.
  set (q := N2 / 2 ^ k) in *. set (r1 := N1 mod 2 ^ k) in *. set (r2 := N2 mod 2 ^ k) in *.
  assert (Hr : r1 <= r2) by lia.
  destruct (Z.ltb_spec (2 ^ k) (2 * r1)), (Z.ltb_spec (2 ^ k) (2 * r2)),
    (Z.eqb_spec (2 ^ k) (2 * r1)), (Z.eqb_spec (2 ^ k) (2 * r2)), (Z.odd q);
    cbn [orb andb]; lia.
Qed.

Lemma round_pos_mono (N1 N2 : Z) : 0 <= N1 <= N2 -> round_pos N1 <= round_pos N2.
Proof.
  intros [H1 H12].
  destruct (Z.eq_dec N1 0) as [->|Hne].
  { rewrite round_pos_0. apply round_pos_nonneg. lia. }
  pose proof (round_pos_facts N1 ltac:(lia)) as F1.
  pose proof (round_pos_facts N2 ltac:(lia)) as F2.
  cbv zeta in F1, F2.
  pose proof (Z.log2_le_mono N1 N2 H12) as Hlog.
  set (k1 := Z.max (Z.log2 N1 + 1 - 53) 0) in *.
  set (k2 := Z.max (Z.log2 N2 + 1 - 53) 0) in *.
  destruct F1 as ([_ Hup1] & [Hq1 Hq1'] & _).
  destruct F2 as ([Hlo2 _] & [Hq2 _] & Hbig2).
  assert (Hk1 : 0 <= k1) by (unfold k1; lia).
  assert (Hk12 : k1 <= k2) by (unfold k1, k2; lia).
  destruct (Z.eq_dec k1 k2) as [Heq|Hlt].
  - unfold round_pos. fold k1 k2. rewrite <- Heq in *.
    assert (HP : 0 < 2 ^ k1) by (apply pow2_pos; lia).
    pose proof (Z.div_le_mono N1 N2 (2 ^ k1) HP H12) as Hq.
    destruct (Z.eq_dec (N1 / 2 ^ k1) (N2 / 2 ^ k1)) as [Hqq|Hqne].
    + apply Z.mul_le_mono_nonneg_r; [lia|]. apply round_at_mono; assumption.
    + apply Z.mul_le_mono_nonneg_r; [lia|].
      pose proof (round_at_bounds k1 N1). pose proof (round_at_bounds k1 N2). lia.
  - assert (Hk2 : 0 < k2) by lia. specialize (Hbig2 Hk2).
    eapply Z.le_trans; [exact Hup1|].
    eapply Z.le_trans; [|exact Hlo2].
    eapply Z.le_trans; [apply (mul_pow2_le _ 53); lia|].
    eapply Z.le_trans; [|apply (mul_pow2_ge _ 52); [lia | lia | exact Hbig2]].
    apply pow2_le. lia.
Qed.

Lemma round_mono (N1 N2 : Z) : N1 <= N2 -> round N1 <= round N2.
Proof.
  intros H. unfold round.
  assert (Hh : 0 < huge) by (apply pow2_pos; lia).
  assert (Hc : forall a b, 0 <= a <= b ->
            0 <= Z.min (round_pos a) huge <= Z.min (round_pos b) huge).
  { intros a b Hab. pose proof (round_pos_mono a b Hab).
    pose proof (round_pos_nonneg a ltac:(lia)). lia. }
  destruct (Z.sgn_spec N1) as [[H1 ->]|[[H1 ->]|[H1 ->]]];
  destruct (Z.sgn_spec N2) as [[H2 ->]|[[H2 ->]|[H2 ->]]]; try lia.
  - rewrite !Z.abs_eq by lia. pose proof (Hc N1 N2 ltac:(lia)). lia.
  - pose proof (Hc 0 (Z.abs N2) ltac:(lia)). lia.
  - pose proof (Hc 0 (Z.abs N1) ltac:(lia)). pose proof (Hc 0 (Z.abs N2) ltac:(lia)). lia.
  - pose proof (Hc 0 (Z.abs N1) ltac:(lia)). lia.
  - rewrite !Z.abs_neq by lia. pose proof (Hc (- N2) (- N1) ltac:(lia)). lia.
Qed.

(** A number of at most 53 bits, scaled, rounds to itself. *)
Lemma round_pos_exact (m E : Z) :
  0 < m < 2 ^ 53 -> 0 <= E -> round_pos (m * 2 ^ E) = m * 2 ^ E.
Proof.
  intros Hm HE. unfold round_pos.
  rewrite Z.log2_mul_pow2 by lia.
  assert (Z.log2 m < 53) by (apply Z.log2_lt_pow2; lia).
  pose proof (Z.log2_nonneg m).
  set (k := Z.max (E + Z.log2 m + 1 - 53) 0).
  assert (Hk : 0 <= k <= E) by (unfold k; lia).
  assert (HP : 0 < 2 ^ k) by (apply pow2_pos; lia).
  replace (2 ^ E) with (2 ^ (E - k) * 2 ^ k) by (rewrite <- pow2_add by lia; f_equal; lia).
  rewrite Z.mul_assoc. unfold round_at.
  rewrite Z.mod_mul, Z.div_mul by lia.
  change (2 * 0) with 0.
  destruct (Z.ltb_spec (2 ^ k) 0); [lia|].
  destruct (Z.eqb_spec (2 ^ k) 0); [lia|]. reflexivity.
Qed.

Lemma number_strict_bounds (x : spec_float) :
  valid_binary x = true -> is_number x = true -> - huge < scaled x < huge.
Proof.
  assert (0 < huge) by (apply pow2_pos; lia).
  destruct x as [s|s| |s m e]; try discriminate; intros Hv _; cbn [scaled]; [lia|].
  pose proof (valid_scaled_bounds s m e Hv). destruct s; lia.
Qed.

Lemma round_scaled (x : spec_float) :
  valid_binary x = true -> is_number x = true -> round (scaled x) = scaled x.
Proof.
  destruct x as [s|s| |s m e]; try discriminate; intros Hv _; [reflexivity|].
  pose proof (valid_scaled_bounds s m e Hv) as Hb.
  pose proof (valid_finite s m e Hv) as (He & Hd & _).
  pose proof (digits2_pos_bounds m) as [_ Hm].
  assert (Hm53 : Z.pos m < 2 ^ 53).
  { eapply Z.lt_le_trans; [exact Hm|]. apply pow2_le. lia. }
  cbn [scaled]. unfold round.
  destruct s.
  - rewrite Z.sgn_neg, Z.abs_neq, Z.opp_involutive by lia.
    rewrite round_pos_exact by lia. lia.
  - rewrite Z.sgn_pos, Z.abs_eq by lia.
    rewrite round_pos_exact by lia. lia.
Qed.

(** ** Addition *)

Lemma shl_align_fst (m : positive) (e ez : Z) :
  -1074 <= ez <= e ->
  Z.pos (shl_align m e ez).1 * 2 ^ (ez + 1074) = Z.pos m * 2 ^ (e + 1074).
Proof.
  intros He. unfold shl_align.
  destruct (ez - e) as [|p|p] eqn:Hd; cbn [fst].
  - f_equal. f_equal. lia.
  - lia.
  - rewrite pos_iter_xO, <- Z.mul_assoc, <- pow2_add by lia.
    f_equal. f_equal. lia.
Qed.

Lemma SFadd_scaled (x y : spec_float) :
  valid_binary x = true -> valid_binary y = true ->
  is_number x = true -> is_number y = true ->
  not_a_number (SFadd prec emax x y) = false /\
  scaled (SFadd prec emax x y) = round (scaled x + scaled y).
Proof.
  intros Hx Hy Nx Ny.
  destruct x as [sx|sx| |sx mx ex]; try discriminate;
  destruct y as [sy|sy| |sy my ey]; try discriminate.
  - split; [now destruct sx, sy|]. now destruct sx, sy.
  - split; [reflexivity|]. cbn [SFadd].
    change (scaled (S754_zero sx)) with 0. rewrite Z.add_0_l.
    symmetry. now apply round_scaled.
  - split; [reflexivity|]. cbn [SFadd].
    change (scaled (S754_zero sy)) with 0. rewrite Z.add_0_r.
    symmetry. now apply round_scaled.
  - pose proof (valid_finite sx mx ex Hx) as (Hex & _).
    pose proof (valid_finite sy my ey Hy) as (Hey & _).
    cbn [SFadd]. cbv zeta.
    set (ez := Z.min ex ey).
    assert (Hez : -1074 <= ez) by (unfold ez; lia).
    destruct (binary_normalize_scaled
                (cond_Zopp sx (Z.pos (shl_align mx ex ez).1)
                 + cond_Zopp sy (Z.pos (shl_align my ey ez).1)) ez false Hez) as [Hn Hs].
    split; [exact Hn|]. rewrite Hs. f_equal.
    rewrite Z.mul_add_distr_r. cbn [scaled].
    pose proof (shl_align_fst mx ex ez ltac:(unfold ez; lia)) as Hax.
    pose proof (shl_align_fst my ey ez ltac:(unfold ez; lia)) as Hay.
    unfold cond_Zopp. destruct sx, sy; rewrite ?Z.mul_opp_l, Hax, Hay; reflexivity.
Qed.

(** ** The order *)

Lemma SFltb_scaled (x y : spec_float) :
  valid_binary x = true -> valid_binary y = true ->
  SFltb x y = true <->
  not_a_number x = false /\ not_a_number y = false /\ scaled x < scaled y.
Proof.
  intros Hx Hy. unfold SFltb.
  destruct (not_a_number x) eqn:Nx.
  { destruct x; try discriminate. cbn. split; [discriminate | intros [? _]; discriminate]. }
  destruct (not_a_number y) eqn:Ny.
  { destruct y; try discriminate. destruct x; cbn;
      (split; [discriminate | intros (_ & ? & _); discriminate]). }
  rewrite (SFcompare_scaled x y Hx Hy Nx Ny).
  destruct (Z.compare_spec (scaled x) (scaled y)); split; try discriminate;
    try (intros (_ & _ & ?); lia); auto.
Qed.

Lemma kinds (x : spec_float) :
  not_a_number x = true \/ (exists s, x = S754_infinity s) \/ is_number x = true.
Proof. destruct x; cbn; eauto. Qed.

Lemma SFadd_inf_result (sb : bool) (y : spec_float) :
  not_a_number (SFadd prec emax (S754_infinity sb) y) = false ->
  SFadd prec emax (S754_infinity sb) y = S754_infinity sb.
Proof. destruct y as [s|s| |s m e], sb; try destruct s; cbn; congruence. Qed.

(** If [c < b + l] and [l < l'] then [c < b + l'], in binary64 arithmetic,
    infinities and NaN included. *)
Lemma SFadd_SFltb_mono (c b l l' : spec_float) :
  valid_binary c = true -> valid_binary b = true ->
  valid_binary l = true -> valid_binary l' = true ->
  valid_binary (SFadd prec emax b l) = true ->
  valid_binary (SFadd prec emax b l') = true ->
  SFltb c (SFadd prec emax b l) = true ->
  SFltb l l' = true ->
  SFltb c (SFadd prec emax b l') = true.
Proof.
  intros Hc Hb Hl Hl' Hs Hs' Hlt Hll.
  assert (Hh : 0 < huge) by (apply pow2_pos; lia).
  apply SFltb_scaled in Hlt as (Nc & Ns & Hlt); [|assumption..].
  apply SFltb_scaled in Hll as (Nl & Nl' & Hll); [|assumption..].
  apply SFltb_scaled; [assumption..|].
  pose proof (scaled_bounds c Hc) as Bc.
  pose proof (scaled_bounds l Hl) as Bl.
  pose proof (scaled_bounds l' Hl') as Bl'.
  pose proof (scaled_bounds _ Hs) as Bs.
  destruct (kinds b) as [Nb|[[sb ->]|Kb]].
  - destruct b; discriminate.
  - (* b is an infinity *)
    rewrite (SFadd_inf_result sb l Ns) in Hlt.
    destruct sb; cbn [scaled] in Hlt; [lia|].
    assert (Hsum : SFadd prec emax (S754_infinity false) l' = S754_infinity false).
    { destruct l' as [s|s| |s m e]; try reflexivity; [|discriminate].
      destruct s; [cbn [scaled] in Hll; lia | reflexivity]. }
    rewrite Hsum. cbn [scaled not_a_number]. auto.
  - (* b is a number *)
    destruct (kinds l) as [?|[[sl ->]|Kl]]; [congruence| |].
    + (* l is an infinity *)
      destruct sl.
      * destruct b; try discriminate; cbn [SFadd scaled] in *; lia.
      * cbn [scaled] in Hll. lia.
    + destruct (kinds l') as [?|[[sl' ->]|Kl']]; [congruence| |].
      * (* l' is an infinity *)
        pose proof (number_strict_bounds l Hl Kl).
        destruct sl'; [cbn [scaled] in Hll; lia|].
        destruct b; try discriminate; cbn [SFadd scaled not_a_number];
          (split; [assumption|]); (split; [reflexivity|]); lia.
      * destruct (SFadd_scaled b l Hb Hl Kb Kl) as [_ Hval].
        destruct (SFadd_scaled b l' Hb Hl' Kb Kl') as [Hnan' Hval'].
        split; [assumption|]. split; [assumption|].
        rewrite Hval'. rewrite Hval in Hlt.
        pose proof (round_mono (scaled b + scaled l) (scaled b + scaled l') ltac:(lia)).
        lia.
Qed.

(** The same on the primitive floats. *)
Lemma float_add_ltb_mono (c b l l' : float) :
  (c <? b + l)%float = true -> (l <? l')%float = true -> (c <? b + l')%float = true.
Proof.
  rewrite !ltb_spec, !add_spec. unfold SF64add.
  apply SFadd_SFltb_mono; try apply Prim2SF_valid.
  - rewrite <- add_spec. apply Prim2SF_valid.
  - rewrite <- add_spec. apply Prim2SF_valid.
Qed.

(** * Further properties of the two scripts *)

Import Run Dialog.

(** ** Monotonicity of the threshold *)

(** X1: the threshold is monotone in the flood level, in binary64 arithmetic
    as the raster calculator evaluates it: a cell flagged at one level is
    flagged at every higher level, the base elevation held fixed. *)
Theorem flood_level_monotone (base_elevation level level' dem_value : float) (dem_path : string) :
  inundated base_elevation level dem_value dem_path = true ->
  (level <? level')%float = true ->
  inundated base_elevation level' dem_value dem_path = true.
Proof.
  rewrite !inundated_unfold. apply float_add_ltb_mono.
Qed.

Lemma flood_level_monotone_witness :
  inundated 88.86 10.0 95.0 "/data/dem/srtm.tif" = true /\
  inundated 88.86 12.5 95.0 "/data/dem/srtm.tif" = true.
Proof.
  split; [reflexivity|].
  apply (flood_level_monotone 88.86 10.0 12.5 95.0 "/data/dem/srtm.tif"); reflexivity.
Defined.





(** ** Not-a-number elevations *)

Lemma SFeqb_refl_false (x : spec_float) : SFeqb x x = false -> x = S754_nan.
Proof.
  destruct x as [s|s| |s m e]; unfold SFeqb; cbn [SFcompare]; try discriminate; try reflexivity.
  - destruct s; discriminate.
  - rewrite Z.compare_refl.
    destruct s; rewrite ?Pos.compare_cont_refl; cbn; rewrite ?Pos.compare_refl; discriminate.
Qed.

Lemma is_nan_Prim2SF (x : float) : is_nan x = true <-> Prim2SF x = S754_nan.
Proof.
  unfold is_nan. split.
  - intros H. apply negb_true_iff in H. rewrite FloatAxioms.eqb_spec in H.
    now apply SFeqb_refl_false.
  - intros H. apply negb_true_iff. rewrite FloatAxioms.eqb_spec, H. reflexivity.
Qed.

Lemma ltb_nan_l (x y : float) : is_nan x = true -> (x <? y)%float = false.
Proof. intros H. apply is_nan_Prim2SF in H. rewrite ltb_spec, H. reflexivity. Qed.

Lemma ltb_nan_r (x y : float) : is_nan y = true -> (x <? y)%float = false.
Proof.
  intros H. apply is_nan_Prim2SF in H. rewrite ltb_spec, H.
  unfold SFltb. destruct (Prim2SF x) as [s|s| |s m e]; reflexivity.
Qed.

Lemma add_nan_l (x y : float) : is_nan x = true -> is_nan (x + y) = true.
Proof.
  intros H. apply is_nan_Prim2SF in H. apply is_nan_Prim2SF.
  rewrite add_spec, H. reflexivity.
Qed.

Lemma add_nan_r (x y : float) : is_nan y = true -> is_nan (x + y) = true.
Proof.
  intros H. apply is_nan_Prim2SF in H. apply is_nan_Prim2SF.
  rewrite add_spec, H.
  unfold SF64add. destruct (Prim2SF x) as [s|s| |s m e]; reflexivity.
Qed.

(** X3: a cell whose value is not a number is never flagged, and with a base
    elevation or a level that is not a number no cell is. *)
Theorem nan_flags_nothing (base_elevation level dem_value : float) (dem_path : string) :
  is_nan base_elevation = true \/ is_nan level = true \/ is_nan dem_value = true ->
  inundated base_elevation level dem_value dem_path = false.
Proof.
  rewrite inundated_unfold. intros [H | [H | H]].
  - apply ltb_nan_r, add_nan_l, H.
  - apply ltb_nan_r, add_nan_r, H.
  - apply ltb_nan_l, H.
Qed.

Lemma nan_flags_nothing_witness :
  inundated 88.86 10.0 nan "/data/dem/srtm.tif" = false.
Proof.
  apply (nan_flags_nothing 88.86 10.0 nan "/data/dem/srtm.tif").
  right; right; reflexivity.
Defined.

Lemma not_z_type (g : QgsGeometry) :
  two_dimensional g -> bool_decide (wkbType g ∈ z_types) = false.
Proof.
  intros H2d. apply bool_decide_eq_false_2. unfold z_types.
  destruct H2d as [-> | ->]; intros H;
    repeat (apply elem_of_cons in H as [H|H]; [discriminate|]);
    inversion H.
Qed.

(** X4: the test for not-a-number guards the geometry's Z only.  With a first
    feature without Z whose first present attribute converts to a value that is
    not a number, that value is returned as the base elevation, and the
    threshold built on it flags no cell. *)
Theorem nan_attribute_is_returned (layer : QgsVectorLayer) (f : QgsFeature)
  (rest : list QgsFeature) (p : QgsPoint) (v : pyobject) (x : float) :
  features layer = f :: rest ->
  vertex (geometry f) = Some p ->
  two_dimensional (geometry f) ->
  first_present f elevation_fields = Some v ->
  py_float v = Return x ->
  is_nan x = true ->
  get_base_elevation_from_point (Some layer) = Return x /\
  (forall level dem_value dem_path, inundated x level dem_value dem_path = false).
Proof.
  intros Hf Hv H2d Hfirst Hx Hnan. split.
  - rewrite (extraction_first_feature layer f rest p Hf Hv).
    rewrite (asPoint_two_dimensional _ H2d). cbn [bind].
    rewrite (not_z_type _ H2d), probe_attributes_spec, Hfirst. exact Hx.
  - intros. rewrite inundated_unfold. apply ltb_nan_r, add_nan_l, Hnan.
Qed.

Lemma nan_attribute_is_returned_witness :
  get_base_elevation_from_point
    (Some (Examples.point_layer
             [{| geometry := Examples.at_xy Point nan;
                 attributes := [(Examples.text "elevation", PyStr " NaN ")] |}]))
  = Return nan /\
  (forall level dem_value dem_path, inundated nan level dem_value dem_path = false).
Proof.
  apply (nan_attribute_is_returned
           (Examples.point_layer
              [{| geometry := Examples.at_xy Point nan;
                  attributes := [(Examples.text "elevation", PyStr " NaN ")] |}])
           {| geometry := Examples.at_xy Point nan;
              attributes := [(Examples.text "elevation", PyStr " NaN ")] |}
           [] {| x := 641056.0; y := 162787.0; z := nan |} (PyStr " NaN ") nan).
  - reflexivity.
  - reflexivity.
  - left; reflexivity.
  - reflexivity.
  - vm_compute. reflexivity.
  - reflexivity.
Defined.

(** X5: the geometry is looked at before the attributes.  An empty geometry
    fails whatever its type and whatever the attributes hold, and a geometry
    with a Z that is not a number fails even when an elevation attribute has a
    value: there is no fallback from the geometry to the attributes. *)
Theorem geometry_errors_come_first (layer : QgsVectorLayer) (f : QgsFeature)
  (rest : list QgsFeature) :
  features layer = f :: rest ->
  (vertex (geometry f) = None ->
   get_base_elevation_from_point (Some layer) = Raise InvalidGeometryError) /\
  (forall p, vertex (geometry f) = Some p ->
     wkbType (geometry f) ∈ z_types ->
     is_nan (z p) = true ->
     get_base_elevation_from_point (Some layer) = Raise InvalidValueError).
Proof.
  intros Hf. split.
  - intros Hv. unfold get_base_elevation_from_point, featureCount.
    rewrite Hf. simpl. unfold isEmpty. rewrite Hv. reflexivity.
  - intros p Hv Hz Hnan.
    rewrite (extraction_first_feature layer f rest p Hf Hv).
    rewrite (asPoint_z_types _ Hz). cbn [bind].
    rewrite bool_decide_eq_true_2 by exact Hz.
    unfold is_nan in Hnan. rewrite Hnan. reflexivity.
Qed.

Lemma geometry_errors_come_first_witness :
  get_base_elevation_from_point
    (Some (Examples.point_layer
             [{| geometry := {| wkbType := Point; vertex := None |};
                 attributes := [(Examples.double "z", PyFloat 88.86)] |}]))
  = Raise InvalidGeometryError /\
  get_base_elevation_from_point
    (Some (Examples.point_layer
             [{| geometry := Examples.at_xy PointZ nan;
                 attributes := [(Examples.double "z", PyFloat 88.86)] |}]))
  = Raise InvalidValueError.
Proof.
  split.
  - apply (proj1 (geometry_errors_come_first
             (Examples.point_layer
                [{| geometry := {| wkbType := Point; vertex := None |};
                    attributes := [(Examples.double "z", PyFloat 88.86)] |}])
             _ [] eq_refl)).
    reflexivity.
  - apply (proj2 (geometry_errors_come_first
             (Examples.point_layer
                [{| geometry := Examples.at_xy PointZ nan;
                    attributes := [(Examples.double "z", PyFloat 88.86)] |}])
             _ [] eq_refl) {| x := 641056.0; y := 162787.0; z := nan |}).
    + reflexivity.
    + right; left.
    + reflexivity.
Defined.

Lemma py_float_errors (v : pyobject) (e : exn) :
  py_float v = Raise e ->
  (exists s, v = PyStr s /\
     e = ValueError ("could not convert string to float: " +:+ str_repr s)) \/
  ((v = PyNone \/ exists type_name, v = PyOther type_name) /\
   e = TypeError ("float() argument must be a string or a real number, not '"
                  +:+ type_name_of v +:+ "'")) \/
  (exists n, v = PyInt n /\ e = OverflowError "int too large to convert to float").
Proof.
  destruct v as [|b|n|x|s|t]; simpl; try discriminate.
  - intros H. injection H as <-. right; left. split; [now left | reflexivity].
  - unfold float_of_int. destruct (is_infinity _); [|discriminate].
    intros H. injection H as <-. eauto.
  - unfold float_of_str. destruct (parse_float s); [discriminate|].
    intros H. injection H as <-. eauto.
  - intros H. injection H as <-. right; left. split; [right; eauto | reflexivity].
Qed.

(** X6: every failure of the extraction is one of the four errors of the
    function itself, the [TypeError] of [asPoint] on a first feature whose
    geometry is not a single point, or an error of the conversion
    [float(value)] of an attribute: [ValueError] for a text, [TypeError] for
    a value that is no number and no text, [OverflowError] for an integer.
    For a layer that iterates as many features as it counts, [next] does not
    run off an empty iterator; the attribute lookup never misses its key. *)
Theorem extraction_errors (point_layer : option QgsVectorLayer) (e : exn) :
  get_base_elevation_from_point point_layer = Raise e ->
  e ∈ [EmptyInputError; InvalidGeometryError; InvalidValueError; MissingElevationError] \/
  (exists layer f rest,
     point_layer = Some layer /\ features layer = f :: rest /\
     is_single_point (wkbType (geometry f)) = false /\
     e = TypeError (displayString (wkbType (geometry f)) +:+
           " geometry cannot be converted to a point. Only Point types are permitted.")) \/
  (exists layer f rest v,
     point_layer = Some layer /\ features layer = f :: rest /\
     is_single_point (wkbType (geometry f)) = true /\
     first_present f elevation_fields = Some v /\ py_float v = Raise e /\
     ((exists s, v = PyStr s /\
         e = ValueError ("could not convert string to float: " +:+ str_repr s)) \/
      ((v = PyNone \/ exists type_name, v = PyOther type_name) /\
       e = TypeError ("float() argument must be a string or a real number, not '"
                      +:+ type_name_of v +:+ "'")) \/
      (exists n, v = PyInt n /\ e = OverflowError "int too large to convert to float"))).
Proof.
  destruct point_layer as [layer|].
  2:{ intros H. injection H as <-. left. left. }
  destruct (features layer) as [|f rest] eqn:Hf.
  { unfold get_base_elevation_from_point, featureCount. rewrite Hf.
    intros H. injection H as <-. left. left. }
  destruct (vertex (geometry f)) as [p|] eqn:Hv.
  2:{ unfold get_base_elevation_from_point, featureCount. rewrite Hf.
      cbn [length bool_decide decide_rel next bind]. unfold isEmpty. rewrite Hv.
      intros H. injection H as <-. left. right. left. }
  rewrite (extraction_first_feature layer f rest p Hf Hv).
  unfold asPoint.
  destruct (is_single_point (wkbType (geometry f))) eqn:Hsingle; cbn [bind].
  2:{ intros H. injection H as <-. right; left. exists layer, f, rest. auto. }
  destruct (bool_decide _).
  { destruct (negb _); [|discriminate].
    intros H. injection H as <-. left. do 2 right. left. }
  rewrite probe_attributes_spec.
  destruct (first_present f elevation_fields) as [v|] eqn:Hfirst.
  - intros H. do 2 right. exists layer, f, rest, v.
    repeat split; try assumption. now apply (py_float_errors v).
  - intros H. injection H as <-. left. do 3 right. left.
Qed.

Lemma extraction_errors_witness :
  (exists v,
     first_present {| geometry := Examples.at_xy Point nan;
                      attributes := [(Examples.text "elev", PyOther "QDate")] |}
       elevation_fields = Some v /\
     py_float v = Raise (TypeError
       "float() argument must be a string or a real number, not 'QDate'")) /\
  get_base_elevation_from_point
    (Some (Examples.point_layer
             [{| geometry := Examples.at_xy MultiPointZ 88.86;
                 attributes := [(Examples.double "z", PyFloat 88.86)] |}]))
  = Raise (TypeError
      "MultiPointZ geometry cannot be converted to a point. Only Point types are permitted.").
Proof.
  split; [|reflexivity].
  destruct (extraction_errors
              (Some (Examples.point_layer
                       [{| geometry := Examples.at_xy Point nan;
                           attributes := [(Examples.text "elev", PyOther "QDate")] |}]))
              (TypeError "float() argument must be a string or a real number, not 'QDate'")
              eq_refl)
    as [Hin | [(layer & f & rest & Hl & Hf & Hsingle & _) | (layer & f & rest & v & Hl & Hf & _ & Hfirst & Hpy & _)]].
  - exfalso.
    repeat (apply elem_of_cons in Hin as [Hin|Hin]; [discriminate|]).
    inversion Hin.
  - exfalso. injection Hl as <-. cbn [Examples.point_layer features] in Hf.
    injection Hf as <- <-. discriminate.
  - injection Hl as <-. cbn [Examples.point_layer features] in Hf. injection Hf as <- <-.
    exists v. split; [exact Hfirst | exact Hpy].
Defined.

Ltac run_step H :=
  cbv beta iota zeta delta [create_water_level_polygon mbind makedirs external raise ret modify
    run_rastercalc log_call run_polygonize write_shapefile open_polygon_layer fresh_id gets
    addMapLayer run_selectbylocation run_saveselectedfeatures removeMapLayer exists_
    set_files set_directories set_layers set_calls set_dialogs set_uid
    files directories layers calls dialogs uid layer_id pid pname psource polygons selected
    symbol set_selected] in H.

Lemma remove_frame (h : Host) (path : string) (w w' : World) (r : result unit) :
  remove h path w = (r, w') ->
  layers w' = layers w /\ calls w' = calls w /\
  (forall e, r = Raise e -> e = OSError path) /\
  (forall p, p <> path -> files w' !! p = files w !! p).
Proof.
  destruct w as [fs ds ls cs dl u].
  cbv beta iota zeta delta [remove mbind external raise ret modify gets set_files files].
  destruct (fails h (remove_step path)).
  - intros H. injection H as <- <-. repeat split. intros e H. now injection H as <-.
  - destruct (fs !! path).
    + intros H. injection H as <- <-. repeat split; [discriminate|].
      intros p Hp. cbn [files]. now apply lookup_delete_ne.
    + intros H. injection H as <- <-. repeat split. intros e H. now injection H as <-.
Qed.

Lemma remove_associated_frame (h : Host) (temp : string) (exts : list string)
  (w w' : World) (r : result unit) :
  remove_associated h temp exts w = (r, w') ->
  layers w' = layers w /\ calls w' = calls w /\
  (forall e, r = Raise e -> exists path, e = OSError path) /\
  (forall p, p ∉ (replace temp ".shp" <$> exts) -> files w' !! p = files w !! p).
Proof.
  revert w. induction exts as [|ext exts IH]; intros w.
  - intros H. injection H as <- <-. repeat split. discriminate.
  - cbn [remove_associated]. unfold mbind at 1. unfold exists_, gets.
    destruct (bool_decide _).
    + unfold mbind at 1.
      destruct (remove h (replace temp ".shp" ext) w) as [[[]|e1] w1] eqn:Hrm.
      * apply remove_frame in Hrm as (Hl & Hc & _ & Hf).
        intros H. apply IH in H as (Hl' & Hc' & He & Hf'). rewrite Hl', Hc'.
        repeat split; try assumption.
        intros p Hp. rewrite fmap_cons in Hp. apply not_elem_of_cons in Hp as [Hp1 Hp2].
        rewrite Hf' by assumption. now apply Hf.
      * apply remove_frame in Hrm as (Hl & Hc & He & Hf).
        intros H. injection H as <- <-. repeat split; try assumption.
        -- intros e H. injection H as <-. eauto.
        -- intros p Hp. rewrite fmap_cons in Hp. apply not_elem_of_cons in Hp as [Hp1 Hp2].
           now apply Hf.
    + unfold mbind, ret. intros H. apply IH in H as (Hl' & Hc' & He & Hf').
      repeat split; try assumption.
      intros p Hp. rewrite fmap_cons in Hp. apply not_elem_of_cons in Hp as [Hp1 Hp2].
      now apply Hf'.
Qed.

(** X7: every failing run is one of six.  The folder cannot be made: nothing
    happened.  The raster calculator or the vectorization fails: the calls up
    to that one were made and the registry is as before.  The selection or the
    save fails: the layer of unfiltered polygons stays registered.  The
    styling or the removal of a file fails: all four calls were made and the
    final layer is registered, although the run ends in an error. *)
Theorem failing_runs (h : Host) (dem_layer : QgsRasterLayer) (point_layer : QgsVectorLayer)
  (level base_elevation : float) (extent output_dir : string) (w w' : World) (e : exn) :
  create_water_level_polygon h dem_layer point_layer level base_elevation extent output_dir w
    = (Raise e, w') ->
  let tc := toolbox_calls h dem_layer point_layer level base_elevation extent output_dir w in
  (fails h makedirs_step = true /\ e = OSError (level_folder output_dir level) /\ w' = w) \/
  (fails h rastercalc_step = true /\ e = QgsProcessingException "native:rastercalc" /\
   calls w' = calls w ++ firstn 1 tc /\ layers w' = layers w /\ files w' = files w) \/
  (fails h polygonize_step = true /\ e = QgsProcessingException "gdal:polygonize" /\
   calls w' = calls w ++ firstn 2 tc /\ layers w' = layers w /\
   files w' = <[raster_output output_dir level := RasterData]> (files w)) \/
  (fails h selectbylocation_step = true /\
   e = QgsProcessingException "native:selectbylocation" /\
   calls w' = calls w ++ firstn 3 tc /\
   layers w' = <[temp_id w := PolygonLayer (temp_layer h output_dir level w)]> (layers w)) \/
  (fails h saveselectedfeatures_step = true /\
   e = QgsProcessingException "native:saveselectedfeatures" /\
   calls w' = calls w ++ tc /\
   layers w' = <[temp_id w := PolygonLayer (selected_layer h point_layer output_dir level w)]>
                 (layers w)) \/
  ((e = AttributeError "renderer" \/ exists path, e = OSError path) /\
   calls w' = calls w ++ tc /\
   exists layer,
     layers w' !! pid (result_layer h point_layer output_dir level base_elevation w)
       = Some (PolygonLayer layer) /\
     psource layer = filtered_polygon_output output_dir level /\
     polygons layer = select_intersecting h (vectorized h) point_layer).
Proof.
  intros H tc. subst tc. destruct w as [fs ds ls cs dl u].
  unfold toolbox_calls, selected_layer, temp_layer, set_selected, temp_id, result_layer.
  cbn [calls layers files uid pid pname psource polygons selected symbol firstn app].
  run_step H.
  destruct (fails h makedirs_step) eqn:F1.
  { injection H as <- <-. left. auto. }
  destruct (fails h rastercalc_step) eqn:F2.
  { injection H as <- <-. right; left. auto. }
  destruct (fails h polygonize_step) eqn:F3.
  { injection H as <- <-. do 2 right; left. cbn [calls layers files].
    rewrite <- app_assoc. auto. }
  rewrite !shapefile_files_lookup in H.
  destruct (fails h selectbylocation_step) eqn:F4.
  { injection H as <- <-. do 3 right; left. cbn [calls layers files].
    rewrite <- !app_assoc. auto. }
  destruct (fails h saveselectedfeatures_step) eqn:F5.
  { injection H as <- <-. do 4 right; left. cbn [calls layers files].
    rewrite <- !app_assoc. repeat split.
    now rewrite alter_insert_eq. }
  rewrite !shapefile_files_lookup in H.
  destruct (fails h renderer_step) eqn:F6.
  { injection H as <- <-. do 5 right. cbn [calls layers files].
    rewrite <- !app_assoc. split; [auto|]. split; [reflexivity|].
    eexists. split; [apply lookup_insert_eq|]. split; reflexivity. }
  rewrite bool_decide_eq_true_2 in H.
  2:{ left. apply shapefile_files_is_Some. rewrite shapefile_files_lookup. eauto. }
  match type of H with
  | context [remove h ?p ?w0] => destruct (remove h p w0) as [[[]|e2] w2] eqn:Hrm
  end.
  2:{ injection H as <- <-.
      apply remove_frame in Hrm as (Hl & Hc & He & _).
      do 5 right. split; [right; eexists; now apply He|]. split.
      { rewrite Hc. cbn [calls]. now rewrite <- !app_assoc. }
      eexists. split.
      { rewrite Hl. cbn [layers].
        rewrite alter_insert_eq. apply lookup_insert_eq. }
      split; reflexivity. }
  destruct (remove_associated h (temp_polygon_output output_dir level) sidecar_exts w2)
    as [[[]|e3] w3] eqn:Hra; [discriminate|].
  injection H as <- <-.
  apply remove_frame in Hrm as (Hl & Hc & _ & _).
  apply remove_associated_frame in Hra as (Hl' & Hc' & He & _).
  do 5 right. split; [right; now apply He|]. split.
  { rewrite Hc', Hc. cbn [calls]. now rewrite <- !app_assoc. }
  eexists. split.
  { rewrite Hl', Hl. cbn [layers].
    rewrite alter_insert_eq. apply lookup_insert_eq. }
  split; reflexivity.
Qed.

Lemma failing_runs_witness :
  layers (create_water_level_polygon (Examples.failing_host saveselectedfeatures_step)
            Examples.srtm (Examples.point_layer [Examples.west_mark]) 10.0 88.86
            "640000.0,643000.0,161000.0,164000.0 [EPSG:23700]" "/home/user/flood/output"
            (Examples.project (Examples.point_layer [Examples.west_mark]))).2
  = <[ "temp_polygons_0" :=
         PolygonLayer (selected_layer (Examples.failing_host saveselectedfeatures_step)
                         (Examples.point_layer [Examples.west_mark])
                         "/home/user/flood/output" 10.0
                         (Examples.project (Examples.point_layer [Examples.west_mark]))) ]>
       (layers (Examples.project (Examples.point_layer [Examples.west_mark]))).
Proof.
  destruct (failing_runs (Examples.failing_host saveselectedfeatures_step)
              Examples.srtm (Examples.point_layer [Examples.west_mark]) 10.0 88.86
              "640000.0,643000.0,161000.0,164000.0 [EPSG:23700]" "/home/user/flood/output"
              (Examples.project (Examples.point_layer [Examples.west_mark]))
              (create_water_level_polygon (Examples.failing_host saveselectedfeatures_step)
                 Examples.srtm (Examples.point_layer [Examples.west_mark]) 10.0 88.86
                 "640000.0,643000.0,161000.0,164000.0 [EPSG:23700]" "/home/user/flood/output"
                 (Examples.project (Examples.point_layer [Examples.west_mark]))).2
              (QgsProcessingException "native:saveselectedfeatures")
              ltac:(vm_compute; reflexivity))
    as [(F & _) | [(F & _) | [(F & _) | [(F & _) | [(_ & _ & _ & Hl) | ([E | [path E]] & _)]]]]];
    try discriminate F; try discriminate E.
  exact Hl.
Defined.

Lemma shapefile_files_frame (path : string) (c : Content) (exts : list string)
  (fs : gmap string Content) (p : string) :
  p <> path -> p ∉ (sidecar path <$> exts) ->
  shapefile_files path c exts fs !! p = fs !! p.
Proof.
  intros Hp Hs. unfold shapefile_files. rewrite lookup_insert_ne by congruence.
  induction exts as [|e es IH]; [reflexivity|].
  rewrite fmap_cons in Hs. apply not_elem_of_cons in Hs as [Hs1 Hs2].
  cbn [foldr]. rewrite lookup_insert_ne by congruence. now apply IH.
Qed.

(** X8: whatever the outcome of a run, a file that is not one of the paths the
    run names is as it was: the mask, the two shapefiles with the files that
    go with them, and the names the clean-up derives from the unfiltered
    shapefile's path. *)
Theorem untouched_files (h : Host) (dem_layer : QgsRasterLayer) (point_layer : QgsVectorLayer)
  (level base_elevation : float) (extent output_dir : string) (w w' : World)
  (r : result string) (p : string) :
  create_water_level_polygon h dem_layer point_layer level base_elevation extent output_dir w
    = (r, w') ->
  p ∉ touched_paths output_dir level ->
  files w' !! p = files w !! p.
Proof.
  intros H Hp. destruct w as [fs ds ls cs dl u]. cbn [files].
  unfold touched_paths in Hp.
  rewrite !not_elem_of_app in Hp. destruct Hp as (Hp1 & Hp2 & Hp3 & Hp4).
  apply not_elem_of_cons in Hp1 as [Hraster Hp1].
  apply not_elem_of_cons in Hp1 as [Htemp Hp1].
  apply not_elem_of_cons in Hp1 as [Hfiltered _].
  assert (Hpoly : shapefile_files (temp_polygon_output output_dir level)
            (PolygonData (vectorized h)) [".shx"; ".dbf"; ".prj"]
            (<[raster_output output_dir level := RasterData]> fs) !! p = fs !! p).
  { rewrite shapefile_files_frame by assumption. now apply lookup_insert_ne. }
  run_step H.
  destruct (fails h makedirs_step) eqn:F1.
  { injection H as <- <-. reflexivity. }
  destruct (fails h rastercalc_step) eqn:F2.
  { injection H as <- <-. reflexivity. }
  destruct (fails h polygonize_step) eqn:F3.
  { injection H as <- <-. cbn [files]. now apply lookup_insert_ne. }
  rewrite !shapefile_files_lookup in H.
  destruct (fails h selectbylocation_step) eqn:F4.
  { injection H as <- <-. exact Hpoly. }
  destruct (fails h saveselectedfeatures_step) eqn:F5.
  { injection H as <- <-. exact Hpoly. }
  rewrite !shapefile_files_lookup in H.
  assert (Hsaved : forall ps,
            shapefile_files (filtered_polygon_output output_dir level) (PolygonData ps)
              [".shx"; ".dbf"; ".prj"; ".cpg"]
              (shapefile_files (temp_polygon_output output_dir level)
                 (PolygonData (vectorized h)) [".shx"; ".dbf"; ".prj"]
                 (<[raster_output output_dir level := RasterData]> fs)) !! p = fs !! p).
  { intros ps. rewrite shapefile_files_frame by assumption. exact Hpoly. }
  destruct (fails h renderer_step) eqn:F6.
  { injection H as <- <-. apply Hsaved. }
  rewrite bool_decide_eq_true_2 in H.
  2:{ left. apply shapefile_files_is_Some. rewrite shapefile_files_lookup. eauto. }
  match type of H with
  | context [remove h ?p ?w0] => destruct (remove h p w0) as [[[]|e2] w2] eqn:Hrm
  end.
  2:{ injection H as <- <-.
      apply remove_frame in Hrm as (_ & _ & _ & Hf).
      rewrite Hf by assumption. apply Hsaved. }
  destruct (remove_associated h (temp_polygon_output output_dir level) sidecar_exts w2)
    as [[[]|e3] w3] eqn:Hra.
  - injection H as <- <-.
    apply remove_frame in Hrm as (_ & _ & _ & Hf).
    apply remove_associated_frame in Hra as (_ & _ & _ & Hf').
    rewrite Hf' by assumption. rewrite Hf by assumption. apply Hsaved.
  - injection H as <- <-.
    apply remove_frame in Hrm as (_ & _ & _ & Hf).
    apply remove_associated_frame in Hra as (_ & _ & _ & Hf').
    rewrite Hf' by assumption. rewrite Hf by assumption. apply Hsaved.
Qed.

Lemma untouched_files_witness :
  files (create_water_level_polygon Examples.working_host Examples.srtm
           (Examples.point_layer [Examples.west_mark]) 10.0 88.86
           "640000.0,643000.0,161000.0,164000.0 [EPSG:23700]" "/home/user/flood/output"
           (set_files (insert "/data/dem/srtm.tif" RasterData)
              (Examples.project (Examples.point_layer [Examples.west_mark])))).2
    !! "/data/dem/srtm.tif" = Some RasterData.
Proof.
  rewrite (untouched_files Examples.working_host Examples.srtm
             (Examples.point_layer [Examples.west_mark]) 10.0 88.86
             "640000.0,643000.0,161000.0,164000.0 [EPSG:23700]" "/home/user/flood/output"
             (set_files (insert "/data/dem/srtm.tif" RasterData)
                (Examples.project (Examples.point_layer [Examples.west_mark])))
             _ _ "/data/dem/srtm.tif" (surjective_pairing _)).
  - reflexivity.
  - vm_compute. intros H.
    repeat (apply elem_of_cons in H as [H|H]; [discriminate|]).
    inversion H.
Defined.

(** X9: a run that returns has made exactly four calls to the toolbox, each
    working on what the one before it wrote: the calculator writes the mask
    from the DEM's source over the given extent, the vectorization reads the
    mask, the selection works on the layer opened over the vectorization's
    output against the whole point layer, and the save writes that layer's
    selection to the path the run returns. *)
Theorem calls_of_a_run (h : Host) (dem_layer : QgsRasterLayer) (point_layer : QgsVectorLayer)
  (level base_elevation : float) (extent output_dir : string) (w w' : World) (r : string) :
  create_water_level_polygon h dem_layer point_layer level base_elevation extent output_dir w
    = (Return r, w') ->
  calls w' = calls w ++
    [ rastercalc [rsource dem_layer]
        (render (Less (Ref (referenced_layer (rsource dem_layer)) 1)
                      (Add (Num base_elevation) (Num level))))
        extent None None (raster_output output_dir level);
      polygonize (raster_output output_dir level) 1 "DN" true EmptyString
        (temp_polygon_output output_dir level);
      selectbylocation (temp_layer h output_dir level w) [0] point_layer 0;
      saveselectedfeatures
        (set_selected (select_intersecting h (vectorized h) point_layer)
           (temp_layer h output_dir level w)) r ] /\
  psource (temp_layer h output_dir level w) = temp_polygon_output output_dir level /\
  polygons (temp_layer h output_dir level w) = vectorized h.
Proof.
  intros H. split; [|split; reflexivity].
  change (Less _ _) with (expression (rsource dem_layer) base_elevation level).
  rewrite <- expression_text_render.
  destruct w as [fs ds ls cs dl u].
  unfold temp_layer, set_selected, temp_id.
  cbn [calls layers files uid pid pname psource polygons selected symbol].
  run_step H.
  destruct (fails h makedirs_step); [discriminate|].
  destruct (fails h rastercalc_step); [discriminate|].
  destruct (fails h polygonize_step); [discriminate|].
  rewrite !shapefile_files_lookup in H.
  destruct (fails h selectbylocation_step); [discriminate|].
  destruct (fails h saveselectedfeatures_step); [discriminate|].
  rewrite !shapefile_files_lookup in H.
  destruct (fails h renderer_step); [discriminate|].
  rewrite bool_decide_eq_true_2 in H.
  2:{ left. apply shapefile_files_is_Some. rewrite shapefile_files_lookup. eauto. }
  match type of H with
  | context [remove h ?p ?w0] => destruct (remove h p w0) as [[[]|e2] w2] eqn:Hrm
  end; [|discriminate].
  destruct (remove_associated h (temp_polygon_output output_dir level) sidecar_exts w2)
    as [[[]|e3] w3] eqn:Hra; [|discriminate].
  injection H as <- <-.
  apply remove_frame in Hrm as (_ & Hc & _ & _).
  apply remove_associated_frame in Hra as (_ & Hc' & _ & _).
  rewrite Hc', Hc. cbn [calls]. now rewrite <- !app_assoc.
Qed.

Lemma calls_of_a_run_witness :
  length (calls (create_water_level_polygon Examples.working_host Examples.srtm
           (Examples.point_layer [Examples.west_mark]) 10.0 88.86
           "640000.0,643000.0,161000.0,164000.0 [EPSG:23700]" "/home/user/flood/output"
           (Examples.project (Examples.point_layer [Examples.west_mark]))).2) = 4%nat.
Proof.
  rewrite (proj1 (calls_of_a_run Examples.working_host Examples.srtm
             (Examples.point_layer [Examples.west_mark]) 10.0 88.86
             "640000.0,643000.0,161000.0,164000.0 [EPSG:23700]" "/home/user/flood/output"
             (Examples.project (Examples.point_layer [Examples.west_mark]))
             (create_water_level_polygon Examples.working_host Examples.srtm
                (Examples.point_layer [Examples.west_mark]) 10.0 88.86
                "640000.0,643000.0,161000.0,164000.0 [EPSG:23700]" "/home/user/flood/output"
                (Examples.project (Examples.point_layer [Examples.west_mark]))).2
             "/home/user/flood/output/water_level_10.0m/10.0_level_polygon.shp"
             ltac:(vm_compute; reflexivity))).
  reflexivity.
Defined.

Lemma remove_associated_succeeds (h : Host) (temp : string) (exts : list string) (w : World) :
  (forall s, fails h s = false) ->
  (forall ext, ext ∈ exts -> replace temp ".shp" ext ∉ directories w) ->
  exists w', remove_associated h temp exts w = (Return tt, w').
Proof.
  intros Hok. revert w. induction exts as [|ext exts IH]; intros w Hdirs.
  - eexists. reflexivity.
  - cbn [remove_associated]. unfold mbind at 1. unfold exists_, gets.
    case_bool_decide as Hex.
    + destruct Hex as [[c Hc] | Hdir].
      2:{ exfalso. apply (Hdirs ext); [left | exact Hdir]. }
      unfold mbind at 1.
      assert (Hrm : remove h (replace temp ".shp" ext) w
                    = (Return tt, set_files (delete (replace temp ".shp" ext)) w)).
      { unfold remove, mbind, external, gets, modify, ret. rewrite Hok, Hc. reflexivity. }
      rewrite Hrm. apply IH. intros ext' Hin. cbn [set_files directories].
      apply Hdirs. now right.
    + unfold mbind, ret. apply IH. intros ext' Hin. apply Hdirs. now right.
Qed.

Lemma splitext_filtered (prefix : string) :
  splitext (prefix +:+ "_level_polygon.shp") = (prefix +:+ "_level_polygon", ".shp").
Proof.
  unfold splitext.
  pose proof (rfind_bounds "/" prefix) as Hsep.
  rewrite (rfind_app_absent "/" prefix) by reflexivity.
  rewrite (rfind_app_found "." prefix) by (vm_compute; discriminate).
  change (rfind "." "_level_polygon.shp") with 14.
  set (sep := rfind "/" prefix) in *.
  replace (Z.to_nat (Z.of_nat (String.length prefix) + 14))
    with (String.length prefix + 14)%nat by lia.
  rewrite take_app_plus, drop_app_plus.
  rewrite drop_app_le by lia.
  replace (Z.to_nat (Z.of_nat (String.length prefix) + 14 - (sep + 1)))
    with (String.length (drop (Z.to_nat (sep + 1)) prefix) + 14)%nat
    by (rewrite drop_length; lia).
  rewrite take_app_plus, all_dots_app.
  change (all_dots (take 14 "_level_polygon.shp")) with false.
  rewrite andb_false_r.
  destruct (Z.ltb_spec sep (Z.of_nat (String.length prefix) + 14)); [|lia].
  reflexivity.
Qed.

(** X10: when no external call fails and none of the names the clean-up derives
    is a directory, the run returns the path of the filtered polygons. *)
Theorem working_host_succeeds (h : Host) (dem_layer : QgsRasterLayer)
  (point_layer : QgsVectorLayer) (level base_elevation : float)
  (extent output_dir : string) (w : World) :
  (forall s, fails h s = false) ->
  (forall ext, ext ∈ sidecar_exts ->
     replace (temp_polygon_output output_dir level) ".shp" ext
       ∉ ({[ level_folder output_dir level ]} ∪ directories w : gset string)) ->
  exists w',
    create_water_level_polygon h dem_layer point_layer level base_elevation extent output_dir w
      = (Return (filtered_polygon_output output_dir level), w').
Proof.
  intros Hok Hdirs. destruct w as [fs ds ls cs dl u]. cbn [directories] in Hdirs.
  cbv beta iota zeta delta [create_water_level_polygon mbind makedirs external raise ret modify
    run_rastercalc log_call run_polygonize write_shapefile open_polygon_layer fresh_id gets
    addMapLayer run_selectbylocation run_saveselectedfeatures removeMapLayer exists_
    set_files set_directories set_layers set_calls set_dialogs set_uid
    files directories layers calls dialogs uid layer_id pid pname psource polygons selected
    symbol set_selected].
  rewrite !Hok. rewrite !shapefile_files_lookup.
  rewrite bool_decide_eq_true_2.
  2:{ left. apply shapefile_files_is_Some. rewrite shapefile_files_lookup. eauto. }
  match goal with
  | |- context [remove h ?p ?w0] =>
      assert (Hrm : remove h p w0 = (Return tt, set_files (delete p) w0))
  end.
  { unfold remove, mbind, external, gets, modify, ret. rewrite Hok. cbn [files].
    rewrite (shapefile_files_frame (filtered_polygon_output output_dir level)).
    - rewrite shapefile_files_lookup. reflexivity.
    - destruct (temp_replaced output_dir level) as (prefix & _ & -> & -> & _).
      intros H. apply append_cancel_l in H. discriminate.
    - destruct (temp_replaced output_dir level) as (prefix & _ & -> & -> & _).
      unfold sidecar. rewrite splitext_filtered. cbn [fst fmap list_fmap].
      intros H.
      repeat (apply elem_of_cons in H as [H|H];
              [rewrite append_assoc in H; apply append_cancel_l in H; discriminate|]).
      inversion H. }
  rewrite Hrm.
  match goal with
  | |- context [remove_associated h ?t ?es ?w0] =>
      destruct (remove_associated_succeeds h t es w0 Hok) as [w3 Hra]
  end.
  { exact Hdirs. }
  rewrite Hra. eauto.
Qed.

Lemma working_host_succeeds_witness :
  exists w',
    create_water_level_polygon Examples.working_host Examples.srtm
      (Examples.point_layer [Examples.west_mark]) 10.0 88.86
      "640000.0,643000.0,161000.0,164000.0 [EPSG:23700]" "/home/user/flood/output"
      (Examples.project (Examples.point_layer [Examples.west_mark]))
    = (Return (filtered_polygon_output "/home/user/flood/output" 10.0), w').
Proof.
  apply (working_host_succeeds Examples.working_host Examples.srtm
           (Examples.point_layer [Examples.west_mark]) 10.0 88.86
           "640000.0,643000.0,161000.0,164000.0 [EPSG:23700]" "/home/user/flood/output"
           (Examples.project (Examples.point_layer [Examples.west_mark]))).
  - reflexivity.
  - intros ext Hext. unfold sidecar_exts in Hext.
    repeat (apply elem_of_cons in Hext as [->|Hext]; [vm_compute; intros H; discriminate H|]).
    inversion Hext.
Defined.

(** ** The registry after a run that returns *)

(** X11: a run that returns has registered one layer, the result: it is named by
    the level and the base elevation, read from the path the run returns,
    styled with the blue fill symbol, and holds the selected polygons.  The
    layer of unfiltered polygons is no longer registered, and every other
    layer is as before. *)
Theorem successful_run_registers_one_layer (h : Host) (dem_layer : QgsRasterLayer)
  (point_layer : QgsVectorLayer) (level base_elevation : float)
  (extent output_dir : string) (w w' : World) (r : string) :
  create_water_level_polygon h dem_layer point_layer level base_elevation extent output_dir w
    = (Return r, w') ->
  exists layer,
    layers w' !! pid layer = Some (PolygonLayer layer) /\
    pname layer = "Water Level " +:+ repr level +:+ "m (Base: "
                    +:+ format_1f base_elevation +:+ "m)" /\
    psource layer = r /\
    symbol layer = Some fill_symbol /\
    polygons layer = select_intersecting h (vectorized h) point_layer /\
    layers w' !! temp_id w = None /\
    (forall id, id <> pid layer -> id <> temp_id w -> layers w' !! id = layers w !! id).
Proof.
  intros H. destruct (pipeline_success _ _ _ _ _ _ _ _ _ _ H) as (-> & _ & Hl & _).
  exists (result_layer h point_layer output_dir level base_elevation w).
  rewrite Hl. split; [apply lookup_insert_eq|].
  split; [reflexivity|]. split; [reflexivity|]. split; [reflexivity|]. split; [reflexivity|].
  split.
  - rewrite lookup_insert_ne.
    + apply lookup_delete_eq.
    + unfold result_layer, temp_id. cbn [pid]. rewrite append_cons. discriminate.
  - intros id Hid Htemp. rewrite lookup_insert_ne by congruence.
    apply lookup_delete_ne. unfold temp_id in Htemp. congruence.
Qed.

Lemma successful_run_registers_one_layer_witness :
  exists layer,
    layers (create_water_level_polygon Examples.working_host Examples.srtm
              (Examples.point_layer [Examples.west_mark]) 10.0 88.86
              "640000.0,643000.0,161000.0,164000.0 [EPSG:23700]" "/home/user/flood/output"
              (Examples.project (Examples.point_layer [Examples.west_mark]))).2
      !! pid layer = Some (PolygonLayer layer) /\
    pname layer = "Water Level 10.0m (Base: 88.9m)" /\
    symbol layer = Some fill_symbol.
Proof.
  destruct (successful_run_registers_one_layer Examples.working_host Examples.srtm
              (Examples.point_layer [Examples.west_mark]) 10.0 88.86
              "640000.0,643000.0,161000.0,164000.0 [EPSG:23700]" "/home/user/flood/output"
              (Examples.project (Examples.point_layer [Examples.west_mark]))
              (create_water_level_polygon Examples.working_host Examples.srtm
                 (Examples.point_layer [Examples.west_mark]) 10.0 88.86
                 "640000.0,643000.0,161000.0,164000.0 [EPSG:23700]" "/home/user/flood/output"
                 (Examples.project (Examples.point_layer [Examples.west_mark]))).2
              "/home/user/flood/output/water_level_10.0m/10.0_level_polygon.shp"
              ltac:(vm_compute; reflexivity))
    as (layer & Hreg & Hname & _ & Hsym & _).
  exists layer. split; [exact Hreg|]. split; [|exact Hsym].
  rewrite Hname. vm_compute. reflexivity.
Defined.

(** ** Where the output goes *)

Lemma digits_of_Z_head (n : Z) :
  exists c s, digits_of_Z n = String c s /\ Ascii.eqb "/" c = false.
Proof.
  unfold digits_of_Z, DecimalString.NilZero.string_of_uint.
  destruct (N.to_uint (Z.to_N n)); simpl; eauto.
Qed.

Lemma layout_head (c : ascii) (s : string) (decpt : Z) :
  Ascii.eqb "/" c = false ->
  exists c' s', layout (String c s) decpt = String c' s' /\ Ascii.eqb "/" c' = false.
Proof.
  intros Hc. unfold layout.
  destruct ((decpt <=? -4) || (16 <? decpt)).
  { destruct s; rewrite !append_cons; eauto. }
  destruct (Z.leb_spec decpt 0).
  { rewrite append_cons. eauto. }
  destruct (decpt <? _).
  - destruct (Z.to_nat decpt) as [|k] eqn:Hk; [lia|].
    cbn [String.substring]. rewrite append_cons. eauto.
  - rewrite append_cons. eauto.
Qed.

Lemma repr_head (x : float) :
  exists c s, repr x = String c s /\ Ascii.eqb "/" c = false.
Proof.
  unfold repr. destruct (Prim2SF x) as [neg|neg| |neg m e].
  - destruct neg; cbn; eauto.
  - destruct neg; cbn; eauto.
  - eauto.
  - destruct (shortest _ _ _ _ _) as [d k]. destruct (strip_zeros _ _ _) as [d' k'].
    destruct (digits_of_Z_head d') as (c & s & -> & Hc).
    destruct (layout_head c s (Z.of_nat (String.length (String c s)) + k') Hc)
      as (c' & s' & -> & Hc').
    destruct neg; cbn [sign_text]; rewrite ?append_cons, ?append_nil_l; eauto.
Qed.

Lemma endswith_last (s : string) (c : ascii) :
  Ascii.eqb c "/" = false -> endswith (s +:+ String c EmptyString) "/" = false.
Proof.
  intros Hc. induction s as [|x s IH].
  - rewrite append_nil_l. cbn [endswith String.eqb]. rewrite Hc. reflexivity.
  - rewrite append_cons. cbn [endswith]. rewrite IH, orb_false_r.
    cbn [String.eqb]. destruct (Ascii.eqb x "/"); [|reflexivity].
    destruct s; [reflexivity|]. now rewrite append_cons.
Qed.

Lemma join_plain (a : string) (x : ascii) (c : ascii) (s : string) :
  Ascii.eqb x "/" = false -> Ascii.eqb "/" c = false ->
  join (a +:+ String x EmptyString) (String c s)
  = (a +:+ String x EmptyString) +:+ "/" +:+ String c s.
Proof.
  intros Hx Hc. unfold join, startswith. cbn [strip_prefix]. rewrite Hc.
  rewrite bool_decide_eq_false_2 by (intros [? ?]; discriminate).
  rewrite (endswith_last a x Hx), orb_false_r.
  destruct (String.eqb_spec (a +:+ String x EmptyString) EmptyString) as [E|_]; [|reflexivity].
  destruct a; discriminate E.
Qed.

Lemma path_div_child (p : string) (child : string) :
  exists pre, path_div p child = pre +:+ child.
Proof.
  unfold path_div.
  set (root := if _ && _ then _ else _).
  generalize (filter (fun part => part <> EmptyString /\ part <> ".") (split_slash p)).
  intros parts.
  assert (H : exists pre, foldr (fun part rest => part +:+ "/" +:+ rest) child parts
                          = pre +:+ child).
  { induction parts as [|part parts [pre IH]].
    - exists EmptyString. reflexivity.
    - cbn [foldr]. rewrite IH. exists (part +:+ "/" +:+ pre). now rewrite !append_assoc. }
  destruct H as [pre ->]. exists (root +:+ pre). now rewrite append_assoc.
Qed.

(** X12: the output goes to the folder [output/water_level_<level>m] under the
    project's home, the files named by the level, the level written as
    Python's [repr] writes it.  For a project that has not been saved, whose
    home is the empty string, the folder is the relative path [output/...]. *)
Theorem output_location (home : string) (level : float) :
  let output_dir := path_div home "output" in
  level_folder output_dir level = output_dir +:+ "/water_level_" +:+ repr level +:+ "m" /\
  raster_output output_dir level
    = level_folder output_dir level +:+ "/" +:+ repr level +:+ "_level.tif" /\
  temp_polygon_output output_dir level
    = level_folder output_dir level +:+ "/" +:+ repr level +:+ "_level_polygon_temp.shp" /\
  filtered_polygon_output output_dir level
    = level_folder output_dir level +:+ "/" +:+ repr level +:+ "_level_polygon.shp" /\
  (exists parent, output_dir = parent +:+ "output") /\
  path_div EmptyString "output" = "output".
Proof.
  intros output_dir.
  destruct (path_div_child home "output") as [parent Hparent]. fold output_dir in Hparent.
  destruct (repr_head level) as (c & s & Hrepr & Hc).
  assert (Hfolder : level_folder output_dir level
                    = output_dir +:+ "/water_level_" +:+ repr level +:+ "m").
  { unfold level_folder. rewrite Hparent.
    change "output" with ("outpu" +:+ "t"). rewrite <- (append_assoc parent).
    change ("water_level_" +:+ repr level +:+ "m")
      with (String "w" ("ater_level_" +:+ repr level +:+ "m")).
    rewrite join_plain by reflexivity. reflexivity. }
  assert (Hjoin : forall name,
            join (level_folder output_dir level) (repr level +:+ name)
            = level_folder output_dir level +:+ "/" +:+ repr level +:+ name).
  { intros name. rewrite Hfolder, Hrepr, (append_cons c s name).
    replace (output_dir +:+ "/water_level_" +:+ String c s +:+ "m")
      with ((output_dir +:+ "/water_level_" +:+ String c s) +:+ "m")
      by now rewrite !append_assoc.
    now rewrite join_plain. }
  split; [exact Hfolder|].
  split; [apply Hjoin|]. split; [apply Hjoin|]. split; [apply Hjoin|].
  split; [eauto | reflexivity].
Qed.

(** ** The scripts and their dialogs *)

(** X13: cancelling either form leaves the project, the files, the calls and
    the dialogs as they were.  The point creator then ends normally; the flood
    script ends by [exit()], whose [SystemExit] is no [Exception] and passes
    both handlers. *)
Theorem cancelled_forms_change_nothing :
  (forall h form w, Level.accepted form = false ->
     Level.script h form w = (Raise SystemExit, w)) /\
  (forall h form w, AddPoint.accepted form = false ->
     AddPoint.script h form w = (Return None, w)) /\
  is_Exception SystemExit = false.
Proof.
  split; [|split; [|reflexivity]]; intros h form w Hc.
  - unfold Level.script, try_except, mbind, lift, Level.get_user_inputs. now rewrite Hc.
  - unfold AddPoint.script, try_except, mbind, lift, AddPoint.get_user_inputs. now rewrite Hc.
Qed.

Lemma cancelled_forms_change_nothing_witness :
  Level.script Examples.working_host
    {| Level.accepted := false; dem_combo := Some Examples.srtm;
       point_combo := Some (Examples.point_layer [Examples.west_mark]);
       level_spinbox := 10.0; canvas_radio := true; extent_input := EmptyString |}
    Examples.empty_world = (Raise SystemExit, Examples.empty_world) /\
  AddPoint.script Examples.working_host
    {| AddPoint.accepted := false; AddPoint.name_input := "measurement_point";
       AddPoint.x_spinbox := 641056.0; AddPoint.y_spinbox := 162787.0;
       AddPoint.z_spinbox := 88.86; AddPoint.output_file_path := None |}
    Examples.empty_world = (Return None, Examples.empty_world).
Proof.
  split.
  - apply (proj1 cancelled_forms_change_nothing). reflexivity.
  - apply (proj1 (proj2 cancelled_forms_change_nothing)). reflexivity.
Defined.

Lemma get_values_errors (h : Host) (form : Level.Form) (e : exn) :
  Level.get_values h form = Raise e ->
  e = ValueError "No DEM layer selected" \/
  e = ValueError "No point layer selected" \/
  e = ValueError "Custom extent cannot be empty" \/
  (exists layer, point_combo form = Some layer /\
     get_base_elevation_from_point (Some layer) = Raise e).
Proof.
  unfold Level.get_values.
  destruct (dem_combo form) as [d|]; [|intros H; injection H as <-; auto].
  destruct (point_combo form) as [p|]; [|intros H; injection H as <-; auto].
  destruct (get_base_elevation_from_point (Some p)) as [b|e'] eqn:Hb.
  - cbn [bind]. destruct (canvas_radio form).
    + destruct (canvas_extent h) as [[[xmin xmax] ymin] ymax]. discriminate.
    + destruct (String.eqb _ _); [|discriminate].
      intros H; injection H as <-; auto.
  - cbn [bind]. intros H; injection H as <-. do 3 right. eauto.
Qed.

Lemma extraction_error_kinds (point_layer : option QgsVectorLayer) (e : exn) :
  get_base_elevation_from_point point_layer = Raise e ->
  (exists msg, e = ValueError msg) \/ (exists msg, e = TypeError msg) \/
  (exists msg, e = OverflowError msg).
Proof.
  destruct point_layer as [layer|].
  2:{ intros H. injection H as <-. left; eexists; reflexivity. }
  destruct (features layer) as [|f rest] eqn:Hf.
  { unfold get_base_elevation_from_point, featureCount. rewrite Hf.
    intros H. injection H as <-. left; eexists; reflexivity. }
  destruct (vertex (geometry f)) as [p|] eqn:Hv.
  2:{ unfold get_base_elevation_from_point, featureCount. rewrite Hf.
      cbn [length bool_decide decide_rel next bind]. unfold isEmpty. rewrite Hv.
      intros H. injection H as <-. left; eexists; reflexivity. }
  rewrite (extraction_first_feature layer f rest p Hf Hv).
  unfold asPoint.
  destruct (is_single_point (wkbType (geometry f))); cbn [bind].
  2:{ intros H. injection H as <-. right; left; eauto. }
  destruct (bool_decide _).
  { destruct (negb _); [|discriminate].
    intros H. injection H as <-. left; eexists; reflexivity. }
  rewrite probe_attributes_spec.
  destruct (first_present f elevation_fields) as [v|].
  - intros H.
    destruct (py_float_errors v e H) as [(s0 & _ & ->) | [(_ & ->) | (n & _ & ->)]]; eauto.
  - intros H. injection H as <-. left; eexists; reflexivity.
Qed.

Lemma script_on_rejected_input (h : Host) (form : Level.Form) (w : World) (e : exn) :
  Level.accepted form = true ->
  Level.get_values h form = Raise e ->
  Level.script h form w = (Return tt, (report e w).2).
Proof.
  intros Hacc Hval.
  assert (Hexn : is_Exception e = true).
  { apply get_values_errors in Hval as [-> | [-> | [-> | (layer & _ & Hex)]]];
      try reflexivity.
    apply extraction_error_kinds in Hex as [[msg ->] | [[msg ->] | [msg ->]]]; reflexivity. }
  unfold Level.script, try_except, mbind, lift, Level.get_user_inputs.
  rewrite Hacc, Hval. cbn [bind]. rewrite Hexn.
  unfold report, modify. now destruct (is_ValueError e).
Qed.

(** X14: when the form is accepted and its values are rejected, the script makes
    no call, writes no file and registers no layer; it shows one dialog.  The
    dialog is the warning "Input Error" for every [ValueError]: the errors the
    form and the extraction raise themselves, and a text that [float] cannot
    read.  A first feature that is no single point, an attribute of a type
    [float] does not take, or an integer too large for a float, raise a
    [TypeError] or an [OverflowError], and the dialog is the critical
    "Unexpected Error" instead. *)
Theorem rejected_input_is_reported (h : Host) (form : Level.Form) (w : World) (e : exn) :
  Level.accepted form = true ->
  Level.get_values h form = Raise e ->
  ((exists msg, e = ValueError msg) /\
   Level.script h form w
   = (Return tt, set_dialogs (fun ds => ds ++ [(warning, "Input Error", exn_text e)]) w)) \/
  (((exists msg, e = TypeError msg) \/ (exists msg, e = OverflowError msg)) /\
   (exists layer, point_combo form = Some layer /\
      get_base_elevation_from_point (Some layer) = Raise e) /\
   Level.script h form w
   = (Return tt, set_dialogs (fun ds => ds ++ [(critical, "Unexpected Error",
                                                "An error occurred: " +:+ exn_text e)]) w)).
Proof.
  intros Hacc Hval.
  rewrite (script_on_rejected_input h form w e Hacc Hval).
  assert (Hkind : (exists msg, e = ValueError msg) \/
                  (((exists msg, e = TypeError msg) \/ (exists msg, e = OverflowError msg)) /\
                   exists layer, point_combo form = Some layer /\
                     get_base_elevation_from_point (Some layer) = Raise e)).
  { apply get_values_errors in Hval as [-> | [-> | [-> | (layer & Hcombo & Hex)]]];
      [left; eauto | left; eauto | left; eauto |].
    (* the extraction *)
    destruct (extraction_error_kinds _ _ Hex) as [Hv | [Ht | Ho]]; [now left | |].
    - right. split; [now left | eauto].
    - right. split; [now right | eauto]. }
  destruct Hkind as [[msg ->] | [Hother Hhere]].
  - left. split; [eauto|]. reflexivity.
  - right. split; [exact Hother|]. split; [exact Hhere|]. unfold report.
    destruct Hother as [[msg ->] | [msg ->]]; reflexivity.
Qed.

Lemma rejected_input_is_reported_witness :
  Level.script Examples.working_host
    (Examples.flood_form (Examples.point_layer [])) Examples.empty_world
  = (Return tt,
     set_dialogs (fun ds => ds ++ [(warning, "Input Error", "Point layer is empty or invalid")])
       Examples.empty_world).
Proof.
  destruct (rejected_input_is_reported Examples.working_host
              (Examples.flood_form (Examples.point_layer [])) Examples.empty_world
              (ValueError "Point layer is empty or invalid") eq_refl eq_refl)
    as [[_ H] | [[[msg E] | [msg E]] _]]; [exact H | discriminate E | discriminate E].
Defined.

Lemma remove_dialogs (h : Host) (path : string) (w w' : World) (r : result unit) :
  remove h path w = (r, w') -> dialogs w' = dialogs w.
Proof.
  destruct w as [fs ds ls cs dl u].
  cbv beta iota zeta delta [remove mbind external raise ret modify gets set_files files].
  destruct (fails h (remove_step path)).
  - intros H. now injection H as <- <-.
  - destruct (fs !! path); intros H; now injection H as <- <-.
Qed.

Lemma remove_associated_dialogs (h : Host) (temp : string) (exts : list string)
  (w w' : World) (r : result unit) :
  remove_associated h temp exts w = (r, w') -> dialogs w' = dialogs w.
Proof.
  revert w. induction exts as [|ext exts IH]; intros w.
  - intros H. now injection H as <- <-.
  - cbn [remove_associated]. unfold mbind at 1. unfold exists_, gets.
    destruct (bool_decide _).
    + unfold mbind at 1.
      destruct (remove h (replace temp ".shp" ext) w) as [[[]|e1] w1] eqn:Hrm.
      * apply remove_dialogs in Hrm. intros H. apply IH in H. congruence.
      * apply remove_dialogs in Hrm. intros H. injection H as <- <-. exact Hrm.
    + unfold mbind, ret. apply IH.
Qed.

Lemma run_errors (h : Host) (dem_layer : QgsRasterLayer) (point_layer : QgsVectorLayer)
  (level base_elevation : float) (extent output_dir : string) (w w' : World)
  (r : result string) :
  create_water_level_polygon h dem_layer point_layer level base_elevation extent output_dir w
    = (r, w') ->
  dialogs w' = dialogs w /\
  (forall e, r = Raise e -> is_ValueError e = false /\ is_Exception e = true).
Proof.
  intros H. destruct w as [fs ds ls cs dl u]. cbn [dialogs].
  run_step H.
  destruct (fails h makedirs_step).
  { injection H as <- <-. split; [reflexivity|]. intros e E. injection E as <-. now split. }
  destruct (fails h rastercalc_step).
  { injection H as <- <-. split; [reflexivity|]. intros e E. injection E as <-. now split. }
  destruct (fails h polygonize_step).
  { injection H as <- <-. split; [reflexivity|]. intros e E. injection E as <-. now split. }
  rewrite !shapefile_files_lookup in H.
  destruct (fails h selectbylocation_step).
  { injection H as <- <-. split; [reflexivity|]. intros e E. injection E as <-. now split. }
  destruct (fails h saveselectedfeatures_step).
  { injection H as <- <-. split; [reflexivity|]. intros e E. injection E as <-. now split. }
  rewrite !shapefile_files_lookup in H.
  destruct (fails h renderer_step).
  { injection H as <- <-. split; [reflexivity|]. intros e E. injection E as <-. now split. }
  rewrite bool_decide_eq_true_2 in H.
  2:{ left. apply shapefile_files_is_Some. rewrite shapefile_files_lookup. eauto. }
  match type of H with
  | context [remove h ?p ?w0] => destruct (remove h p w0) as [[[]|e2] w2] eqn:Hrm
  end.
  2:{ injection H as <- <-. pose proof (remove_dialogs _ _ _ _ _ Hrm) as Hd.
      apply remove_frame in Hrm as (_ & _ & He & _).
      split; [exact Hd|]. intros e E. injection E as <-. now rewrite (He _ eq_refl). }
  destruct (remove_associated h (temp_polygon_output output_dir level) sidecar_exts w2)
    as [[[]|e3] w3] eqn:Hra.
  - injection H as <- <-. apply remove_dialogs in Hrm. apply remove_associated_dialogs in Hra.
    cbn [dialogs] in Hrm. split; [congruence | discriminate].
  - injection H as <- <-. apply remove_dialogs in Hrm. cbn [dialogs] in Hrm.
    pose proof (remove_associated_dialogs _ _ _ _ _ _ Hra) as Hd.
    apply remove_associated_frame in Hra as (_ & _ & He & _).
    split; [congruence|]. intros e E. injection E as <-.
    destruct (He _ eq_refl) as [path ->]. now split.
Qed.

(** X15: with accepted values the script ends normally whatever the run does.  A
    run that returns is not reported in any dialog; a run that fails is
    reported in one critical dialog, never as an input error, and what the run
    had written and registered up to the failure is left as it is. *)
Theorem run_outcome_is_reported (h : Host) (form : Level.Form) (w : World)
  (dem_layer : QgsRasterLayer) (point_layer : QgsVectorLayer)
  (base_elevation level : float) (extent : string) :
  Level.accepted form = true ->
  Level.get_values h form = Return (dem_layer, point_layer, base_elevation, level, extent) ->
  forall r w',
    create_water_level_polygon h dem_layer point_layer level base_elevation extent
      (path_div (homePath h) "output") w = (r, w') ->
    dialogs w' = dialogs w /\
    Level.script h form w
    = (Return tt,
       match r with
       | Return _ => w'
       | Raise e =>
           set_dialogs (fun ds => ds ++ [(critical, "Unexpected Error",
                                          "An error occurred: " +:+ exn_text e)]) w'
       end).
Proof.
  intros Hacc Hval r w' Hrun.
  destruct (run_errors _ _ _ _ _ _ _ _ _ _ Hrun) as [Hd He].
  split; [exact Hd|].
  unfold Level.script, try_except, mbind, lift, Level.get_user_inputs.
  rewrite Hacc, Hval. cbn [bind]. rewrite Hrun.
  destruct r as [path|e]; [reflexivity|].
  destruct (He e eq_refl) as [Hv Hexn].
  rewrite Hexn. unfold report. rewrite Hv. reflexivity.
Qed.

Lemma run_outcome_is_reported_witness :
  dialogs (Level.script (Examples.failing_host polygonize_step)
             (Examples.flood_form (Examples.point_layer [Examples.west_mark]))
             (Examples.project (Examples.point_layer [Examples.west_mark]))).2
  = [(critical, "Unexpected Error", "An error occurred: gdal:polygonize")].
Proof.
  destruct (run_outcome_is_reported (Examples.failing_host polygonize_step)
              (Examples.flood_form (Examples.point_layer [Examples.west_mark]))
              (Examples.project (Examples.point_layer [Examples.west_mark]))
              Examples.srtm (Examples.point_layer [Examples.west_mark]) 88.86 10.0
              "640000.0,643000.0,161000.0,164000.0 [EPSG:23700]"
              eq_refl ltac:(vm_compute; reflexivity)
              (Raise (QgsProcessingException "gdal:polygonize"))
              _ (surjective_pairing _)) as [Hd Hs].
  rewrite Hs. cbn [snd set_dialogs dialogs]. rewrite Hd. reflexivity.
Defined.

(** ** The reference point of the extraction and of the filter *)

(** The calls of a run, whatever its outcome, are the first of the four. *)
Lemma calls_of_any_run (h : Host) (dem_layer : QgsRasterLayer) (point_layer : QgsVectorLayer)
  (level base_elevation : float) (extent output_dir : string) (w w' : World)
  (r : result string) :
  create_water_level_polygon h dem_layer point_layer level base_elevation extent output_dir w
    = (r, w') ->
  exists n,
    calls w' = calls w ++
      firstn n (toolbox_calls h dem_layer point_layer level base_elevation extent output_dir w).
Proof.
  intros H. destruct w as [fs ds ls cs dl u].
  unfold toolbox_calls, selected_layer, temp_layer, set_selected, temp_id.
  cbn [calls layers files uid pid pname psource polygons selected symbol].
  run_step H.
  destruct (fails h makedirs_step).
  { injection H as <- <-. exists 0%nat. cbn [firstn calls]. now rewrite app_nil_r. }
  destruct (fails h rastercalc_step).
  { injection H as <- <-. exists 1%nat. reflexivity. }
  destruct (fails h polygonize_step).
  { injection H as <- <-. exists 2%nat. cbn [firstn calls]. now rewrite <- app_assoc. }
  rewrite !shapefile_files_lookup in H.
  destruct (fails h selectbylocation_step).
  { injection H as <- <-. exists 3%nat. cbn [firstn calls]. now rewrite <- !app_assoc. }
  destruct (fails h saveselectedfeatures_step).
  { injection H as <- <-. exists 4%nat. cbn [firstn calls]. now rewrite <- !app_assoc. }
  rewrite !shapefile_files_lookup in H.
  destruct (fails h renderer_step).
  { injection H as <- <-. exists 4%nat. cbn [firstn calls]. now rewrite <- !app_assoc. }
  rewrite bool_decide_eq_true_2 in H.
  2:{ left. apply shapefile_files_is_Some. rewrite shapefile_files_lookup. eauto. }
  match type of H with
  | context [remove h ?p ?w0] => destruct (remove h p w0) as [[[]|e2] w2] eqn:Hrm
  end.
  2:{ injection H as <- <-. apply remove_frame in Hrm as (_ & Hc & _).
      exists 4%nat. rewrite Hc. cbn [firstn calls]. now rewrite <- !app_assoc. }
  apply remove_frame in Hrm as (_ & Hc & _).
  destruct (remove_associated h (temp_polygon_output output_dir level) sidecar_exts w2)
    as [[[]|e3] w3] eqn:Hra;
    injection H as <- <-; apply remove_associated_frame in Hra as (_ & Hc' & _);
    exists 4%nat; rewrite Hc', Hc; cbn [firstn calls]; now rewrite <- !app_assoc.
Qed.

Lemma extraction_depends_on_first (l1 l2 : QgsVectorLayer) (f : QgsFeature)
  (r1 r2 : list QgsFeature) :
  features l1 = f :: r1 -> features l2 = f :: r2 ->
  get_base_elevation_from_point (Some l1) = get_base_elevation_from_point (Some l2).
Proof.
  intros H1 H2. unfold get_base_elevation_from_point, featureCount.
  rewrite H1, H2. reflexivity.
Qed.

(** C4, as the code has it: in every invocation, whatever its outcome, the
    base elevation is read from the first feature of the selected point
    dataset alone, and every selection by location the invocation asks for is
    given the whole dataset, with the predicate "intersects"; the layer a run
    that returns registers holds the polygons that meet any of its features.
    The first feature is always among the filter's reference points, and it
    is the only one exactly when the dataset has one feature. *)
Theorem reference_points (h : Host) (form : Level.Form) (dem_layer : QgsRasterLayer)
  (point_layer : QgsVectorLayer) (base_elevation level : float)
  (extent output_dir : string) (w w' : World) (r : result string) :
  get_values h form = Return (dem_layer, point_layer, base_elevation, level, extent) ->
  create_water_level_polygon h dem_layer point_layer level base_elevation extent output_dir w
    = (r, w') ->
  (exists f rest,
     features point_layer = f :: rest /\
     (forall others,
        get_base_elevation_from_point (Some (with_features point_layer (f :: others)))
        = Return base_elevation) /\
     geometry f ∈ filter_references point_layer /\
     (filter_references point_layer = [geometry f] <-> rest = [])) /\
  (exists made,
     calls w' = calls w ++ made /\
     forall INPUT PREDICATE INTERSECT METHOD,
       selectbylocation INPUT PREDICATE INTERSECT METHOD ∈ made ->
       PREDICATE = [0] /\ INTERSECT = point_layer) /\
  (forall path, r = Return path ->
     exists layer,
       layers w' !! pid layer = Some (PolygonLayer layer) /\
       psource layer = path /\
       polygons layer
       = filter (fun poly => Exists (fun g => intersects h poly g = true)
                                    (filter_references point_layer))
                (vectorized h)).
Proof.
  intros Hvalues Hrun.
  apply get_values_inv in Hvalues as (_ & _ & Hbase & _).
  split; [|split].
  - destruct (features point_layer) as [|f rest] eqn:Hf.
    + unfold get_base_elevation_from_point, featureCount in Hbase.
      rewrite Hf in Hbase. discriminate.
    + exists f, rest. split; [reflexivity|]. split; [|split].
      * intros others. rewrite <- Hbase.
        apply (extraction_depends_on_first _ _ f others rest); [reflexivity | exact Hf].
      * unfold filter_references. rewrite Hf. left.
      * unfold filter_references. rewrite Hf, fmap_cons. split.
        -- intros H. injection H as H. now apply fmap_nil_inv in H.
        -- now intros ->.
  - destruct (calls_of_any_run _ _ _ _ _ _ _ _ _ _ Hrun) as [n Hcalls].
    eexists. split; [exact Hcalls|].
    intros INPUT PREDICATE INTERSECT METHOD Hin.
    apply subseteq_take in Hin.
    unfold toolbox_calls in Hin.
    repeat (apply elem_of_cons in Hin as [Hin|Hin]; [try discriminate Hin|]).
    + injection Hin as _ -> -> _. auto.
    + inversion Hin.
  - intros path ->.
    destruct (pipeline_success _ _ _ _ _ _ _ _ _ _ Hrun) as (Hr & _ & Hlayers & _).
    exists (result_layer h point_layer output_dir level base_elevation w).
    split; [|split].
    + rewrite Hlayers. apply lookup_insert_eq.
    + now rewrite Hr.
    + unfold result_layer, select_intersecting, filter_references. cbn [polygons].
      apply list_filter_iff. intros poly. now rewrite Exists_fmap.
Qed.

Lemma reference_points_witness :
  (exists layer,
     layers (create_water_level_polygon Examples.working_host Examples.srtm
               (Examples.point_layer [Examples.west_mark]) 10.0 88.86
               "640000.0,643000.0,161000.0,164000.0 [EPSG:23700]" "/home/user/flood/output"
               (Examples.project (Examples.point_layer [Examples.west_mark]))).2
       !! pid layer = Some (PolygonLayer layer) /\
     psource layer = "/home/user/flood/output/water_level_10.0m/10.0_level_polygon.shp" /\
     polygons layer = [Examples.west_basin]) /\
  filter_references (Examples.point_layer [Examples.west_mark])
  = [geometry Examples.west_mark].
Proof.
  destruct (reference_points Examples.working_host
              (Examples.flood_form (Examples.point_layer [Examples.west_mark]))
              Examples.srtm (Examples.point_layer [Examples.west_mark]) 88.86 10.0
              "640000.0,643000.0,161000.0,164000.0 [EPSG:23700]" "/home/user/flood/output"
              (Examples.project (Examples.point_layer [Examples.west_mark]))
              (create_water_level_polygon Examples.working_host Examples.srtm
                 (Examples.point_layer [Examples.west_mark]) 10.0 88.86
                 "640000.0,643000.0,161000.0,164000.0 [EPSG:23700]" "/home/user/flood/output"
                 (Examples.project (Examples.point_layer [Examples.west_mark]))).2
              (Return "/home/user/flood/output/water_level_10.0m/10.0_level_polygon.shp")
              ltac:(vm_compute; reflexivity) ltac:(vm_compute; reflexivity))
    as ((f & rest & Hf & _ & _ & Honly) & _ & Hreg).
  split.
  - destruct (Hreg _ eq_refl) as (layer & Hl & Hsrc & Hpoly).
    exists layer. split; [exact Hl|]. split; [exact Hsrc|].
    rewrite Hpoly. vm_compute. reflexivity.
  - cbn [Examples.point_layer features] in Hf. injection Hf as <- <-.
    now apply Honly.
Defined.

(** C4 as stated fails: with two marks in the dataset the base elevation is
    that of the first (west) mark, and the registered layer also holds the
    east basin, which the first mark does not meet. *)
Lemma filter_uses_every_point :
  get_values Examples.working_host
    (Examples.flood_form (Examples.point_layer [Examples.west_mark; Examples.east_mark]))
  = Return (Examples.srtm, Examples.point_layer [Examples.west_mark; Examples.east_mark],
            88.86%float, 10.0%float, "640000.0,643000.0,161000.0,164000.0 [EPSG:23700]") /\
  polygons <$> (layers (Level.script Examples.working_host
       (Examples.flood_form (Examples.point_layer [Examples.west_mark; Examples.east_mark]))
       (Examples.project (Examples.point_layer [Examples.west_mark; Examples.east_mark]))).2
     !! "Water Level 10.0m (Base: 88.9m)_1" ≫= (fun l => match l with PolygonLayer p => Some p | _ => None end))
  = Some [Examples.west_basin; Examples.east_basin] /\
  intersects Examples.working_host Examples.east_basin (geometry Examples.west_mark) = false.
Proof. repeat split; vm_compute; reflexivity. Qed.

(** ** The flood level and the flagged cells *)

(** C5: raising the flood level never takes a cell out of the mask.  At any
    cell, for the text the program hands to the calculator at either level, a
    cell flagged at a level is flagged at every higher level, the base
    elevation held fixed. *)
Theorem inundated_region_grows (cell : string -> Z -> option float) (dem_path : string)
  (base_elevation level level' : float) :
  plain_name (dem_name dem_path) = true ->
  reads_back base_elevation -> reads_back level -> reads_back level' ->
  (level <? level')%float = true ->
  flagged cell dem_path base_elevation level = true ->
  flagged cell dem_path base_elevation level' = true.
Proof.
  intros Hplain Hbase Hlevel Hlevel' Hlt. unfold flagged.
  rewrite !mask_value_text by assumption.
  destruct (cell (dem_name dem_path +:+ ".tif") 1) as [v|]; [|discriminate].
  rewrite !bind_Some, !is_set_flag. intros Hflag.
  now apply (float_add_ltb_mono v base_elevation level level').
Qed.

Lemma inundated_region_grows_witness :
  flagged (Examples.known_as "srtm.tif" 95.0) "/data/dem/srtm.tif" 88.86 10.0 = true /\
  flagged (Examples.known_as "srtm.tif" 95.0) "/data/dem/srtm.tif" 88.86 12.5 = true.
Proof.
  split; [vm_compute; reflexivity|].
  apply (inundated_region_grows (Examples.known_as "srtm.tif" 95.0) "/data/dem/srtm.tif"
           88.86%float 10.0%float 12.5%float).
  - reflexivity.
  - intros rest [r [-> | ->]]; vm_compute; reflexivity.
  - intros rest [r [-> | ->]]; vm_compute; reflexivity.
  - intros rest [r [-> | ->]]; vm_compute; reflexivity.
  - reflexivity.
  - vm_compute. reflexivity.
Defined.

(** ** The point-layer creator, for every input *)

Lemma endswith_app (s p : string) : endswith (s +:+ p) p = true.
Proof.
  induction s as [|c s IH].
  - rewrite append_nil_l. destruct p; simpl; [reflexivity|].
    now rewrite Ascii.eqb_refl, String.eqb_refl.
  - rewrite append_cons. cbn [endswith]. rewrite IH. apply orb_true_r.
Qed.

(** X16: what the file dialog returned becomes the output path with [.shp] at
    its end: a path that ends in [.shp] is kept as it is, any other gets
    [.shp] appended, whatever extension it has; a dismissed dialog leaves no
    path. *)
Theorem chosen_file_ends_in_shp (file_path : string) :
  (AddPoint.choose_output_file file_path = None <-> file_path = EmptyString) /\
  (forall path, AddPoint.choose_output_file file_path = Some path ->
     endswith path ".shp" = true /\
     (endswith file_path ".shp" = true -> path = file_path) /\
     (endswith file_path ".shp" = false -> path = file_path +:+ ".shp") /\
     AddPoint.choose_output_file path = Some path /\
     AddPoint.chosen (Some path) = Some path).
Proof.
  unfold AddPoint.choose_output_file. split.
  - destruct (String.eqb_spec file_path EmptyString) as [->|Hne]; cbn [negb].
    + tauto.
    + split; [discriminate | tauto].
  - intros path. destruct (String.eqb_spec file_path EmptyString) as [->|Hne]; cbn [negb];
      [discriminate|].
    intros H. injection H as <-.
    assert (Hends : endswith (if negb (endswith file_path ".shp")
                              then file_path +:+ ".shp" else file_path) ".shp" = true).
    { destruct (endswith file_path ".shp") eqn:He; cbn [negb];
        [exact He | apply endswith_app]. }
    assert (Hnonempty : (if negb (endswith file_path ".shp")
                         then file_path +:+ ".shp" else file_path) <> EmptyString).
    { destruct (endswith file_path ".shp"); cbn [negb]; [exact Hne|].
      destruct file_path; [congruence|]. rewrite append_cons. discriminate. }
    split; [exact Hends|]. split; [|split; [|split]].
    + intros ->. reflexivity.
    + intros ->. reflexivity.
    + destruct (String.eqb_spec (if negb (endswith file_path ".shp")
                                 then file_path +:+ ".shp" else file_path) EmptyString)
        as [E|_]; [congruence|].
      cbn [negb]. now rewrite Hends.
    + unfold AddPoint.chosen.
      destruct (String.eqb_spec (if negb (endswith file_path ".shp")
                                 then file_path +:+ ".shp" else file_path) EmptyString)
        as [E|_]; [congruence | reflexivity].
Qed.

Lemma chosen_file_ends_in_shp_witness :
  AddPoint.choose_output_file "/data/gauge.SHP" = Some "/data/gauge.SHP.shp" /\
  endswith "/data/gauge.SHP.shp" ".shp" = true.
Proof.
  split; [reflexivity|].
  apply (proj2 (chosen_file_ends_in_shp "/data/gauge.SHP") "/data/gauge.SHP.shp" eq_refl).
Defined.

(** *** The memory layer's URI *)

Lemma split_on_cons (c : ascii) (s : string) :
  exists part parts, split_on c s = part :: parts.
Proof.
  induction s as [|a s (part & parts & IH)]; cbn [split_on]; [eauto|].
  destruct (Ascii.eqb a c); [eauto|]. rewrite IH. eauto.
Qed.

Lemma split_on_app (c : ascii) (a b : string) :
  split_on c (a +:+ String c b) = split_on c a ++ split_on c b.
Proof.
  induction a as [|x a IH].
  - rewrite append_nil_l. cbn [split_on]. now rewrite Ascii.eqb_refl.
  - rewrite append_cons. cbn [split_on]. rewrite IH.
    destruct (Ascii.eqb x c); [reflexivity|].
    destruct (split_on_cons c a) as (part & parts & ->). reflexivity.
Qed.

Lemma split_on_absent (c : ascii) (s : string) :
  contains c s = false -> split_on c s = [s].
Proof.
  unfold contains. induction s as [|a s IH]; [reflexivity|].
  cbn [list_ascii_of_string existsb split_on]. intros H.
  apply orb_false_iff in H as [Hc H].
  rewrite Ascii.eqb_sym, Hc, (IH H). reflexivity.
Qed.

Lemma cut_layer_uri (h : Host) :
  cut "?" (AddPoint.layer_uri h)
  = ("Point",
     Some ("crs=" +:+ crs_authid h
             +:+ "&field=id:integer&field=x:double&field=y:double&field=z:double&field=name:string")).
Proof. reflexivity. Qed.

(** The fields of the layer are those the URI declares: the five of the
    program, after any that the text of the project's CRS brings in. *)
Lemma fields_of_layer_uri (h : Host) :
  fields_of_query ("crs=" +:+ crs_authid h
    +:+ "&field=id:integer&field=x:double&field=y:double&field=z:double&field=name:string")
  = fields_of_query ("crs=" +:+ crs_authid h) ++ AddPoint.layer_fields.
Proof.
  unfold fields_of_query.
  rewrite <- append_assoc.
  rewrite (split_on_app "&" ("crs=" +:+ crs_authid h)
             "field=id:integer&field=x:double&field=y:double&field=z:double&field=name:string").
  rewrite omap_app. f_equal.
Qed.

Lemma fields_of_plain_crs (authid : string) :
  contains "&" authid = false -> fields_of_query ("crs=" +:+ authid) = [].
Proof.
  intros H. unfold fields_of_query. rewrite split_on_absent.
  - reflexivity.
  - rewrite !append_cons, append_nil_l. exact H.
Qed.

(** *** What a call of the creator does *)

(** With an output path: the writer, the file, the layer read back from it. *)
Lemma create_file_layer (h : Host) (layer_name : string) (x y z : float)
  (output_file_path : option string) (path : string) (w : World) :
  AddPoint.chosen output_file_path = Some path ->
  AddPoint.create_point_layer h layer_name x y z output_file_path w
  = if fails h writer_step
    then (Raise (Exception ("Error creating shapefile: " +:+ writer_error h)), w)
    else
      let feature := AddPoint.point_feature AddPoint.layer_fields layer_name x y z in
      let written := set_uid Z.succ
        (set_files (shapefile_files path (PointData [feature])
                      [".shx"; ".dbf"; ".prj"; ".cpg"]) w) in
      let layer :=
        {| vid := layer_name +:+ "_" +:+ digits_of_Z (uid w); vname := layer_name;
           vsource := path; vprovider := ogr; vvalid := negb (fails h ogr_step);
           vfields := fields (reloaded h feature); features := [reloaded h feature] |} in
      if fails h ogr_step
      then (Raise (Exception "Created layer is not valid"), written)
      else (Return layer, set_layers (insert (vid layer) (VectorLayer layer)) written).
Proof.
  intros Hchosen. destruct w as [fs ds ls cs dl u].
  unfold AddPoint.create_point_layer. rewrite Hchosen.
  cbv beta iota zeta delta [mbind external raise ret modify write_shapefile open_point_layer
    fresh_id gets addMapLayer set_files set_layers set_uid files directories layers calls
    dialogs uid layer_id vid vname vsource vprovider vvalid vfields features].
  destruct (fails h writer_step); [reflexivity|].
  rewrite shapefile_files_lookup. cbn [fmap list_fmap].
  destruct (fails h ogr_step); reflexivity.
Qed.

(** Without one: the memory layer of the URI, and the feature added to it. *)
Lemma create_memory_layer (h : Host) (layer_name : string) (x y z : float)
  (output_file_path : option string) (w : World) :
  AddPoint.chosen output_file_path = None ->
  AddPoint.create_point_layer h layer_name x y z output_file_path w
  = if fails h memory_step
    then (Raise (Exception "Failed to create memory layer"), set_uid Z.succ w)
    else
      let layer :=
        add_feature h
          {| vid := layer_name +:+ "_" +:+ digits_of_Z (uid w); vname := layer_name;
             vsource := AddPoint.layer_uri h; vprovider := memory; vvalid := true;
             vfields := fields_of_query ("crs=" +:+ crs_authid h) ++ AddPoint.layer_fields;
             features := [] |}
          (AddPoint.point_geometry x y z) (AddPoint.point_attributes layer_name x y z) in
      (Return layer, set_layers (insert (vid layer) (VectorLayer layer)) (set_uid Z.succ w)).
Proof.
  intros Hchosen. destruct w as [fs ds ls cs dl u].
  unfold AddPoint.create_point_layer. rewrite Hchosen.
  unfold open_memory_layer. rewrite cut_layer_uri. cbn [default]. unfold Datatypes.id.
  rewrite fields_of_layer_uri.
  cbv beta iota zeta delta [mbind external raise ret modify fresh_id gets addMapLayer
    set_files set_layers set_uid files directories layers calls dialogs uid layer_id].
  change (bool_decide (is_Some (declared_type "Point"))) with true.
  destruct (fails h memory_step); cbn [andb negb vvalid]; [reflexivity|].
  assert (Hvalid : forall l g vs, vvalid (add_feature h l g vs) = vvalid l).
  { intros l g vs. unfold add_feature. now destruct (stored_values _ _). }
  rewrite Hvalid. cbn [vvalid negb]. reflexivity.
Qed.

(** The feature a layer with the program's five fields stores. *)
Lemma add_point_feature (h : Host) (layer : QgsVectorLayer) (layer_name : string)
  (x y z : float) :
  vfields layer = AddPoint.layer_fields ->
  vsource layer = AddPoint.layer_uri h ->
  features (add_feature h layer (AddPoint.point_geometry x y z)
              (AddPoint.point_attributes layer_name x y z))
  = features layer ++
    [{| geometry :=
          if memory_keeps_z h then AddPoint.point_geometry x y z
          else {| wkbType := Point;
                  vertex := Some {| Qgis.x := x; Qgis.y := y; Qgis.z := nan |} |};
        attributes := zip AddPoint.layer_fields
                        (AddPoint.point_attributes layer_name x y z) |}].
Proof.
  intros Hfields Hsource. unfold add_feature. rewrite Hfields, Hsource, cut_layer_uri.
  cbn [fst]. change (declared_type "Point") with (Some Point).
  unfold stored_geometry. cbn [from_option hasZ]. rewrite orb_false_r.
  cbn. destruct (memory_keeps_z h); reflexivity.
Qed.

Lemma add_feature_frame (h : Host) (layer : QgsVectorLayer) (g : QgsGeometry)
  (values : list pyobject) :
  vid (add_feature h layer g values) = vid layer /\
  vname (add_feature h layer g values) = vname layer /\
  vsource (add_feature h layer g values) = vsource layer /\
  vprovider (add_feature h layer g values) = vprovider layer /\
  vvalid (add_feature h layer g values) = vvalid layer /\
  vfields (add_feature h layer g values) = vfields layer.
Proof. unfold add_feature. destruct (stored_values _ _); repeat split. Qed.

(** X17: a layer the creator returns is valid, has the given name and is
    registered under its id; no call to the toolbox and no dialog is made.
    Without an output path it is a memory layer over the URI of the program,
    with the fields that URI declares, and no file is written; when the id of
    the project's CRS holds no [&], the fields are id, x, y, z, name and the
    layer holds one feature, with the attributes 1, x, y, z and the name, its
    geometry the point (x, y, z) or, where the provider drops the Z for a
    layer declared as Point, the point (x, y).  With an output path it is an
    ogr layer over that path; the shapefile there holds the point (x, y, z)
    with its attributes, only that path and the files that go with it change,
    and the layer holds that feature as the provider reads it back. *)
Theorem created_layer_holds_the_point (h : Host) (layer_name : string) (x y z : float)
  (output_file_path : option string) (w w' : World) (layer : QgsVectorLayer) :
  AddPoint.create_point_layer h layer_name x y z output_file_path w = (Return layer, w') ->
  vname layer = layer_name /\
  vvalid layer = true /\
  layers w' = <[vid layer := VectorLayer layer]> (layers w) /\
  calls w' = calls w /\ dialogs w' = dialogs w /\
  match AddPoint.chosen output_file_path with
  | None =>
      vprovider layer = memory /\
      vsource layer = "Point?crs=" +:+ crs_authid h
        +:+ "&field=id:integer&field=x:double&field=y:double&field=z:double&field=name:string" /\
      fails h memory_step = false /\
      vfields layer = fields_of_query ("crs=" +:+ crs_authid h) ++ AddPoint.layer_fields /\
      files w' = files w /\
      (contains "&" (crs_authid h) = false ->
       field_names <$> features layer = [["id"; "x"; "y"; "z"; "name"]] /\
       attribute_values <$> features layer
       = [[PyInt 1; PyFloat x; PyFloat y; PyFloat z; PyStr layer_name]] /\
       geometry <$> features layer
       = [if memory_keeps_z h
          then {| wkbType := PointZ;
                  vertex := Some {| Qgis.x := x; Qgis.y := y; Qgis.z := z |} |}
          else {| wkbType := Point;
                  vertex := Some {| Qgis.x := x; Qgis.y := y; Qgis.z := nan |} |}])
  | Some path =>
      vprovider layer = ogr /\ vsource layer = path /\
      fails h writer_step = false /\ fails h ogr_step = false /\
      (exists f,
         files w' !! path = Some (PointData [f]) /\
         geometry f = {| wkbType := PointZ;
                         vertex := Some {| Qgis.x := x; Qgis.y := y; Qgis.z := z |} |} /\
         field_names f = ["id"; "x"; "y"; "z"; "name"] /\
         attribute_values f = [PyInt 1; PyFloat x; PyFloat y; PyFloat z; PyStr layer_name] /\
         features layer = [reloaded h f]) /\
      (forall p, p <> path ->
         p ∉ (sidecar path <$> [".shx"; ".dbf"; ".prj"; ".cpg"]) ->
         files w' !! p = files w !! p)
  end.
Proof.
  intros H. destruct (AddPoint.chosen output_file_path) as [path|] eqn:Hchosen.
  - rewrite (create_file_layer h layer_name x y z output_file_path path w Hchosen) in H.
    destruct (fails h writer_step) eqn:Hwriter; [discriminate|].
    cbv zeta in H. destruct (fails h ogr_step) eqn:Hogr; [discriminate|].
    injection H as <- <-. destruct w as [fs ds ls cs dl u].
    cbn [vname vvalid vid vprovider vsource features negb
         set_layers set_uid set_files layers calls dialogs files uid].
    repeat split.
    + exists (AddPoint.point_feature AddPoint.layer_fields layer_name x y z).
      split; [apply shapefile_files_lookup|]. repeat split.
    + intros p Hp Hs. now apply shapefile_files_frame.
  - rewrite (create_memory_layer h layer_name x y z output_file_path w Hchosen) in H.
    destruct (fails h memory_step) eqn:Hmemory; [discriminate|].
    cbv zeta in H. injection H as <- <-.
    match goal with
    | |- context [add_feature h ?l ?g ?vs] =>
        destruct (add_feature_frame h l g vs) as (Hid & Hname & Hsource & Hprov & Hvalid & Hfields);
        set (made := add_feature h l g vs) in *
    end.
    cbn [vid vname vsource vprovider vvalid vfields] in Hid, Hname, Hsource, Hprov, Hvalid, Hfields.
    destruct w as [fs ds ls cs dl u].
    cbn [set_layers set_uid layers calls dialogs files uid].
    split; [exact Hname|]. split; [exact Hvalid|].
    split; [reflexivity|]. split; [reflexivity|]. split; [reflexivity|].
    split; [exact Hprov|]. split; [exact Hsource|]. split; [reflexivity|].
    split; [exact Hfields|]. split; [reflexivity|].
    intros Hplain. subst made.
    rewrite (fields_of_plain_crs _ Hplain), app_nil_l.
    rewrite add_point_feature by reflexivity.
    cbn [features app fmap list_fmap]. repeat split.
Qed.

Lemma created_layer_holds_the_point_witness :
  (exists f,
     files (AddPoint.create_point_layer Examples.working_host "gauge" 641056.0 162787.0 88.86
              (Some "/data/gauge.shp") Examples.empty_world).2 !! "/data/gauge.shp"
     = Some (PointData [f]) /\
     attribute_values f
     = [PyInt 1; PyFloat 641056.0; PyFloat 162787.0; PyFloat 88.86; PyStr "gauge"]) /\
  (exists layer,
     (AddPoint.create_point_layer Examples.flattening_host "gauge" 641056.0 162787.0 88.86
        None Examples.empty_world).1 = Return layer /\
     attribute_values <$> features layer
     = [[PyInt 1; PyFloat 641056.0; PyFloat 162787.0; PyFloat 88.86; PyStr "gauge"]] /\
     geometry <$> features layer
     = [{| wkbType := Point;
           vertex := Some {| Qgis.x := 641056.0; Qgis.y := 162787.0; Qgis.z := nan |} |}]).
Proof.
  split.
  - destruct (created_layer_holds_the_point Examples.working_host "gauge"
                641056.0 162787.0 88.86 (Some "/data/gauge.shp") Examples.empty_world
                (AddPoint.create_point_layer Examples.working_host "gauge"
                   641056.0 162787.0 88.86 (Some "/data/gauge.shp") Examples.empty_world).2
                _ ltac:(vm_compute; reflexivity))
      as (_ & _ & _ & _ & _ & _ & _ & _ & _ & (f & Hfile & _ & _ & Hvalues & _) & _).
    exists f. split; [exact Hfile | exact Hvalues].
  - eexists. split; [vm_compute; reflexivity|].
    destruct (created_layer_holds_the_point Examples.flattening_host "gauge"
                641056.0 162787.0 88.86 None Examples.empty_world
                (AddPoint.create_point_layer Examples.flattening_host "gauge"
                   641056.0 162787.0 88.86 None Examples.empty_world).2
                _ ltac:(vm_compute; reflexivity))
      as (_ & _ & _ & _ & _ & _ & _ & _ & _ & _ & Hone).
    destruct (Hone ltac:(vm_compute; reflexivity)) as (_ & Hvalues & Hgeometry).
    split; [exact Hvalues | exact Hgeometry].
Defined.

(** X18: a creation that fails registers no layer, makes no call and shows no
    dialog, and it fails in one of three ways.  The shapefile writer reports
    an error, or the memory provider gives no valid layer: no file is
    written.  Or the shapefile that was written does not load as a valid
    layer: the shapefile and the files that go with it stay where they were
    written. *)
Theorem failed_creation_registers_nothing (h : Host) (layer_name : string) (x y z : float)
  (output_file_path : option string) (w w' : World) (e : exn) :
  AddPoint.create_point_layer h layer_name x y z output_file_path w = (Raise e, w') ->
  layers w' = layers w /\ calls w' = calls w /\ dialogs w' = dialogs w /\
  ((exists path,
      AddPoint.chosen output_file_path = Some path /\ fails h writer_step = true /\
      e = Exception ("Error creating shapefile: " +:+ writer_error h) /\
      files w' = files w) \/
   (AddPoint.chosen output_file_path = None /\ fails h memory_step = true /\
    e = Exception "Failed to create memory layer" /\
    files w' = files w) \/
   (exists path,
      AddPoint.chosen output_file_path = Some path /\
      fails h writer_step = false /\ fails h ogr_step = true /\
      e = Exception "Created layer is not valid" /\
      files w'
      = shapefile_files path
          (PointData [AddPoint.point_feature AddPoint.layer_fields layer_name x y z])
          [".shx"; ".dbf"; ".prj"; ".cpg"] (files w))).
Proof.
  intros H. destruct (AddPoint.chosen output_file_path) as [path|] eqn:Hchosen.
  - rewrite (create_file_layer h layer_name x y z output_file_path path w Hchosen) in H.
    destruct (fails h writer_step) eqn:Hwriter.
    + injection H as <- <-. repeat split. left. exists path. auto.
    + cbv zeta in H. destruct (fails h ogr_step) eqn:Hogr; [|discriminate].
      injection H as <- <-. destruct w as [fs ds ls cs dl u].
      cbn [set_uid set_files layers calls dialogs files]. repeat split.
      do 2 right. exists path. auto.
  - rewrite (create_memory_layer h layer_name x y z output_file_path w Hchosen) in H.
    destruct (fails h memory_step) eqn:Hmemory; [|discriminate].
    injection H as <- <-. destruct w as [fs ds ls cs dl u].
    cbn [set_uid layers calls dialogs files]. repeat split.
    right; left. auto.
Qed.

Lemma failed_creation_registers_nothing_witness :
  layers (AddPoint.create_point_layer (Examples.failing_host ogr_step) "gauge"
            641056.0 162787.0 88.86 (Some "/data/gauge.shp") Examples.empty_world).2
  = layers Examples.empty_world /\
  is_Some (files (AddPoint.create_point_layer (Examples.failing_host ogr_step) "gauge"
            641056.0 162787.0 88.86 (Some "/data/gauge.shp") Examples.empty_world).2
           !! "/data/gauge.shp").
Proof.
  destruct (failed_creation_registers_nothing (Examples.failing_host ogr_step) "gauge"
              641056.0 162787.0 88.86 (Some "/data/gauge.shp") Examples.empty_world
              (AddPoint.create_point_layer (Examples.failing_host ogr_step) "gauge"
                 641056.0 162787.0 88.86 (Some "/data/gauge.shp") Examples.empty_world).2
              (Exception "Created layer is not valid") ltac:(vm_compute; reflexivity))
    as (Hl & _ & _ & [(path & _ & Hwriter & _) | [(Hchosen & _) | (path & Hchosen & _ & _ & _ & Hfiles)]]).
  - discriminate Hwriter.
  - discriminate Hchosen.
  - split; [exact Hl|]. rewrite Hfiles. injection Hchosen as <-.
    rewrite shapefile_files_lookup. eauto.
Defined.

Lemma point_script_unfold (h : Host) (form : AddPoint.Form) (w : World) :
  AddPoint.accepted form = true ->
  AddPoint.script h form w
  = if String.eqb (strip (AddPoint.name_input form)) EmptyString
    then (Return None,
          set_dialogs (fun ds => ds ++ [(warning, "Input Error", "Layer name cannot be empty")]) w)
    else match AddPoint.create_point_layer h (strip (AddPoint.name_input form))
                 (AddPoint.x_spinbox form) (AddPoint.y_spinbox form) (AddPoint.z_spinbox form)
                 (AddPoint.output_file_path form) w with
         | (Return layer, w1) =>
             (Return (Some layer),
              set_dialogs (fun ds => ds ++
                [(information, "Success",
                  "Point layer '" +:+ strip (AddPoint.name_input form)
                    +:+ "' created successfully!" +:+ AddPoint.newline
                    +:+ "Point coordinates: (" +:+ repr (AddPoint.x_spinbox form) +:+ ", "
                    +:+ repr (AddPoint.y_spinbox form) +:+ ", "
                    +:+ repr (AddPoint.z_spinbox form) +:+ ")")]) w1)
         | (Raise e, w1) => if is_Exception e then (Return None, (report e w1).2)
                            else (Raise e, w1)
         end.
Proof.
  intros Hacc.
  unfold AddPoint.script, try_except, mbind, lift, AddPoint.get_user_inputs,
    AddPoint.get_values.
  rewrite Hacc.
  destruct (String.eqb (strip (AddPoint.name_input form)) EmptyString); cbn [bind].
  - reflexivity.
  - destruct (AddPoint.create_point_layer _ _ _ _ _ _ _) as [[layer|e] w1]; [reflexivity|].
    destruct (is_Exception e); [|reflexivity].
    unfold report, modify. now destruct (is_ValueError e).
Qed.

(** X19: a run of the point creator that is not cancelled ends normally and
    shows exactly one dialog.  Either a layer was made and registered and the
    dialog is the information "Success" with the name and the coordinates; or
    no layer was registered, and the dialog is the warning "Input Error" when
    the name is blank, and otherwise the critical "Unexpected Error" with the
    text of the error: that of the writer or of the memory provider, nothing
    written, or that of the shapefile that was written and does not load. *)
Theorem point_script_outcomes (h : Host) (form : AddPoint.Form) (w : World) :
  AddPoint.accepted form = true ->
  let layer_name := strip (AddPoint.name_input form) in
  (exists layer,
     (AddPoint.script h form w).1 = Return (Some layer) /\
     layer_name <> EmptyString /\
     vname layer = layer_name /\
     layers (AddPoint.script h form w).2 = <[vid layer := VectorLayer layer]> (layers w) /\
     dialogs (AddPoint.script h form w).2
     = dialogs w ++
       [(information, "Success",
         "Point layer '" +:+ layer_name +:+ "' created successfully!" +:+ AddPoint.newline
           +:+ "Point coordinates: (" +:+ repr (AddPoint.x_spinbox form) +:+ ", "
           +:+ repr (AddPoint.y_spinbox form) +:+ ", "
           +:+ repr (AddPoint.z_spinbox form) +:+ ")")]) \/
  ((AddPoint.script h form w).1 = Return None /\
   layers (AddPoint.script h form w).2 = layers w /\
   ((layer_name = EmptyString /\
     files (AddPoint.script h form w).2 = files w /\
     dialogs (AddPoint.script h form w).2
     = dialogs w ++ [(warning, "Input Error", "Layer name cannot be empty")]) \/
    (layer_name <> EmptyString /\
     AddPoint.chosen (AddPoint.output_file_path form) = None /\
     fails h memory_step = true /\
     files (AddPoint.script h form w).2 = files w /\
     dialogs (AddPoint.script h form w).2
     = dialogs w ++ [(critical, "Unexpected Error",
                      "An error occurred: Failed to create memory layer")]) \/
    (layer_name <> EmptyString /\
     AddPoint.chosen (AddPoint.output_file_path form) <> None /\
     fails h writer_step = true /\
     files (AddPoint.script h form w).2 = files w /\
     dialogs (AddPoint.script h form w).2
     = dialogs w ++ [(critical, "Unexpected Error",
                      "An error occurred: Error creating shapefile: " +:+ writer_error h)]) \/
    (exists path,
       layer_name <> EmptyString /\
       AddPoint.chosen (AddPoint.output_file_path form) = Some path /\
       fails h writer_step = false /\ fails h ogr_step = true /\
       is_Some (files (AddPoint.script h form w).2 !! path) /\
       dialogs (AddPoint.script h form w).2
       = dialogs w ++ [(critical, "Unexpected Error",
                        "An error occurred: Created layer is not valid")]))).
Proof.
  intros Hacc layer_name.
  rewrite (point_script_unfold h form w Hacc). fold layer_name.
  destruct (String.eqb_spec layer_name EmptyString) as [Hblank|Hname].
  - right. cbn [fst snd set_dialogs layers dialogs files].
    split; [reflexivity|]. split; [reflexivity|]. left. auto.
  - destruct (AddPoint.chosen (AddPoint.output_file_path form)) as [path|] eqn:Hchosen.
    + rewrite (create_file_layer h layer_name _ _ _ _ path w Hchosen).
      destruct (fails h writer_step) eqn:Hwriter.
      * right. cbn [is_Exception report is_ValueError modify fst snd exn_text].
        destruct w as [fs ds ls cs dl u].
        cbn [set_dialogs layers dialogs files]. split; [reflexivity|]. split; [reflexivity|].
        do 2 right; left. split; [exact Hname|]. split; [discriminate|].
        split; [reflexivity|]. split; reflexivity.
      * cbv zeta. destruct (fails h ogr_step) eqn:Hogr.
        -- right. cbn [is_Exception report is_ValueError modify fst snd exn_text].
           destruct w as [fs ds ls cs dl u].
           cbn [set_dialogs set_uid set_files layers dialogs files].
           split; [reflexivity|]. split; [reflexivity|].
           do 3 right. exists path. split; [exact Hname|]. split; [reflexivity|].
           split; [reflexivity|]. split; [reflexivity|]. split; [|reflexivity].
           rewrite shapefile_files_lookup. eauto.
        -- left. eexists. cbn [fst snd]. split; [reflexivity|].
           destruct w as [fs ds ls cs dl u].
           cbn [vname vid set_dialogs set_layers set_uid set_files layers dialogs].
           split; [exact Hname|]. split; [reflexivity|]. split; reflexivity.
    + rewrite (create_memory_layer h layer_name _ _ _ _ w Hchosen).
      destruct (fails h memory_step) eqn:Hmemory.
      * right. cbn [is_Exception report is_ValueError modify fst snd exn_text].
        destruct w as [fs ds ls cs dl u].
        cbn [set_dialogs set_uid layers dialogs files]. split; [reflexivity|].
        split; [reflexivity|]. right; left. split; [exact Hname|].
        split; [reflexivity|]. split; [reflexivity|]. split; reflexivity.
      * cbv zeta. left. eexists. cbn [fst snd]. split; [reflexivity|].
        match goal with
        | |- context [add_feature h ?l ?g ?vs] =>
            destruct (add_feature_frame h l g vs) as (_ & Hn & _)
        end.
        destruct w as [fs ds ls cs dl u].
        cbn [set_dialogs set_layers set_uid layers dialogs uid] in *.
        cbn [vname] in Hn.
        split; [exact Hname|]. split; [exact Hn|]. split; reflexivity.
Qed.

Lemma point_script_outcomes_witness :
  dialogs (AddPoint.script (Examples.failing_host writer_step)
             {| AddPoint.accepted := true; AddPoint.name_input := " gauge ";
                AddPoint.x_spinbox := 641056.0; AddPoint.y_spinbox := 162787.0;
                AddPoint.z_spinbox := 88.86;
                AddPoint.output_file_path := Some "/data/gauge.shp" |}
             Examples.empty_world).2
  = [(critical, "Unexpected Error",
      "An error occurred: Error creating shapefile: Opening of data source failed")].
Proof.
  destruct (point_script_outcomes (Examples.failing_host writer_step)
              {| AddPoint.accepted := true; AddPoint.name_input := " gauge ";
                 AddPoint.x_spinbox := 641056.0; AddPoint.y_spinbox := 162787.0;
                 AddPoint.z_spinbox := 88.86;
                 AddPoint.output_file_path := Some "/data/gauge.shp" |}
              Examples.empty_world eq_refl)
    as [(layer & Hrun & _) | (_ & _ & [(Hblank & _) | [(_ & Hchosen & _) | [(_ & _ & _ & _ & Hd) | (path & _ & _ & Hwriter & _)]]])].
  - discriminate Hrun.
  - discriminate Hblank.
  - discriminate Hchosen.
  - exact Hd.
  - discriminate Hwriter.
Defined.

(** ** The end-to-end scenario of the point creator *)

(** C9: with the name measurement_point, x = 641056.0, y = 162787.0, z = 88.86
    and no output file, on a host whose memory provider works and whose
    project CRS has an id without [&], the script makes a memory layer over
    the URI [Point?crs=<id>&field=id:integer&...], with the fields that URI
    declares, holding one feature whose attributes are 1, 641056.0, 162787.0,
    88.86 and the name; it registers the layer and writes no file. *)
Theorem measurement_point_scenario (h : Host) (w : World) :
  fails h memory_step = false ->
  contains "&" (crs_authid h) = false ->
  exists layer,
    (AddPoint.script h AddPoint.default_form w).1 = Return (Some layer) /\
    vprovider layer = memory /\
    vsource layer = "Point?crs=" +:+ crs_authid h
      +:+ "&field=id:integer&field=x:double&field=y:double&field=z:double&field=name:string" /\
    name <$> vfields layer = ["id"; "x"; "y"; "z"; "name"] /\
    field_names <$> features layer = [["id"; "x"; "y"; "z"; "name"]] /\
    attribute_values <$> features layer
    = [[PyInt 1; PyFloat 641056.0; PyFloat 162787.0; PyFloat 88.86; PyStr "measurement_point"]] /\
    layers (AddPoint.script h AddPoint.default_form w).2
    = <[vid layer := VectorLayer layer]> (layers w) /\
    files (AddPoint.script h AddPoint.default_form w).2 = files w.
Proof.
  intros Hmemory Hplain.
  rewrite (point_script_unfold h AddPoint.default_form w eq_refl).
  change (strip (AddPoint.name_input AddPoint.default_form)) with "measurement_point".
  change (String.eqb "measurement_point" EmptyString) with false. cbv iota.
  cbn [AddPoint.default_form AddPoint.x_spinbox AddPoint.y_spinbox AddPoint.z_spinbox
       AddPoint.output_file_path].
  rewrite (create_memory_layer h "measurement_point" _ _ _ None w eq_refl).
  rewrite Hmemory. cbv zeta.
  rewrite (fields_of_plain_crs _ Hplain), app_nil_l.
  eexists. cbn [fst snd]. split; [reflexivity|].
  match goal with
  | |- context [add_feature h ?l ?g ?vs] =>
      destruct (add_feature_frame h l g vs) as (_ & _ & Hsource & Hprov & _ & Hfields);
      pose proof (add_point_feature h l "measurement_point"
                    641056.0 162787.0 88.86 eq_refl eq_refl) as Hfeatures;
      set (made := add_feature h l g vs) in *
  end.
  cbn [vsource vprovider vfields features app] in Hsource, Hprov, Hfields, Hfeatures.
  destruct w as [fs ds ls cs dl u].
  cbn [set_dialogs set_layers set_uid layers files].
  split; [exact Hprov|]. split; [exact Hsource|].
  split; [now rewrite Hfields|].
  rewrite Hfeatures. repeat split.
Qed.

Lemma measurement_point_scenario_witness :
  exists layer,
    (AddPoint.script Examples.working_host AddPoint.default_form Examples.empty_world).1
    = Return (Some layer) /\
    attribute_values <$> features layer
    = [[PyInt 1; PyFloat 641056.0; PyFloat 162787.0; PyFloat 88.86; PyStr "measurement_point"]].
Proof.
  destruct (measurement_point_scenario Examples.working_host Examples.empty_world
              eq_refl eq_refl)
    as (layer & Hrun & _ & _ & _ & _ & Hattrs & _).
  exists layer. split; [exact Hrun | exact Hattrs].
Defined.

(** ** What the flood form offers *)

Lemma mapLayers_values_elem (w : World) (l : QgsMapLayer) :
  l ∈ mapLayers_values w <-> exists id, layers w !! id = Some l.
Proof.
  unfold mapLayers_values. rewrite list_elem_of_fmap. split.
  - intros ([id l'] & -> & Hin). apply elem_of_map_to_list in Hin. eauto.
  - intros [id Hid]. exists (id, l). split; [reflexivity|]. now apply elem_of_map_to_list.
Qed.

Lemma populate_point_elem (w : World) (n : string) (l : QgsVectorLayer) :
  (n, l) ∈ populate_point_layers w <->
  n = vname l /\ exists id, layers w !! id = Some (VectorLayer l).
Proof.
  unfold populate_point_layers. rewrite list_elem_of_omap. split.
  - intros (layer & Hin & Hsome). apply mapLayers_values_elem in Hin.
    destruct layer as [v|p|r]; try discriminate. injection Hsome as <- <-. auto.
  - intros (-> & Hid). exists (VectorLayer l). split; [|reflexivity].
    now apply mapLayers_values_elem.
Qed.

Lemma populate_raster_elem (w : World) (n : string) (l : QgsRasterLayer) :
  (n, l) ∈ populate_raster_layers w <->
  n = rname l /\ exists id, layers w !! id = Some (RasterLayer l).
Proof.
  unfold populate_raster_layers. rewrite list_elem_of_omap. split.
  - intros (layer & Hin & Hsome). apply mapLayers_values_elem in Hin.
    destruct layer as [v|p|r]; try discriminate. injection Hsome as <- <-. auto.
  - intros (-> & Hid). exists (RasterLayer l). split; [|reflexivity].
    now apply mapLayers_values_elem.
Qed.

Lemma currentData_elem {A} (items : list (string * A)) (i : nat) (a : A) :
  currentData items i = Some a -> exists n, (n, a) ∈ items.
Proof.
  unfold currentData. destruct (items !! i) as [[n a']|] eqn:Hi; [|discriminate].
  intros H. injection H as <-. exists n. eapply list_elem_of_lookup_2. exact Hi.
Qed.

(** X20: the form offers as DEM exactly the registered raster layers and as
    point layer exactly the registered point layers, each under its name; a
    polygon layer, such as the result of an earlier run, is offered in neither
    box.  The layers the form hands on are therefore registered ones. *)
Theorem form_offers_registered_layers (h : Host) (w : World) :
  (forall n l, (n, l) ∈ populate_raster_layers w <->
     n = rname l /\ exists id, layers w !! id = Some (RasterLayer l)) /\
  (forall n l, (n, l) ∈ populate_point_layers w <->
     n = vname l /\ exists id, layers w !! id = Some (VectorLayer l)) /\
  (forall c dem_layer point_layer base_elevation level extent,
     Level.get_values h (dialog w c)
     = Return (dem_layer, point_layer, base_elevation, level, extent) ->
     (exists id, layers w !! id = Some (RasterLayer dem_layer)) /\
     (exists id, layers w !! id = Some (VectorLayer point_layer)) /\
     level = level_value c).
Proof.
  split; [apply populate_raster_elem | split; [apply populate_point_elem|]].
  intros c d p b l e H. apply get_values_inv in H as (Hd & Hp & _ & Hl).
  cbn [dialog dem_combo point_combo level_spinbox] in *.
  apply currentData_elem in Hd as [n Hd]. apply populate_raster_elem in Hd as [_ Hd].
  apply currentData_elem in Hp as [m Hp]. apply populate_point_elem in Hp as [_ Hp].
  auto.
Qed.

Lemma populate_raster_nil (w : World) :
  (forall id l, layers w !! id <> Some (RasterLayer l)) -> populate_raster_layers w = [].
Proof.
  intros Hno. destruct (populate_raster_layers w) as [|[n l] rest] eqn:Hp; [reflexivity|].
  assert (Hin : (n, l) ∈ populate_raster_layers w) by (rewrite Hp; left).
  apply populate_raster_elem in Hin as (_ & id & Hid). now destruct (Hno id l).
Qed.

Lemma populate_point_nil (w : World) :
  (forall id l, layers w !! id <> Some (VectorLayer l)) -> populate_point_layers w = [].
Proof.
  intros Hno. destruct (populate_point_layers w) as [|[n l] rest] eqn:Hp; [reflexivity|].
  assert (Hin : (n, l) ∈ populate_point_layers w) by (rewrite Hp; left).
  apply populate_point_elem in Hin as (_ & id & Hid). now destruct (Hno id l).
Qed.

(** X21: over a project without a raster layer, or with rasters but without a
    point layer, the accepted form is rejected whatever the user chose: the
    script shows the warning for the missing layer and does nothing else. *)
Theorem project_without_layers_is_rejected (h : Host) (w : World) (c : Choices) :
  ok c = true ->
  ((forall id l, layers w !! id <> Some (RasterLayer l)) ->
   Level.script h (dialog w c) w
   = (Return tt, set_dialogs (fun ds => ds ++ [(warning, "Input Error", "No DEM layer selected")]) w)) /\
  ((forall id l, layers w !! id <> Some (VectorLayer l)) ->
   is_Some (currentData (populate_raster_layers w) (dem_index c)) ->
   Level.script h (dialog w c) w
   = (Return tt, set_dialogs (fun ds => ds ++ [(warning, "Input Error", "No point layer selected")]) w)).
Proof.
  intros Hok. split.
  - intros Hno.
    rewrite (script_on_rejected_input h (dialog w c) w (ValueError "No DEM layer selected"));
      [reflexivity | exact Hok |].
    unfold Level.get_values. cbn [dialog dem_combo].
    rewrite (populate_raster_nil w Hno). reflexivity.
  - intros Hno [d Hd].
    rewrite (script_on_rejected_input h (dialog w c) w (ValueError "No point layer selected"));
      [reflexivity | exact Hok |].
    unfold Level.get_values. cbn [dialog dem_combo point_combo].
    rewrite Hd, (populate_point_nil w Hno). reflexivity.
Qed.

Lemma project_without_layers_is_rejected_witness :
  Level.script Examples.working_host
    (dialog Examples.empty_world
       {| ok := true; dem_index := 0; point_index := 0; level_value := 10.0;
          use_canvas := true; extent_text := EmptyString |})
    Examples.empty_world
  = (Return tt,
     set_dialogs (fun ds => ds ++ [(warning, "Input Error", "No DEM layer selected")])
       Examples.empty_world).
Proof.
  apply (proj1 (project_without_layers_is_rejected Examples.working_host Examples.empty_world
                  {| ok := true; dem_index := 0; point_index := 0; level_value := 10.0;
                     use_canvas := true; extent_text := EmptyString |} eq_refl)).
  intros id l H. cbn [Examples.empty_world layers] in H. rewrite lookup_empty in H.
  discriminate H.
Defined.

(** X22: the two scripts fit together.  A layer the point creator returns is
    offered by the flood form under its name.  When the memory layer holds the
    point, or the shapefile reads back as it was written, the base elevation
    read from the layer is the Z that was entered: taken from the geometry,
    where a Z that is not a number makes the extraction fail, or, where the
    memory provider has dropped the Z of the geometry, taken from the
    attribute z as it is. *)
Theorem created_point_is_a_reference (h : Host) (layer_name : string) (x y z : float)
  (output_file_path : option string) (w w' : World) (layer : QgsVectorLayer) :
  AddPoint.create_point_layer h layer_name x y z output_file_path w = (Return layer, w') ->
  (layer_name, layer) ∈ populate_point_layers w' /\
  (match AddPoint.chosen output_file_path with
   | None => contains "&" (crs_authid h) = false
   | Some _ =>
       reloaded h (AddPoint.point_feature AddPoint.layer_fields layer_name x y z)
       = AddPoint.point_feature AddPoint.layer_fields layer_name x y z
   end ->
   get_base_elevation_from_point (Some layer)
   = if is_nan z && match AddPoint.chosen output_file_path with
                    | None => memory_keeps_z h
                    | Some _ => true
                    end
     then Raise InvalidValueError else Return z).
Proof.
  intros H.
  assert (Hgeometry : forall l f rest,
            features l = f :: rest ->
            geometry f = AddPoint.point_geometry x y z ->
            get_base_elevation_from_point (Some l)
            = if is_nan z then Raise InvalidValueError else Return z).
  { intros l f rest Hf Hg.
    rewrite (extraction_first_feature l f rest {| Qgis.x := x; Qgis.y := y; Qgis.z := z |} Hf)
      by now rewrite Hg.
    rewrite Hg. cbn [AddPoint.point_geometry asPoint wkbType is_single_point bind Qgis.z].
    rewrite bool_decide_eq_true_2 by (right; left).
    unfold is_nan. now destruct (z =? z)%float. }
  destruct (AddPoint.chosen output_file_path) as [path|] eqn:Hchosen.
  - rewrite (create_file_layer h layer_name x y z output_file_path path w Hchosen) in H.
    destruct (fails h writer_step); [discriminate|].
    cbv zeta in H. destruct (fails h ogr_step); [discriminate|].
    injection H as <- <-. destruct w as [fs ds ls cs dl u]. split.
    + apply populate_point_elem. split; [reflexivity|].
      eexists. cbn [set_layers layers vid]. apply lookup_insert_eq.
    + intros Hread. rewrite andb_true_r.
      apply (Hgeometry _ (reloaded h (AddPoint.point_feature AddPoint.layer_fields
                                        layer_name x y z)) []); [reflexivity|].
      now rewrite Hread.
  - rewrite (create_memory_layer h layer_name x y z output_file_path w Hchosen) in H.
    destruct (fails h memory_step); [discriminate|].
    cbv zeta in H. injection H as <- <-.
    match goal with
    | |- context [add_feature h ?l ?g ?vs] =>
        destruct (add_feature_frame h l g vs) as (_ & Hname & _);
        set (made := add_feature h l g vs) in *
    end.
    cbn [vname] in Hname. destruct w as [fs ds ls cs dl u]. split.
    + apply populate_point_elem. split; [now rewrite Hname|].
      eexists. cbn [set_layers layers]. apply lookup_insert_eq.
    + intros Hplain. subst made.
      rewrite (fields_of_plain_crs _ Hplain), app_nil_l.
      match goal with
      | |- context [add_feature h ?l ?g ?vs] =>
          pose proof (add_point_feature h l layer_name x y z eq_refl eq_refl) as Hf;
          set (made := add_feature h l g vs) in *
      end.
      cbn [features app] in Hf.
      destruct (memory_keeps_z h).
      * rewrite andb_true_r. now apply (Hgeometry made _ [] Hf).
      * rewrite andb_false_r.
        rewrite (extraction_first_feature made _ []
                   {| Qgis.x := x; Qgis.y := y; Qgis.z := nan |} Hf) by reflexivity.
        reflexivity.
Qed.

Lemma created_point_is_a_reference_witness :
  (exists layer,
     (AddPoint.create_point_layer Examples.working_host "measurement_point"
        641056.0 162787.0 88.86 None Examples.empty_world).1 = Return layer /\
     get_base_elevation_from_point (Some layer) = Return 88.86%float) /\
  (exists layer,
     (AddPoint.create_point_layer Examples.flattening_host "measurement_point"
        641056.0 162787.0 88.86 None Examples.empty_world).1 = Return layer /\
     wkbType <$> (geometry <$> features layer) = [Point] /\
     get_base_elevation_from_point (Some layer) = Return 88.86%float).
Proof.
  split.
  - eexists. split; [vm_compute; reflexivity|].
    exact (proj2 (created_point_is_a_reference Examples.working_host "measurement_point"
                    641056.0 162787.0 88.86 None Examples.empty_world
                    (AddPoint.create_point_layer Examples.working_host "measurement_point"
                       641056.0 162787.0 88.86 None Examples.empty_world).2 _
                    ltac:(vm_compute; reflexivity)) ltac:(vm_compute; reflexivity)).
  - eexists. split; [vm_compute; reflexivity|]. split; [reflexivity|].
    exact (proj2 (created_point_is_a_reference Examples.flattening_host "measurement_point"
                    641056.0 162787.0 88.86 None Examples.empty_world
                    (AddPoint.create_point_layer Examples.flattening_host "measurement_point"
                       641056.0 162787.0 88.86 None Examples.empty_world).2 _
                    ltac:(vm_compute; reflexivity)) ltac:(vm_compute; reflexivity)).
Defined.

Lemma form_offers_registered_layers_witness :
  exists id,
    layers (Examples.project (Examples.point_layer [Examples.west_mark])) !! id
    = Some (VectorLayer (Examples.point_layer [Examples.west_mark])).
Proof.
  destruct (proj2 (proj2 (form_offers_registered_layers Examples.working_host
                            (Examples.project (Examples.point_layer [Examples.west_mark]))))
              {| ok := true; dem_index := 0; point_index := 0; level_value := 10.0;
                 use_canvas := true; extent_text := EmptyString |}
              Examples.srtm (Examples.point_layer [Examples.west_mark]) 88.86%float 10.0%float
              "640000.0,643000.0,161000.0,164000.0 [EPSG:23700]"
              ltac:(vm_compute; reflexivity)) as (_ & H & _).
  exact H.
Defined.
